(** * proxy/PUT.go: the PUT handler of the gateway

    A shallow embedding of [PUT], [invalidPUT], [unsuccessfulPUT], [jsonPUT],
    [xmlPUT] and [rawPUT].  The handler talks to three things that are not
    part of the file: the [http.ResponseWriter] it is handed, the Go
    libraries it calls ([encoding/json], [encoding/xml], [net/http]'s client)
    and four names of package [proxy] declared in other files
    ([requestPreprocessing], [invalidPOST], [notifyClientOfRequestError] and
    the constants).  The response writer is modelled as state, following
    net/http's rules for the status line; the libraries and the package's
    other names are the fields of an environment [Env].  A handler that
    dereferences a nil pointer panics: the trace records it and the handler
    does nothing more. *)

From stdpp Require Import gmap strings list fin_maps pretty.
From Stdlib Require Import ZArith Lia.
From Stdlib Require Strings.Byte.

Open Scope Z_scope.
Open Scope string_scope.
Open Scope list_scope.

Set Warnings "-register-all".

(** ** Data *)

(** [[]byte]. *)
Abbreviation bytes := (list Byte.byte).

#[global] Instance byte_eq_decision : EqDecision Byte.byte :=
  Strings.Byte.byte_eq_dec.

(** An [error] value, carried by its message ([err.Error()]). *)
Abbreviation error := string.

(** [http.Header], a [map[string][]string].  Every key the handler passes to
    [Get] and [Set] is a literal already in canonical MIME form, so [Get] and
    [Set] are a lookup and an insert at that key. *)
Abbreviation Header := (gmap string (list string)).

Definition Header_Get (h : Header) (k : string) : string :=
  match h !! k with
  | Some (v :: _) => v
  | _ => ""
  end.

Definition Header_Set (h : Header) (k v : string) : Header := <[k := [v]]> h.

(** What an [interface{}] holds in this file: nothing, the tree a decoder
    built, the [map[string]interface{}] literal of [invalidPUT] and its
    members. *)
Inductive value : Type :=
| VNil
| VBool (b : bool)
| VNum (n : Z)
| VString (s : string)
| VError (e : error)
| VSlice (l : list value)
| VMap (m : gmap string value).

(** A body stream ([io.ReadCloser]): the bytes it yields, then end of file
    or a read error; and what [Close] returns. *)
Record Body := {
  body_data : bytes;
  body_readErr : option error;
  body_closeErr : option error;
}.

(** [ioutil.ReadAll(b)]: the bytes read and the error that stopped it. *)
Definition ReadAll (b : Body) : bytes * option error :=
  (body_data b, body_readErr b).

(** [ioutil.ReadAll(io.LimitReader(b, n))].  The limited reader answers end
    of file once it has handed out [n] bytes and does not touch the stream
    again, so an error lying behind the [n]-th byte is never seen. *)
Definition ReadAll_Limit (b : Body) (n : Z) : bytes * option error :=
  if decide (Z.of_nat (length (body_data b)) < n)
  then (body_data b, body_readErr b)
  else (take (Z.to_nat n) (body_data b), None).

(** The inbound [*http.Request], as far as the handler looks at it. *)
Record Request := {
  req_Header : Header;
  req_Body : Body;
}.

(** The request built by [http.NewRequest(method, url, body)] and sent. *)
Record OutRequest := {
  out_Method : string;
  out_URL : string;
  out_Header : Header;
  out_Body : bytes;
}.

(** [*http.Response]. *)
Record Response := {
  resp_StatusCode : Z;
  resp_Header : Header;
  resp_Body : Body;
}.

(** [http.Client]: the timeout in seconds and whether [CheckRedirect]
    answers [http.ErrUseLastResponse] (redirects are handed back, not
    followed). *)
Record Client := {
  client_Timeout : Z;
  client_NoFollow : bool;
}.

Definition StatusOK : Z := 200.
Definition StatusFound : Z := 302.
Definition StatusUnprocessableEntity : Z := 422.
Definition StatusBadGateway : Z := 502.

(** ** The response writer *)

(** An [http.ResponseWriter] as net/http's server implements it: the status
    line goes out once, with the header map as it stands at that moment; a
    later [WriteHeader] is dropped (and logged as superfluous); [Write]
    sends the status line with 200 first if none went out, answers a write
    of no bytes without looking further, and refuses bytes under a status
    that allows no body.  [rw_broken] is the error a write to the
    connection ends in, if any.  The writer is one without a declared
    Content-Length (PUT.go sets none), so there is no length to hold the
    body against. *)
Record ResponseWriter := {
  rw_header : Header;
  rw_wroteHeader : bool;
  rw_status : Z;
  rw_sent : Header;
  rw_body : bytes;
  rw_superfluous : nat;
  rw_broken : option error;
}.

Definition rw_Set (w : ResponseWriter) (k v : string) : ResponseWriter :=
  {| rw_header := Header_Set (rw_header w) k v;
     rw_wroteHeader := rw_wroteHeader w; rw_status := rw_status w;
     rw_sent := rw_sent w; rw_body := rw_body w;
     rw_superfluous := rw_superfluous w; rw_broken := rw_broken w |}.

Definition rw_WriteHeader (w : ResponseWriter) (code : Z) : ResponseWriter :=
  if rw_wroteHeader w
  then {| rw_header := rw_header w;
          rw_wroteHeader := true; rw_status := rw_status w;
          rw_sent := rw_sent w; rw_body := rw_body w;
          rw_superfluous := S (rw_superfluous w); rw_broken := rw_broken w |}
  else {| rw_header := rw_header w;
          rw_wroteHeader := true; rw_status := code;
          rw_sent := rw_header w; rw_body := rw_body w;
          rw_superfluous := rw_superfluous w; rw_broken := rw_broken w |}.

(** net/http's [bodyAllowedForStatus]: no body goes out under an
    informational status, 204 or 304. *)
Definition bodyAllowedForStatus (status : Z) : bool :=
  if decide (100 ≤ status ∧ status ≤ 199)%Z then false
  else if decide (status = 204) then false
  else if decide (status = 304) then false
  else true.

(** [http.ErrBodyNotAllowed]. *)
Definition ErrBodyNotAllowed : error :=
  "http: request method or response status code does not allow body".

(** [w.Write(b)], in the order of net/http's [response.write]: the implicit
    [WriteHeader(200)], the early return on no bytes, the check of the
    status, the write to the connection. *)
Definition rw_Write (w : ResponseWriter) (b : bytes)
  : ResponseWriter * option error :=
  let w1 := if rw_wroteHeader w then w else rw_WriteHeader w StatusOK in
  if decide (b = []) then (w1, None)
  else if bodyAllowedForStatus (rw_status w1) then
    match rw_broken w1 with
    | Some e => (w1, Some e)
    | None =>
        ({| rw_header := rw_header w1;
            rw_wroteHeader := rw_wroteHeader w1; rw_status := rw_status w1;
            rw_sent := rw_sent w1; rw_body := rw_body w1 ++ b;
            rw_superfluous := rw_superfluous w1; rw_broken := rw_broken w1 |},
         None)
    end
  else (w1, Some ErrBodyNotAllowed).

(** The status a body written to [w] goes out under when the handler asks
    for [code]: the one that is out already, if one is. *)
Definition status_in_force (w : ResponseWriter) (code : Z) : Z :=
  if rw_wroteHeader w then rw_status w else code.

(** How many status lines the handler has asked for: the one that went out
    and the ones that were dropped. *)
Definition statusLines (w : ResponseWriter) : nat :=
  (if rw_wroteHeader w then 1 else 0)%nat + rw_superfluous w.

(** ** Effects other than the response *)

(** The severities of package [logger] the handler uses. *)
Inductive Level := DEBUG | WARN | ERR.

(** What the handler does to the world besides writing the response, in the
    order it does it. *)
Inductive Event :=
| EvLog (lvl : Level) (msg : string)          (* logger.Log *)
| EvLogResp (lvl : Level) (resp : option Response) (* logger.LogResp *)
| EvReadBody (limit : Z)   (* ioutil.ReadAll(io.LimitReader(r.Body, limit)) *)
| EvCloseBody                                 (* r.Body.Close() *)
| EvDo (c : Client) (req : OutRequest)        (* client.Do(req) *)
| EvReadResp                                  (* ioutil.ReadAll(resp.Body) *)
| EvCloseResp                                 (* resp.Body.Close() *)
| EvPanic.                  (* nil pointer dereference: the handler panics *)

(** The state a call threads: the response writer and the trace so far. *)
Record State := {
  st_w : ResponseWriter;
  st_trace : list Event;
}.

Definition on_w (f : ResponseWriter → ResponseWriter) (s : State) : State :=
  {| st_w := f (st_w s); st_trace := st_trace s |}.

Definition emit (e : Event) (s : State) : State :=
  {| st_w := st_w s; st_trace := st_trace s ++ [e] |}.

Definition Log (lvl : Level) (msg : string) (s : State) : State :=
  emit (EvLog lvl msg) s.

(** ** What the file takes from elsewhere *)

(** The constants and helpers of package [proxy] declared outside PUT.go
    and the library calls.  [Unmarshal] is given by the value it leaves in
    the (nil) [interface{}] it is pointed at, and its error; [Marshal] by
    the bytes or the error; [url.Parse] by the error, if any.  The three
    helpers are handed the writer (and the request, through its pointer):
    they are given by what they do to those; the trace holds the effects of
    PUT.go's own statements. *)
Record Env := {
  MaxRequestSize : Z;
  MaxFileUploadSize : Z;
  Timeout : Z;
  JSONHeader : string;
  XMLHeader : string;
  json_Unmarshal : bytes → value * option error;
  json_Marshal : value → bytes + error;
  xml_Unmarshal : bytes → value * option error;
  xml_Marshal : value → bytes + error;
  http_StatusText : Z → string;
  url_Parse : string → option error;
  client_Do : Client → OutRequest → Response + error;
  requestPreprocessing :
    ResponseWriter → Request → ResponseWriter * Request * option error;
  invalidPOST : ResponseWriter → error → ResponseWriter;
  notifyClientOfRequestError : ResponseWriter → Z → string → ResponseWriter;
}.

(** The [*http.Request] that [http.NewRequest] hands back when it accepts
    its arguments: the header map is empty. *)
Definition newRequest (method url : string) (content : bytes) : OutRequest :=
  {| out_Method := method; out_URL := url; out_Header := ∅;
     out_Body := content |}.

(** [http.NewRequest(method, url, bytes.NewBuffer(content))]: a nil request
    and an error when the url does not parse.  (It also refuses a method
    that is not a token; every call of this file passes the literal PUT.) *)
Definition NewRequest (env : Env) (method url : string) (content : bytes)
  : OutRequest + error :=
  match url_Parse env url with
  | Some err => inr err
  | None => inl (newRequest method url content)
  end.

Definition out_Set (req : OutRequest) (k v : string) : OutRequest :=
  {| out_Method := out_Method req; out_URL := out_URL req;
     out_Header := Header_Set (out_Header req) k v;
     out_Body := out_Body req |}.

(** [for k, vs := range r.Header { req.Header[k] = make(..); copy(..) }] *)
Definition copyHeaders (r : Request) (req : OutRequest) : OutRequest :=
  {| out_Method := out_Method req; out_URL := out_URL req;
     out_Header :=
       map_fold (λ k vs h, <[k := vs]> h) (out_Header req) (req_Header r);
     out_Body := out_Body req |}.

Definition newline : Byte.byte := Byte.x0a.

Section Handler.
Context (env : Env).

(** [json.NewEncoder(w).Encode(v)]: marshal, then one [Write] of the bytes
    and a newline. *)
Definition Encode (s : State) (v : value) : State * option error :=
  match json_Marshal env v with
  | inr err => (s, Some err)
  | inl b =>
      let (w, err) := rw_Write (st_w s) (b ++ [newline]) in
      ({| st_w := w; st_trace := st_trace s |}, err)
  end.

(** An [error] stored in an [interface{}]; a nil error is a nil interface. *)
Definition error_value (err : option error) : value :=
  match err with
  | Some e => VError e
  | None => VNil
  end.

(** The map literal of [invalidPUT]. *)
Definition invalidPUT_data (err : option error) : gmap string value :=
  <["Code" := VNum StatusUnprocessableEntity]>
    (<["Text" := VString "Unprocessable Entity"]>
       (<["Specfically" := error_value err]> ∅)).

Definition invalidPUT (s : State) (err : option error) : State :=
  let s := on_w (λ w, rw_Set w "Content-Type" "application/json; charset=UTF-8") s in
  let s := on_w (λ w, rw_WriteHeader w StatusUnprocessableEntity) s in
  let data := VMap (invalidPUT_data err) in
  match Encode s data with
  | (s, Some err) =>
      on_w (λ w, notifyClientOfRequestError env w StatusBadGateway "")
          (Log ERR err s)
  | (s, None) => s
  end.

Definition unsuccessfulPUT (s : State) (format : string) (content : bytes)
    (err : option error) : State :=
  let finish (data : value) : State :=
    match Encode s data with
    | (s, Some err) =>
        on_w (λ w, notifyClientOfRequestError env w StatusBadGateway "")
          (Log ERR err s)
    | (s, None) => s
    end in
  if decide (format = "JSON") then finish (fst (json_Unmarshal env content))
  else if decide (format = "XML") then finish (fst (xml_Unmarshal env content))
  else on_w (λ w, fst (rw_Write w content)) s.

(** The client of [jsonPUT] and [xmlPUT] (lines 151-156, 224-229): the
    package's timeout, redirects handed back. *)
Definition noRedirectClient : Client :=
  {| client_Timeout := Timeout env; client_NoFollow := true |}.

(** The client of [rawPUT] (line 304): the package's timeout only. *)
Definition defaultClient : Client :=
  {| client_Timeout := Timeout env; client_NoFollow := false |}.

(** What [jsonPUT] does to the headers of the request it got from
    [NewRequest] (lines 142-149): copy, then set. *)
Definition jsonPUT_headers (r : Request) (token : string) (req : OutRequest)
  : OutRequest :=
  let req := copyHeaders r req in
  let req := out_Set req "Content-Type" (JSONHeader env) in
  if decide (token ≠ "") then out_Set req "Authorization" token else req.

(** What [xmlPUT] does to them (lines 214-222): set, then copy. *)
Definition xmlPUT_headers (r : Request) (token : string) (req : OutRequest)
  : OutRequest :=
  let req := out_Set req "Content-Type" (XMLHeader env) in
  let req := copyHeaders r req in
  if decide (token ≠ "") then out_Set req "Authorization" token else req.

(** What [rawPUT] does to them (lines 295-302). *)
Definition rawPUT_headers (r : Request) (token : string) (req : OutRequest)
  : OutRequest :=
  let req := copyHeaders r req in
  if decide (token ≠ "") then out_Set req "Authorization" token else req.

(** The request [jsonPUT] sends when [NewRequest] has accepted the url
    (lines 140-149). *)
Definition jsonPUT_request (r : Request) (url token : string)
    (content : bytes) : OutRequest :=
  jsonPUT_headers r token (newRequest "PUT" url content).

(** The request [xmlPUT] sends then (lines 213-222). *)
Definition xmlPUT_request (r : Request) (url token : string)
    (content : bytes) : OutRequest :=
  xmlPUT_headers r token (newRequest "PUT" url content).

(** The request [rawPUT] sends then (lines 293-302). *)
Definition rawPUT_request (r : Request) (url token : string)
    (content : bytes) : OutRequest :=
  rawPUT_headers r token (newRequest "PUT" url content).

(** What the outbound Authorization header is to be: the token when there
    is one, whatever the inbound request carried otherwise. *)
Definition Authorization_of (r : Request) (token : string)
  : option (list string) :=
  if decide (token = "") then req_Header r !! "Authorization"
  else Some [token].

(** The value [logger.LogResp] is handed: [resp] is nil when [Do] failed. *)
Definition resp_of (res : Response + error) : option Response :=
  match res with
  | inl resp => Some resp
  | inr _ => None
  end.

Definition jsonPUT (r : Request) (s : State) (url token : string)
    (data : value) : State :=
  match json_Marshal env data with
  | inr err => Log ERR err (on_w (λ w, invalidPOST env w err) s)
  | inl content =>
      match NewRequest env "PUT" url content with
      | inr _ =>
          (* the error is dropped and [req] is nil: the first use of
             [req.Header] (line 143, or 146 when the inbound header map is
             empty) dereferences it *)
          emit EvPanic s
      | inl req =>
          let req := jsonPUT_headers r token req in
          let client := noRedirectClient in
          let res := client_Do env client req in
          let s := emit (EvDo client req) s in
          let s := emit (EvLogResp DEBUG (resp_of res)) s in
          match res with
          | inr err => Log ERR err (invalidPUT s (Some err))
          | inl resp =>
              if decide (resp_StatusCode resp = StatusFound) then
                let s := Log DEBUG "Service Returned Redirect" s in
                let s := on_w (λ w, rw_Set w "Location"
                                      (Header_Get (resp_Header resp) "Location")) s in
                on_w (λ w, rw_WriteHeader w StatusFound) s
              else if decide (resp_StatusCode resp ≠ StatusOK) then
                let s := Log WARN ("SERVICE FAILED - SERVICE RETURNED STATUS "
                                   ++ http_StatusText env (resp_StatusCode resp)) s in
                let s := on_w (λ w, rw_Set w "Content-Type"
                                      "application/json; charset=UTF-8") s in
                let s := on_w (λ w, rw_WriteHeader w (resp_StatusCode resp)) s in
                let s := emit EvReadResp s in
                let (content, readErr) := ReadAll (resp_Body resp) in
                unsuccessfulPUT s "JSON" content readErr
              else
                (* defer resp.Body.Close(): [EvCloseResp] ends every path below *)
                let s := emit EvReadResp s in
                let contents := fst (ReadAll (resp_Body resp)) in
                match json_Unmarshal env contents with
                | (_, Some err) =>
                    emit EvCloseResp
                      (Log ERR ("Failed to decode:" ++ err) (invalidPUT s (Some err)))
                | (serverData, None) =>
                    let s := on_w (λ w, rw_Set w "Content-Type" (JSONHeader env)) s in
                    match Encode s serverData with
                    | (s, Some err) =>
                        emit EvCloseResp
                          (Log ERR ("Failed to encode:" ++ err)
                             (invalidPUT s (Some err)))
                    | (s, None) => emit EvCloseResp s
                    end
                end
          end
      end
  end.

Definition xmlPUT (r : Request) (s : State) (url token : string)
    (data : value) : State :=
  match xml_Marshal env data with
  | inr err => Log ERR err (invalidPUT s (Some err))
  | inl content =>
      match NewRequest env "PUT" url content with
      | inr _ =>
          (* the error is dropped and [req] is nil: [req.Header.Set] of
             line 214 dereferences it *)
          emit EvPanic s
      | inl req =>
          let req := xmlPUT_headers r token req in
          let client := noRedirectClient in
          let res := client_Do env client req in
          let s := emit (EvDo client req) s in
          let s := emit (EvLogResp DEBUG (resp_of res)) s in
          match res with
          | inr err => Log ERR err (invalidPUT s (Some err))
          | inl resp =>
              if decide (resp_StatusCode resp = StatusFound) then
                let s := Log DEBUG "Service Returned Redirect" s in
                let s := on_w (λ w, rw_Set w "Location"
                                      (Header_Get (resp_Header resp) "Location")) s in
                on_w (λ w, rw_WriteHeader w StatusFound) s
              else if decide (resp_StatusCode resp ≠ StatusOK) then
                let s := Log WARN ("SERVICE FAILED - SERVICE RETURNED STATUS "
                                   ++ http_StatusText env (resp_StatusCode resp)) s in
                let s := on_w (λ w, rw_Set w "Content-Type" (XMLHeader env)) s in
                let s := on_w (λ w, rw_WriteHeader w (resp_StatusCode resp)) s in
                let s := emit EvReadResp s in
                let (contents, readErr) := ReadAll (resp_Body resp) in
                unsuccessfulPUT s "XML" contents readErr
              else
                (* defer resp.Body.Close(): [EvCloseResp] ends every path below *)
                let s := emit EvReadResp s in
                let contents := fst (ReadAll (resp_Body resp)) in
                match xml_Unmarshal env contents with
                | (_, Some err) =>
                    emit EvCloseResp
                      (Log ERR ("Failed decode:" ++ err) (invalidPUT s (Some err)))
                | (serverData, None) =>
                    let s := on_w (λ w, rw_Set w "Content-Type" (JSONHeader env)) s in
                    match Encode s serverData with
                    | (s, Some err) =>
                        emit EvCloseResp
                          (Log ERR ("Failed encode:" ++ err)
                             (invalidPUT s (Some err)))
                    | (s, None) =>
                        emit EvCloseResp (on_w (λ w, rw_WriteHeader w StatusOK) s)
                    end
                end
          end
      end
  end.

Definition rawPUT (r : Request) (s : State) (url token : string) : State :=
  let s := emit (EvReadBody (MaxFileUploadSize env)) s in
  match ReadAll_Limit (req_Body r) (MaxFileUploadSize env) with
  | (_, Some err) => Log ERR err (invalidPUT s (Some err))
  | (content, None) =>
      let s := emit EvCloseBody s in
      match body_closeErr (req_Body r) with
      | Some err =>
          Log ERR ("Failed Reception:" ++ err) (invalidPUT s (Some err))
      | None =>
          match NewRequest env "PUT" url content with
          | inr _ =>
              (* the error is dropped and [req] is nil: the copy loop
                 (line 296), [req.Header.Set] (line 301) or, when there is
                 neither an inbound header nor a token, [client.Do] itself
                 (line 305, before anything is sent) dereferences it *)
              emit EvPanic s
          | inl req =>
              let req := rawPUT_headers r token req in
              let client := defaultClient in
              let res := client_Do env client req in
              let s := emit (EvDo client req) s in
              let s := emit (EvLogResp DEBUG (resp_of res)) s in
              match res with
              | inr err => Log ERR err (invalidPUT s (Some err))
              | inl resp =>
                  let s :=
                    if decide (resp_StatusCode resp ≠ StatusOK) then
                      let s := Log WARN ("SERVICE FAILED - SERVICE RETURNED STATUS "
                                         ++ http_StatusText env (resp_StatusCode resp)) s in
                      let s := on_w (λ w, rw_Set w "Content-Type"
                                            "application/json; charset=UTF-8") s in
                      on_w (λ w, rw_WriteHeader w (resp_StatusCode resp)) s
                    else s in
                  (* defer resp.Body.Close(): [EvCloseResp] ends every path below *)
                  let s := emit EvReadResp s in
                  match ReadAll (resp_Body resp) with
                  | (_, Some err) =>
                      emit EvCloseResp (Log ERR err (invalidPUT s (Some err)))
                  | (contents, None) =>
                      let s := on_w (λ w, rw_Set w "Content-Type"
                                            (Header_Get (resp_Header resp)
                                               "Content-Type")) s in
                      match rw_Write (st_w s) contents with
                      | (w, Some err) =>
                          let s := {| st_w := w; st_trace := st_trace s |} in
                          emit EvCloseResp
                            (Log ERR ("Failed to Write:" ++ err)
                               (invalidPUT s (Some err)))
                      | (w, None) =>
                          emit EvCloseResp {| st_w := w; st_trace := st_trace s |}
                      end
                  end
              end
          end
      end
  end.

(** The first lines of [PUT] (41-48): the CORS headers, when the request
    names an origin. *)
Definition allowOrigin (r : Request) (s : State) : State :=
  let origin := Header_Get (req_Header r) "Origin" in
  if decide (origin ≠ "") then
    let s := on_w (λ w, rw_Set w "Access-Control-Allow-Origin" origin) s in
    let s := on_w (λ w, rw_Set w "Access-Control-Allow-Methods" "PUT") s in
    on_w (λ w, rw_Set w "Access-Control-Allow-Headers"
                 "Accept, Content-Type, Content-Length, Accept-Encoding, X-CSRF-Token, Authorization") s
  else s.

Definition PUT (s : State) (url format token : string) (r : Request) : State :=
  let s := allowOrigin r s in
  match requestPreprocessing env (st_w s) r with
  | (w, _, Some _) => {| st_w := w; st_trace := st_trace s |}
  | (w, r, None) =>
      let s := {| st_w := w; st_trace := st_trace s |} in
      if decide (format = "RAW") then rawPUT r s url token
      else if decide (format ≠ "XML" ∧ format ≠ "JSON") then
        let err := "Unsupported data encoding" in
        Log ERR err (invalidPUT s (Some err))
      else
        let s := emit (EvReadBody (MaxRequestSize env)) s in
        match ReadAll_Limit (req_Body r) (MaxRequestSize env) with
        | (_, Some err) => Log ERR err (invalidPUT s (Some err))
        | (content, None) =>
            let s := emit EvCloseBody s in
            match body_closeErr (req_Body r) with
            | Some err =>
                Log ERR ("Failed Reception:" ++ err) (invalidPUT s (Some err))
            | None =>
                match json_Unmarshal env content with
                | (_, Some err) => Log ERR err (on_w (λ w, invalidPOST env w err) s)
                | (data, None) =>
                    if decide (format = "XML") then xmlPUT r s url token data
                    else if decide (format = "JSON") then
                      jsonPUT r s url token data
                    else
                      Log ERR "Unsupported Data Encoding" (invalidPUT s None)
                end
            end
        end
  end.

End Handler.

(** ** Reading the trace *)

(** The requests handed to [client.Do], in order. *)
Definition call_of (e : Event) : option OutRequest :=
  match e with EvDo _ req => Some req | _ => None end.

Definition backendCalls (s : State) : list OutRequest :=
  omap call_of (st_trace s).

(** The limits the inbound body was read under, in order. *)
Definition read_of (e : Event) : option Z :=
  match e with EvReadBody n => Some n | _ => None end.

Definition bodyReads (s : State) : list Z := omap read_of (st_trace s).

(** The backend responses a call obtained, and how often it closed the body
    of one. *)
Definition response_of (e : Event) : option Response :=
  match e with EvLogResp _ (Some resp) => Some resp | _ => None end.

Definition responsesObtained (s : State) : nat :=
  length (omap response_of (st_trace s)).

Definition close_of (e : Event) : option () :=
  match e with EvCloseResp => Some () | _ => None end.

Definition responseCloses (s : State) : nat :=
  length (omap close_of (st_trace s)).

(** The trace without the lines of [logger.Log]. *)
Definition step_of (e : Event) : option Event :=
  match e with EvLog _ _ => None | _ => Some e end.

Definition unlogged (s : State) : list Event := omap step_of (st_trace s).

(** *** The steps of a call

    What each function adds to the trace, log lines apart, as a function of
    what the environment answers. *)

(** After [Do]: the structured pipelines leave a 302 alone, read a failure's
    body and read and close a success's; [rawPUT] reads and closes
    whatever it got. *)
Definition response_steps (structured : bool) (res : Response + error)
  : list Event :=
  match res with
  | inr _ => []
  | inl resp =>
      if structured then
        if decide (resp_StatusCode resp = StatusFound) then []
        else if decide (resp_StatusCode resp ≠ StatusOK) then [EvReadResp]
        else [EvReadResp; EvCloseResp]
      else [EvReadResp; EvCloseResp]
  end.

Definition call_steps (env : Env) (client : Client) (req : OutRequest)
    (structured : bool) : list Event :=
  let res := client_Do env client req in
  EvDo client req :: EvLogResp DEBUG (resp_of res)
    :: response_steps structured res.

(** A pipeline that has its body to send builds the request: on a url
    [NewRequest] refuses it panics, otherwise it goes on to the call. *)
Definition built_steps (env : Env) (url : string) (steps : list Event)
  : list Event :=
  match url_Parse env url with
  | Some _ => [EvPanic]
  | None => steps
  end.

Definition jsonPUT_steps (env : Env) (r : Request) (url token : string)
    (data : value) : list Event :=
  match json_Marshal env data with
  | inr _ => []
  | inl content =>
      built_steps env url
        (call_steps env (noRedirectClient env)
           (jsonPUT_request env r url token content) true)
  end.

Definition xmlPUT_steps (env : Env) (r : Request) (url token : string)
    (data : value) : list Event :=
  match xml_Marshal env data with
  | inr _ => []
  | inl content =>
      built_steps env url
        (call_steps env (noRedirectClient env)
           (xmlPUT_request env r url token content) true)
  end.

Definition rawPUT_steps (env : Env) (r : Request) (url token : string)
  : list Event :=
  EvReadBody (MaxFileUploadSize env) ::
  match ReadAll_Limit (req_Body r) (MaxFileUploadSize env) with
  | (_, Some _) => []
  | (content, None) =>
      EvCloseBody ::
      match body_closeErr (req_Body r) with
      | Some _ => []
      | None =>
          built_steps env url
            (call_steps env (defaultClient env)
               (rawPUT_request r url token content) false)
      end
  end.

Definition PUT_steps (env : Env) (s : State) (url format token : string)
    (r : Request) : list Event :=
  match requestPreprocessing env (st_w (allowOrigin r s)) r with
  | (_, _, Some _) => []
  | (_, r, None) =>
      if decide (format = "RAW") then rawPUT_steps env r url token
      else if decide (format ≠ "XML" ∧ format ≠ "JSON") then []
      else
        EvReadBody (MaxRequestSize env) ::
        match ReadAll_Limit (req_Body r) (MaxRequestSize env) with
        | (_, Some _) => []
        | (content, None) =>
            EvCloseBody ::
            match body_closeErr (req_Body r) with
            | Some _ => []
            | None =>
                match json_Unmarshal env content with
                | (_, Some _) => []
                | (data, None) =>
                    if decide (format = "XML")
                    then xmlPUT_steps env r url token data
                    else jsonPUT_steps env r url token data
                end
            end
        end
  end.

(** A line logged at severity [ERR]. *)
Definition is_ERR (e : Event) : Prop := ∃ msg, e = EvLog ERR msg.

(** The request as the pipelines get it: [PUT] hands [r] to
    [requestPreprocessing] after the CORS headers are set, and the helper
    may have changed it through the pointer. *)
Definition inbound (env : Env) (s : State) (r : Request) : Request :=
  (requestPreprocessing env (st_w (allowOrigin r s)) r).1.2.

(** [forwarded env r url token format req]: under [format], [req] is the
    request built from the inbound request [r].  RAW sends the bytes read;
    JSON and XML send what the format's [Marshal] makes of the value
    [json.Unmarshal] found in the bytes read.  A request is built only for
    a url that [NewRequest] accepts. *)
Inductive forwarded (env : Env) (r : Request) (url token : string)
  : string → OutRequest → Prop :=
| forwarded_RAW content :
    ReadAll_Limit (req_Body r) (MaxFileUploadSize env) = (content, None) →
    url_Parse env url = None →
    forwarded env r url token "RAW" (rawPUT_request r url token content)
| forwarded_JSON content data out :
    ReadAll_Limit (req_Body r) (MaxRequestSize env) = (content, None) →
    json_Unmarshal env content = (data, None) →
    json_Marshal env data = inl out →
    url_Parse env url = None →
    forwarded env r url token "JSON" (jsonPUT_request env r url token out)
| forwarded_XML content data out :
    ReadAll_Limit (req_Body r) (MaxRequestSize env) = (content, None) →
    json_Unmarshal env content = (data, None) →
    xml_Marshal env data = inl out →
    url_Parse env url = None →
    forwarded env r url token "XML" (xmlPUT_request env r url token out).

(** [payload env r format out]: the pipeline of [format] has its body to
    send, [out], and goes on to build the request. *)
Inductive payload (env : Env) (r : Request) : string → bytes → Prop :=
| payload_RAW content :
    ReadAll_Limit (req_Body r) (MaxFileUploadSize env) = (content, None) →
    payload env r "RAW" content
| payload_JSON content data out :
    ReadAll_Limit (req_Body r) (MaxRequestSize env) = (content, None) →
    json_Unmarshal env content = (data, None) →
    json_Marshal env data = inl out →
    payload env r "JSON" out
| payload_XML content data out :
    ReadAll_Limit (req_Body r) (MaxRequestSize env) = (content, None) →
    json_Unmarshal env content = (data, None) →
    xml_Marshal env data = inl out →
    payload env r "XML" out.

(** The client a format's pipeline calls the backend with. *)
Definition client_of (env : Env) (format : string) : Client :=
  if decide (format = "RAW") then defaultClient env else noRedirectClient env.

(** What the 302 branch of the two structured pipelines leaves behind
    (lines 165-167, 238-240). *)
Definition redirected (env : Env) (req : OutRequest) (resp : Response)
    (s : State) : State :=
  on_w (λ w, rw_WriteHeader w StatusFound)
    (on_w (λ w, rw_Set w "Location" (Header_Get (resp_Header resp) "Location"))
       (Log DEBUG "Service Returned Redirect"
          (emit (EvLogResp DEBUG (Some resp))
             (emit (EvDo (noRedirectClient env) req) s)))).

(** *** The specification's wording

    The decoder of a request format: JSON and XML have one, RAW and every
    other tag have none. *)
Definition format_decoder (env : Env) (format : string)
  : option (bytes → value * option error) :=
  if decide (format = "JSON") then Some (json_Unmarshal env)
  else if decide (format = "XML") then Some (xml_Unmarshal env)
  else None.


(** A helper that is handed a writer whose status line is out cannot take
    it back: what [http.ResponseWriter] lets any function do. *)
Definition keeps_status (f : ResponseWriter → ResponseWriter) : Prop :=
  ∀ w, rw_wroteHeader w = true →
       rw_wroteHeader (f w) = true ∧ rw_status (f w) = rw_status w.

(** The ceiling configured for a format. *)
Definition ceiling_of (env : Env) (format : string) : Z :=
  if decide (format = "RAW") then MaxFileUploadSize env
  else MaxRequestSize env.

(** ** What the handler may do to a writer *)

(** The header keys PUT.go sets once preprocessing is over. *)
Definition own_key (k : string) : Prop := k = "Content-Type" ∨ k = "Location".

(** [extends w w']: [w'] is [w] after some calls of [Header().Set] on the
    keys above, [WriteHeader] and [Write].  The other keys of the header map
    stand; a status line that is out stays as it went out, with its headers;
    one that goes out in between carries the other keys as [w] had them;
    the body is only added to. *)
Definition extends (w w' : ResponseWriter) : Prop :=
  (∀ k, ¬ own_key k → rw_header w' !! k = rw_header w !! k)
  ∧ (rw_wroteHeader w = true →
     rw_wroteHeader w' = true ∧ rw_status w' = rw_status w
     ∧ rw_sent w' = rw_sent w)
  ∧ (rw_wroteHeader w = false → rw_wroteHeader w' = true →
     ∀ k, ¬ own_key k → rw_sent w' !! k = rw_header w !! k)
  ∧ (∃ more, rw_body w' = rw_body w ++ more).

(** The two helpers that are handed the writer after preprocessing use it
    as any function holding an [http.ResponseWriter] can. *)
Definition helpers_extend (env : Env) : Prop :=
  (∀ w err, extends w (invalidPOST env w err))
  ∧ (∀ w code msg, extends w (notifyClientOfRequestError env w code msg)).

(** The calls to the backend with the client each went through. *)
Definition do_of (e : Event) : option (Client * OutRequest) :=
  match e with EvDo c req => Some (c, req) | _ => None end.

Definition backendDos (s : State) : list (Client * OutRequest) :=
  omap do_of (st_trace s).

(** How often the inbound body was closed. *)
Definition inbound_close_of (e : Event) : option () :=
  match e with EvCloseBody => Some () | _ => None end.

Definition bodyCloses (s : State) : nat :=
  length (omap inbound_close_of (st_trace s)).

(** How often the backend's body was read. *)
Definition response_read_of (e : Event) : option () :=
  match e with EvReadResp => Some () | _ => None end.

Definition responseReads (s : State) : nat :=
  length (omap response_read_of (st_trace s)).

(** The answer the client has: the status line is out, with this status and
    this Content-Type. *)
Definition answered_with (w : ResponseWriter) (code : Z) (contentType : string)
  : Prop :=
  rw_wroteHeader w = true ∧ rw_status w = code
  ∧ rw_sent w !! "Content-Type" = Some [contentType].

(** The lines handed to [logger.Log], and how many there are. *)
Definition log_of (e : Event) : option (Level * string) :=
  match e with EvLog lvl msg => Some (lvl, msg) | _ => None end.

Definition logLines (s : State) : list (Level * string) :=
  omap log_of (st_trace s).

Definition logCount (s : State) : nat := length (logLines s).

(** ** A concrete environment

    A fragment of the libraries, enough to run the handler on the inputs of
    the examples further down: each function answers as the Go library does
    on the inputs listed and refuses every other input; [url.Parse] is
    given on the two urls of the examples and lets every other one pass.
    The three helpers of package [proxy] pass the request, answer 422 and
    answer the given code. *)
Module Fragment.

Definition b (s : string) : bytes := String.list_byte_of_string s.
Definition quote : bytes := [Byte.x22].

(** [json.Unmarshal] on the texts [1], [1e9] and [null], and on no text
    at all. *)
Definition jsonUnmarshal (content : bytes) : value * option error :=
  if decide (content = []) then (VNil, Some "unexpected end of JSON input")
  else if decide (content = b "1") then (VNum 1, None)
  else if decide (content = b "1e9") then (VNum 1000000000, None)
  else if decide (content = b "null") then (VNil, None)
  else (VNil, Some "invalid character looking for beginning of value").

(** The text of [{"Code":c,"Specfically":{},"Text":"t"}]: how [json.Marshal]
    writes the map of [invalidPUT] when the error is an [errors.New] value
    (a struct without exported fields). *)
Definition error_object (c : Z) (t : string) : bytes :=
  b "{" ++ quote ++ b "Code" ++ quote ++ b ":" ++ b (pretty c) ++ b ","
    ++ quote ++ b "Specfically" ++ quote ++ b ":{},"
    ++ quote ++ b "Text" ++ quote ++ b ":" ++ quote ++ b t ++ quote ++ b "}".

(** [json.Marshal] on nil, on a whole number, and on that map. *)
Definition jsonMarshal (v : value) : bytes + error :=
  match v with
  | VNil => inl (b "null")
  | VNum n => inl (b (pretty n))
  | VMap m =>
      match m !! "Code", m !! "Text", m !! "Specfically" with
      | Some (VNum c), Some (VString t), Some (VError _) =>
          if decide (size m = 3%nat) then inl (error_object c t)
          else inr "json: outside the fragment"
      | _, _, _ => inr "json: outside the fragment"
      end
  | _ => inr "json: outside the fragment"
  end.

(** [xml.Unmarshal] into a nil [interface{}]: the element is skipped and
    nothing is stored; a text without an element ends in EOF. *)
Definition xmlUnmarshal (content : bytes) : value * option error :=
  if decide (content = b "<a/>") then (VNil, None)
  else (VNil, Some "EOF").

(** [xml.Marshal] on nil (no output) and on the [float64] 1. *)
Definition xmlMarshal (v : value) : bytes + error :=
  match v with
  | VNil => inl []
  | VNum 1 => inl (b "<float64>1</float64>")
  | _ => inr "xml: unsupported type"
  end.

Definition statusText (code : Z) : string :=
  if decide (code = 204) then "No Content"
  else if decide (code = 302) then "Found"
  else if decide (code = 500) then "Internal Server Error"
  else "".

(** A url with a broken percent escape, and what [url.Parse] says of it;
    the urls of the examples are this one and [http://svc/item], which
    parses. *)
Definition badURL : string := "http://svc/%zz".

Definition dquote : string := String (Ascii.ascii_of_nat 34) EmptyString.

Definition badURL_error : error :=
  "parse " +:+ dquote +:+ badURL +:+ dquote
    +:+ ": invalid URL escape " +:+ dquote +:+ "%zz" +:+ dquote.

Definition urlParse (u : string) : option error :=
  if decide (u = badURL) then Some badURL_error else None.

Definition env (maxRequest maxUpload : Z)
    (backend : Client → OutRequest → Response + error) : Env :=
  {| MaxRequestSize := maxRequest;
     MaxFileUploadSize := maxUpload;
     Timeout := 10;
     JSONHeader := "application/json; charset=UTF-8";
     XMLHeader := "application/xml; charset=UTF-8";
     json_Unmarshal := jsonUnmarshal;
     json_Marshal := jsonMarshal;
     xml_Unmarshal := xmlUnmarshal;
     xml_Marshal := xmlMarshal;
     http_StatusText := statusText;
     url_Parse := urlParse;
     client_Do := backend;
     requestPreprocessing := λ w r, (w, r, None);
     invalidPOST := λ w _, rw_WriteHeader w StatusUnprocessableEntity;
     notifyClientOfRequestError := λ w code _, rw_WriteHeader w code |}.

(** A writer nothing was written to, and an empty trace. *)
Definition fresh : State :=
  {| st_w := {| rw_header := ∅; rw_wroteHeader := false; rw_status := 0;
                rw_sent := ∅; rw_body := []; rw_superfluous := 0;
                rw_broken := None |};
     st_trace := [] |}.

(** A body that reads to the end and closes. *)
Definition body (s : string) : Body :=
  {| body_data := b s; body_readErr := None; body_closeErr := None |}.

(** A backend that answers every request the same way. *)
Definition answers (code : Z) (h : Header) (s : string)
  : Client → OutRequest → Response + error :=
  λ _ _, inl {| resp_StatusCode := code; resp_Header := h;
                resp_Body := body s |}.

(** The limits the examples run under unless they say otherwise: 1 MiB for
    structured bodies, 32 MiB for uploads. *)
Definition world : (Client → OutRequest → Response + error) → Env :=
  env 1048576 33554432.

Definition svc : string := "http://svc/item".

(** An inbound request with the given headers and body text. *)
Definition request (h : Header) (s : string) : Request :=
  {| req_Header := h; req_Body := body s |}.

(** A backend whose answer breaks off while its body is read. *)
Definition breaks_off (code : Z) : Client → OutRequest → Response + error :=
  λ _ _, inl {| resp_StatusCode := code; resp_Header := ∅;
                resp_Body := {| body_data := [];
                                body_readErr := Some "unexpected EOF";
                                body_closeErr := None |} |}.

End Fragment.


(** ** An environment with a JSON object

    [Fragment], with the text [{}] added: [json.Unmarshal] stores an empty
    [map[string]interface{}] for it, and [xml.Marshal] refuses every map. *)

Module Objects.

Definition jsonUnmarshal (content : bytes) : value * option error :=
  if decide (content = Fragment.b "{}") then (VMap ∅, None)
  else Fragment.jsonUnmarshal content.

Definition xmlMarshal (v : value) : bytes + error :=
  match v with
  | VMap _ => inr "xml: unsupported type: map[string]interface {}"
  | _ => Fragment.xmlMarshal v
  end.

Definition env (backend : Client → OutRequest → Response + error) : Env :=
  {| MaxRequestSize := 1048576;
     MaxFileUploadSize := 33554432;
     Timeout := 10;
     JSONHeader := "application/json; charset=UTF-8";
     XMLHeader := "application/xml; charset=UTF-8";
     json_Unmarshal := jsonUnmarshal;
     json_Marshal := Fragment.jsonMarshal;
     xml_Unmarshal := Fragment.xmlUnmarshal;
     xml_Marshal := xmlMarshal;
     http_StatusText := Fragment.statusText;
     url_Parse := Fragment.urlParse;
     client_Do := backend;
     requestPreprocessing := λ w r, (w, r, None);
     invalidPOST := λ w _, rw_WriteHeader w StatusUnprocessableEntity;
     notifyClientOfRequestError := λ w code _, rw_WriteHeader w code |}.

End Objects.


(** * Properties *)

(** ** The bounded read *)

Lemma ReadAll_Limit_content (body : Body) (n : Z) (content : bytes) :
  ReadAll_Limit body n = (content, None) →
  content = take (Z.to_nat n) (body_data body).
Proof.
  unfold ReadAll_Limit. case_decide as Hlt.
  - intros [= <- _]. rewrite take_ge; [done | lia].
  - by intros [= <-].
Qed.

Lemma take_ceiling (n : Z) (data : bytes) :
  (length (take (Z.to_nat n) data) ≤ Z.to_nat n)%nat.
Proof. rewrite length_take. lia. Qed.

(** ** Headers *)

(** The copy loop writes every inbound key over what the outbound map held
    at that key and leaves the other keys alone: the order in which [range]
    visits the map does not show. *)
Lemma copyHeaders_lookup (r : Request) (req : OutRequest) (k : string) :
  out_Header (copyHeaders r req) !! k =
    match req_Header r !! k with
    | Some vs => Some vs
    | None => out_Header req !! k
    end.
Proof.
  unfold copyHeaders; simpl.
  apply (map_fold_weak_ind
           (λ (h : Header) (m : Header),
              h !! k = match m !! k with
                       | Some vs => Some vs
                       | None => out_Header req !! k
                       end)).
  - by rewrite lookup_empty.
  - intros i x m h Hfresh IH.
    destruct (decide (i = k)) as [->|Hne].
    + by rewrite !lookup_insert_eq.
    + by rewrite !lookup_insert_ne.
Qed.

Lemma copyHeaders_union (r : Request) (req : OutRequest) :
  out_Header (copyHeaders r req) = req_Header r ∪ out_Header req.
Proof.
  apply map_eq; intros k. rewrite copyHeaders_lookup, lookup_union.
  destruct (req_Header r !! k), (out_Header req !! k); done.
Qed.

Lemma copyHeaders_Body (r : Request) (req : OutRequest) :
  out_Body (copyHeaders r req) = out_Body req.
Proof. done. Qed.

#[global] Opaque copyHeaders.

(** ** Building the request *)

Lemma NewRequest_built env method url content :
  url_Parse env url = None →
  NewRequest env method url content = inl (newRequest method url content).
Proof. intros H. unfold NewRequest. by rewrite H. Qed.

Lemma NewRequest_nil env method url content e :
  url_Parse env url = Some e → NewRequest env method url content = inr e.
Proof. intros H. unfold NewRequest. by rewrite H. Qed.

(** In a pipeline whose url parses: the request is the one of the
    pipeline. *)
Ltac built Hparse :=
  rewrite (NewRequest_built _ _ _ _ Hparse); cbv beta iota;
  repeat match goal with
  | |- context [jsonPUT_headers ?e ?r ?t (newRequest "PUT" ?u ?c)] =>
      change (jsonPUT_headers e r t (newRequest "PUT" u c))
        with (jsonPUT_request e r u t c)
  | |- context [xmlPUT_headers ?e ?r ?t (newRequest "PUT" ?u ?c)] =>
      change (xmlPUT_headers e r t (newRequest "PUT" u c))
        with (xmlPUT_request e r u t c)
  | |- context [rawPUT_headers ?r ?t (newRequest "PUT" ?u ?c)] =>
      change (rawPUT_headers r t (newRequest "PUT" u c))
        with (rawPUT_request r u t c)
  end.

Section Requests.
Context (env : Env).

Lemma jsonPUT_request_Body r url token content :
  out_Body (jsonPUT_request env r url token content) = content.
Proof. unfold jsonPUT_request, jsonPUT_headers. by case_decide. Qed.

Lemma xmlPUT_request_Body r url token content :
  out_Body (xmlPUT_request env r url token content) = content.
Proof. unfold xmlPUT_request, xmlPUT_headers. by case_decide. Qed.

Lemma rawPUT_request_Body r url token content :
  out_Body (rawPUT_request r url token content) = content.
Proof. unfold rawPUT_request, rawPUT_headers. by case_decide. Qed.

(** [jsonPUT] copies, then sets: the outbound Content-Type is the JSON one
    whatever came in. *)
Lemma jsonPUT_request_ContentType r url token content :
  out_Header (jsonPUT_request env r url token content) !! "Content-Type"
  = Some [JSONHeader env].
Proof.
  unfold jsonPUT_request, jsonPUT_headers, out_Set, Header_Set. case_decide; simpl.
  - rewrite lookup_insert_ne by done. by rewrite lookup_insert_eq.
  - by rewrite lookup_insert_eq.
Qed.

(** [xmlPUT] sets, then copies: an inbound Content-Type replaces the XML
    one. *)
Lemma xmlPUT_request_ContentType r url token content :
  out_Header (xmlPUT_request env r url token content) !! "Content-Type"
  = match req_Header r !! "Content-Type" with
    | Some vs => Some vs
    | None => Some [XMLHeader env]
    end.
Proof.
  unfold xmlPUT_request, xmlPUT_headers. case_decide; simpl.
  - unfold Header_Set. rewrite lookup_insert_ne by done.
    rewrite copyHeaders_lookup. simpl. unfold Header_Set.
    by rewrite lookup_insert_eq.
  - rewrite copyHeaders_lookup. simpl. unfold Header_Set.
    by rewrite lookup_insert_eq.
Qed.

(** The Authorization header of each of the three requests. *)
Lemma jsonPUT_request_Authorization r url token content :
  out_Header (jsonPUT_request env r url token content) !! "Authorization"
  = Authorization_of r token.
Proof.
  unfold jsonPUT_request, jsonPUT_headers, Authorization_of, out_Set, Header_Set.
  destruct (decide (token = "")) as [->|Hne].
  - rewrite decide_False by (intros H; by apply H). simpl.
    rewrite lookup_insert_ne by done. rewrite copyHeaders_lookup. simpl.
    rewrite lookup_empty. by destruct (req_Header r !! "Authorization").
  - rewrite decide_True by done. simpl. by rewrite lookup_insert_eq.
Qed.

Lemma xmlPUT_request_Authorization r url token content :
  out_Header (xmlPUT_request env r url token content) !! "Authorization"
  = Authorization_of r token.
Proof.
  unfold xmlPUT_request, xmlPUT_headers, Authorization_of.
  destruct (decide (token = "")) as [->|Hne].
  - rewrite decide_False by (intros H; by apply H).
    rewrite copyHeaders_lookup. simpl. unfold Header_Set.
    rewrite lookup_insert_ne by done. rewrite lookup_empty.
    by destruct (req_Header r !! "Authorization").
  - rewrite decide_True by done. simpl. unfold Header_Set.
    by rewrite lookup_insert_eq.
Qed.

Lemma rawPUT_request_Authorization r url token content :
  out_Header (rawPUT_request r url token content) !! "Authorization"
  = Authorization_of r token.
Proof.
  unfold rawPUT_request, rawPUT_headers, Authorization_of.
  destruct (decide (token = "")) as [->|Hne].
  - rewrite decide_False by (intros H; by apply H).
    rewrite copyHeaders_lookup. simpl. rewrite lookup_empty.
    by destruct (req_Header r !! "Authorization").
  - rewrite decide_True by done. simpl. unfold Header_Set.
    by rewrite lookup_insert_eq.
Qed.

End Requests.

(** ** The trace *)

Lemma st_trace_on_w f s : st_trace (on_w f s) = st_trace s.
Proof. done. Qed.

Lemma st_trace_emit e s : st_trace (emit e s) = st_trace s ++ [e].
Proof. done. Qed.

Lemma st_trace_Log lvl msg s :
  st_trace (Log lvl msg s) = st_trace s ++ [EvLog lvl msg].
Proof. done. Qed.

Lemma allowOrigin_trace r s : st_trace (allowOrigin r s) = st_trace s.
Proof. unfold allowOrigin. by case_decide. Qed.

Lemma unlogged_on_w f s : unlogged (on_w f s) = unlogged s.
Proof. done. Qed.

Lemma unlogged_mk w s :
  unlogged {| st_w := w; st_trace := st_trace s |} = unlogged s.
Proof. done. Qed.

Lemma unlogged_allowOrigin r s : unlogged (allowOrigin r s) = unlogged s.
Proof. unfold unlogged. by rewrite allowOrigin_trace. Qed.

Lemma unlogged_emit e s :
  (∀ lvl msg, e ≠ EvLog lvl msg) → unlogged (emit e s) = unlogged s ++ [e].
Proof.
  intros He. unfold unlogged, emit; simpl. rewrite omap_app; simpl.
  destruct e; try done. by destruct (He lvl msg).
Qed.

Lemma unlogged_Log lvl msg s : unlogged (Log lvl msg s) = unlogged s.
Proof.
  unfold unlogged, Log, emit; simpl. rewrite omap_app; simpl.
  by rewrite app_nil_r.
Qed.

Lemma unlogged_logs s s' l :
  st_trace s' = st_trace s ++ l → Forall is_ERR l → unlogged s' = unlogged s.
Proof.
  unfold unlogged. intros -> Hl. rewrite omap_app.
  assert (omap step_of l = []) as ->; [|by rewrite app_nil_r].
  induction Hl as [|e l [msg ->] _ IH]; [done|]. simpl. apply IH.
Qed.

(** A reading of the trace that does not look at log lines reads the same
    from the unlogged trace. *)
Lemma omap_unlogged {A} (f : Event → option A) (s : State) :
  (∀ lvl msg, f (EvLog lvl msg) = None) →
  omap f (st_trace s) = omap f (unlogged s).
Proof.
  intros Hf. unfold unlogged. induction (st_trace s) as [|e l IH]; [done|].
  destruct e; simpl; rewrite ?Hf;
    first [exact IH | destruct (f _); [f_equal|]; exact IH].
Qed.

Lemma backendCalls_unlogged s : backendCalls s = omap call_of (unlogged s).
Proof. by apply omap_unlogged. Qed.

Lemma bodyReads_unlogged s : bodyReads s = omap read_of (unlogged s).
Proof. by apply omap_unlogged. Qed.

Lemma responsesObtained_unlogged s :
  responsesObtained s = length (omap response_of (unlogged s)).
Proof. unfold responsesObtained. by rewrite omap_unlogged. Qed.

Lemma responseCloses_unlogged s :
  responseCloses s = length (omap close_of (unlogged s)).
Proof. unfold responseCloses. by rewrite omap_unlogged. Qed.

Section Traces.
Context (env : Env).

Lemma Encode_trace s v s' err :
  Encode env s v = (s', err) → st_trace s' = st_trace s.
Proof.
  unfold Encode. destruct (json_Marshal env v) as [b|e].
  - destruct (rw_Write (st_w s) (b ++ [newline])) as [w e]. by intros [= <- _].
  - by intros [= <- _].
Qed.

Lemma unlogged_Encode s v s' err :
  Encode env s v = (s', err) → unlogged s' = unlogged s.
Proof. intros HE%Encode_trace. unfold unlogged. by rewrite HE. Qed.

(** [invalidPUT] touches no stream and calls nobody: it adds to the trace at
    most the line it logs when its own encoding fails. *)
Lemma invalidPUT_trace s err :
  ∃ l, st_trace (invalidPUT env s err) = st_trace s ++ l ∧ Forall is_ERR l.
Proof.
  unfold invalidPUT.
  destruct (Encode env _ _) as [s' [e|]] eqn:HE;
    apply Encode_trace in HE; simpl in HE.
  - exists [EvLog ERR e]. rewrite st_trace_on_w, st_trace_Log, HE.
    split; [done|]. repeat constructor. by exists e.
  - exists []. by rewrite app_nil_r, HE.
Qed.

Lemma unlogged_invalidPUT s err :
  unlogged (invalidPUT env s err) = unlogged s.
Proof.
  destruct (invalidPUT_trace s err) as (l & Hl & Hlogs).
  by eapply unlogged_logs.
Qed.

Lemma unsuccessfulPUT_trace s format content err :
  ∃ l, st_trace (unsuccessfulPUT env s format content err) = st_trace s ++ l
       ∧ Forall is_ERR l.
Proof.
  unfold unsuccessfulPUT.
  repeat case_decide;
    try (destruct (Encode env _ _) as [s' [e|]] eqn:HE;
         apply Encode_trace in HE;
         [ exists [EvLog ERR e]; rewrite st_trace_on_w, st_trace_Log, HE;
           split; [done|]; repeat constructor; by exists e
         | exists []; by rewrite app_nil_r, HE ]).
  exists []. by rewrite app_nil_r.
Qed.

Lemma unlogged_unsuccessfulPUT s format content err :
  unlogged (unsuccessfulPUT env s format content err) = unlogged s.
Proof.
  destruct (unsuccessfulPUT_trace s format content err) as (l & Hl & Hlogs).
  by eapply unlogged_logs.
Qed.

End Traces.

(** ** The steps of each function *)

Ltac steps :=
  repeat first
    [ rewrite unlogged_invalidPUT
    | rewrite unlogged_unsuccessfulPUT
    | rewrite unlogged_Log
    | rewrite unlogged_on_w
    | rewrite unlogged_mk
    | rewrite unlogged_allowOrigin
    | rewrite unlogged_emit by discriminate ];
  rewrite <- ?app_assoc, ?app_nil_r.

Section Steps.
Context (env : Env).

Lemma jsonPUT_unlogged r s url token data :
  unlogged (jsonPUT env r s url token data)
  = unlogged s ++ jsonPUT_steps env r url token data.
Proof.
  unfold jsonPUT, jsonPUT_steps, built_steps, call_steps, NewRequest,
    jsonPUT_request.
  destruct (json_Marshal env data) as [content|e]; [|by steps].
  destruct (url_Parse env url) as [e|]; [by steps|].
  destruct (client_Do env _ _) as [resp|e]; simpl; [|by steps].
  repeat case_decide; [by steps | by steps | ].
  destruct (json_Unmarshal env _) as [serverData [e|]]; [by steps|].
  destruct (Encode env _ _) as [s' [e|]] eqn:HE;
    apply unlogged_Encode in HE; steps; rewrite HE; by steps.
Qed.

Lemma xmlPUT_unlogged r s url token data :
  unlogged (xmlPUT env r s url token data)
  = unlogged s ++ xmlPUT_steps env r url token data.
Proof.
  unfold xmlPUT, xmlPUT_steps, built_steps, call_steps, NewRequest,
    xmlPUT_request.
  destruct (xml_Marshal env data) as [content|e]; [|by steps].
  destruct (url_Parse env url) as [e|]; [by steps|].
  destruct (client_Do env _ _) as [resp|e]; simpl; [|by steps].
  repeat case_decide; [by steps | by steps | ].
  destruct (xml_Unmarshal env _) as [serverData [e|]]; [by steps|].
  destruct (Encode env _ _) as [s' [e|]] eqn:HE;
    apply unlogged_Encode in HE; steps; rewrite HE; by steps.
Qed.

Lemma rawPUT_unlogged r s url token :
  unlogged (rawPUT env r s url token)
  = unlogged s ++ rawPUT_steps env r url token.
Proof.
  unfold rawPUT, rawPUT_steps, built_steps, call_steps, NewRequest,
    rawPUT_request.
  destruct (ReadAll_Limit _ _) as [content [e|]]; [by steps|].
  destruct (body_closeErr _) as [e|]; [by steps|].
  destruct (url_Parse env url) as [e|]; [by steps|].
  destruct (client_Do env _ _) as [resp|e]; [|by steps].
  destruct (ReadAll _) as [contents [e|]]; [case_decide; by steps|].
  destruct (rw_Write _ _) as [w [e|]]; case_decide; by steps.
Qed.

(** The whole call. *)
Lemma PUT_unlogged s url format token r :
  unlogged (PUT env s url format token r)
  = unlogged s ++ PUT_steps env s url format token r.
Proof.
  unfold PUT, PUT_steps.
  destruct (requestPreprocessing env _ r) as [[w1 r1] [perr|]]; [by steps|].
  case_decide as HRAW; [rewrite rawPUT_unlogged; by steps|].
  case_decide as Hfmt; [by steps|].
  destruct (ReadAll_Limit _ _) as [content [e|]]; [by steps|].
  destruct (body_closeErr _) as [e|]; [by steps|].
  destruct (json_Unmarshal env content) as [data [e|]]; [by steps|].
  case_decide as HXML; [|case_decide as HJSON].
  - rewrite xmlPUT_unlogged. by steps.
  - rewrite jsonPUT_unlogged. by steps.
  - destruct Hfmt. by split.
Qed.

End Steps.

(** ** The calls to the backend *)

Section PUTCalls.
Context (env : Env).

Lemma call_steps_calls client req structured :
  omap call_of (call_steps env client req structured) = [req].
Proof.
  unfold call_steps, response_steps; simpl.
  destruct (client_Do env client req) as [resp|e]; simpl; [|done].
  destruct structured; repeat case_decide; done.
Qed.

#[local] Arguments call_steps : simpl never.

(** Each pipeline calls the backend at most once, with the request it
    built, and only when the body to send could be produced. *)
Lemma jsonPUT_calls r s url token data :
  backendCalls (jsonPUT env r s url token data) =
    backendCalls s ++
    match json_Marshal env data, url_Parse env url with
    | inl content, None => [jsonPUT_request env r url token content]
    | _, _ => []
    end.
Proof.
  rewrite !backendCalls_unlogged, jsonPUT_unlogged, omap_app.
  unfold jsonPUT_steps, built_steps.
  destruct (json_Marshal env data); [|done].
  destruct (url_Parse env url); [done|]. by rewrite call_steps_calls.
Qed.

Lemma xmlPUT_calls r s url token data :
  backendCalls (xmlPUT env r s url token data) =
    backendCalls s ++
    match xml_Marshal env data, url_Parse env url with
    | inl content, None => [xmlPUT_request env r url token content]
    | _, _ => []
    end.
Proof.
  rewrite !backendCalls_unlogged, xmlPUT_unlogged, omap_app.
  unfold xmlPUT_steps, built_steps.
  destruct (xml_Marshal env data); [|done].
  destruct (url_Parse env url); [done|]. by rewrite call_steps_calls.
Qed.

(** One call of [PUT] makes at most one call to the backend, and the
    request it sends is the one its format's pipeline builds. *)
Lemma PUT_calls s url format token r :
  ∃ new, backendCalls (PUT env s url format token r) = backendCalls s ++ new
         ∧ (length new ≤ 1)%nat
         ∧ ∀ req, req ∈ new →
             forwarded env (inbound env s r) url token format req.
Proof.
  exists (omap call_of (PUT_steps env s url format token r)).
  split; [by rewrite !backendCalls_unlogged, PUT_unlogged, omap_app|].
  unfold PUT_steps, inbound.
  destruct (requestPreprocessing env _ r) as [[w1 r1] [perr|]]; cbn.
  { split; [lia|]. by intros req Hin%elem_of_nil. }
  case_decide as HRAW.
  { subst format. unfold rawPUT_steps; cbn.
    destruct (ReadAll_Limit _ _) as [content [e|]] eqn:Hread; cbn.
    { split; [lia|]. by intros req Hin%elem_of_nil. }
    destruct (body_closeErr _) as [e|]; cbn.
    { split; [lia|]. by intros req Hin%elem_of_nil. }
    unfold built_steps. destruct (url_Parse env url) as [e|] eqn:Hparse; cbn.
    { split; [lia|]. by intros req Hin%elem_of_nil. }
    rewrite call_steps_calls. split; [cbn; lia|].
    intros req ->%list_elem_of_singleton. by constructor. }
  case_decide as Hfmt; cbn.
  { split; [lia|]. by intros req Hin%elem_of_nil. }
  destruct (ReadAll_Limit _ _) as [content [e|]] eqn:Hread; cbn.
  { split; [lia|]. by intros req Hin%elem_of_nil. }
  destruct (body_closeErr _) as [e|]; cbn.
  { split; [lia|]. by intros req Hin%elem_of_nil. }
  destruct (json_Unmarshal env content) as [data [e|]] eqn:Hdec; cbn.
  { split; [lia|]. by intros req Hin%elem_of_nil. }
  case_decide as HXML.
  - subst format. unfold xmlPUT_steps, built_steps.
    destruct (xml_Marshal env data) as [out|e] eqn:Hmar; cbn;
      [destruct (url_Parse env url) as [e|] eqn:Hparse; cbn|].
    + split; [lia|]. by intros req Hin%elem_of_nil.
    + rewrite call_steps_calls. split; [cbn; lia|].
      intros req ->%list_elem_of_singleton. by econstructor.
    + split; [lia|]. by intros req Hin%elem_of_nil.
  - assert (format = "JSON") as ->.
    { destruct (decide (format = "JSON")); [done|]. destruct Hfmt. by split. }
    unfold jsonPUT_steps, built_steps.
    destruct (json_Marshal env data) as [out|e] eqn:Hmar; cbn;
      [destruct (url_Parse env url) as [e|] eqn:Hparse; cbn|].
    + split; [lia|]. by intros req Hin%elem_of_nil.
    + rewrite call_steps_calls. split; [cbn; lia|].
      intros req ->%list_elem_of_singleton. by econstructor.
    + split; [lia|]. by intros req Hin%elem_of_nil.
Qed.

End PUTCalls.

(** ** The writer *)

(** A writer that works takes the bytes when the status in force allows a
    body ([Write] sends 200 itself when no status line is out), and takes
    no bytes under any status. *)
Lemma rw_Write_ok w b :
  rw_broken w = None →
  (b ≠ [] → bodyAllowedForStatus (status_in_force w StatusOK) = true) →
  ∃ w', rw_Write w b = (w', None)
        ∧ rw_body w' = rw_body w ++ b
        ∧ rw_broken w' = None
        ∧ rw_wroteHeader w' = true
        ∧ rw_superfluous w' = rw_superfluous w
        ∧ (rw_wroteHeader w = true →
           rw_status w' = rw_status w ∧ rw_sent w' = rw_sent w).
Proof.
  intros Hok Hallowed. unfold rw_Write, rw_WriteHeader, status_in_force in *.
  destruct (decide (b = [])) as [->|Hb].
  - destruct (rw_wroteHeader w) eqn:Hw; simpl;
      eexists; (split; [done|]); simpl; by rewrite ?app_nil_r, ?Hw.
  - specialize (Hallowed Hb).
    destruct (rw_wroteHeader w) eqn:Hw; cbn [rw_status rw_broken];
      rewrite Hallowed, Hok;
      eexists; (split; [done|]); simpl; by rewrite ?Hw.
Qed.

(** Under a status that allows no body the bytes are refused and nothing
    goes out. *)
Lemma rw_Write_refused w b :
  b ≠ [] →
  bodyAllowedForStatus (status_in_force w StatusOK) = false →
  ∃ w', rw_Write w b = (w', Some ErrBodyNotAllowed) ∧ rw_body w' = rw_body w.
Proof.
  intros Hb Hno. unfold rw_Write, rw_WriteHeader, status_in_force in *.
  rewrite decide_False by done.
  destruct (rw_wroteHeader w) eqn:Hw; cbn [rw_status]; rewrite Hno;
    eexists; (split; [reflexivity|done]).
Qed.

Lemma status_in_force_first w code :
  rw_wroteHeader w = false → status_in_force w code = code.
Proof. intros Hw. unfold status_in_force. by rewrite Hw. Qed.

(** A first write goes out under 200, which allows a body. *)
Lemma allowed_first w :
  rw_wroteHeader w = false →
  bodyAllowedForStatus (status_in_force w StatusOK) = true.
Proof. intros Hw. by rewrite status_in_force_first. Qed.

Lemma status_in_force_Set w k v code :
  status_in_force (rw_Set w k v) code = status_in_force w code.
Proof. done. Qed.

Lemma status_in_force_WriteHeader w code code' :
  status_in_force (rw_WriteHeader w code) code' = status_in_force w code.
Proof.
  unfold status_in_force, rw_WriteHeader.
  by destruct (rw_wroteHeader w) eqn:Hw; simpl.
Qed.

Section Dispatch.
Context (env : Env).

(** [Encode] on a writer that works writes the marshalled value and a
    newline. *)
Lemma Encode_ok s v b :
  json_Marshal env v = inl b → rw_broken (st_w s) = None →
  bodyAllowedForStatus (status_in_force (st_w s) StatusOK) = true →
  ∃ w', Encode env s v = ({| st_w := w'; st_trace := st_trace s |}, None)
        ∧ rw_body w' = rw_body (st_w s) ++ b ++ [newline]
        ∧ rw_broken w' = None
        ∧ rw_wroteHeader w' = true
        ∧ rw_superfluous w' = rw_superfluous (st_w s)
        ∧ (rw_wroteHeader (st_w s) = true →
           rw_status w' = rw_status (st_w s) ∧ rw_sent w' = rw_sent (st_w s)).
Proof.
  intros Hb Hok Hallowed. unfold Encode. rewrite Hb.
  destruct (rw_Write_ok (st_w s) (b ++ [newline]) Hok (λ _, Hallowed))
    as (w' & -> & H).
  by exists w'.
Qed.

(** Where [PUT] goes once preprocessing has passed. *)
Lemma PUT_RAW s url token r w1 r1 :
  requestPreprocessing env (st_w (allowOrigin r s)) r = (w1, r1, None) →
  PUT env s url "RAW" token r =
    rawPUT env r1 {| st_w := w1; st_trace := st_trace s |} url token.
Proof.
  intros Hpre. unfold PUT. rewrite Hpre, allowOrigin_trace.
  by rewrite decide_True.
Qed.

Lemma PUT_structured s url format token r w1 r1 content data :
  format = "JSON" ∨ format = "XML" →
  requestPreprocessing env (st_w (allowOrigin r s)) r = (w1, r1, None) →
  ReadAll_Limit (req_Body r1) (MaxRequestSize env) = (content, None) →
  body_closeErr (req_Body r1) = None →
  json_Unmarshal env content = (data, None) →
  PUT env s url format token r =
    (if decide (format = "XML") then xmlPUT env else jsonPUT env) r1
      (emit EvCloseBody
         (emit (EvReadBody (MaxRequestSize env))
            {| st_w := w1; st_trace := st_trace s |}))
      url token data.
Proof.
  intros Hfmt Hpre Hread Hclose Hdec. unfold PUT.
  rewrite Hpre, allowOrigin_trace.
  rewrite decide_False by (destruct Hfmt; by subst).
  rewrite decide_False by (intros [? ?]; destruct Hfmt; by subst).
  rewrite Hread, Hclose, Hdec.
  destruct Hfmt; subst; [by rewrite decide_False, decide_True|].
  by rewrite decide_True.
Qed.

Lemma PUT_unsupported s url format token r w1 r1 :
  format ≠ "RAW" → format ≠ "XML" → format ≠ "JSON" →
  requestPreprocessing env (st_w (allowOrigin r s)) r = (w1, r1, None) →
  PUT env s url format token r =
    Log ERR "Unsupported data encoding"
      (invalidPUT env {| st_w := w1; st_trace := st_trace s |}
         (Some "Unsupported data encoding")).
Proof.
  intros HRAW HXML HJSON Hpre. unfold PUT. rewrite Hpre, allowOrigin_trace.
  rewrite decide_False by done. by rewrite decide_True.
Qed.

End Dispatch.

(** ** Redirects *)

Section Redirect.
Context (env : Env).

Lemma jsonPUT_redirect r s url token data content resp :
  url_Parse env url = None →
  json_Marshal env data = inl content →
  client_Do env (noRedirectClient env)
    (jsonPUT_request env r url token content) = inl resp →
  resp_StatusCode resp = StatusFound →
  jsonPUT env r s url token data
  = redirected env (jsonPUT_request env r url token content) resp s.
Proof.
  intros Hparse Hmar Hdo Hst. unfold jsonPUT.
  rewrite Hmar. built Hparse. rewrite Hdo.
  by rewrite decide_True.
Qed.

Lemma xmlPUT_redirect r s url token data content resp :
  url_Parse env url = None →
  xml_Marshal env data = inl content →
  client_Do env (noRedirectClient env)
    (xmlPUT_request env r url token content) = inl resp →
  resp_StatusCode resp = StatusFound →
  xmlPUT env r s url token data
  = redirected env (xmlPUT_request env r url token content) resp s.
Proof.
  intros Hparse Hmar Hdo Hst. unfold xmlPUT.
  rewrite Hmar. built Hparse. rewrite Hdo.
  by rewrite decide_True.
Qed.

Lemma redirected_writer req resp s :
  rw_wroteHeader (st_w s) = false →
  let s' := redirected env req resp s in
  rw_wroteHeader (st_w s') = true
  ∧ rw_status (st_w s') = StatusFound
  ∧ rw_superfluous (st_w s') = rw_superfluous (st_w s)
  ∧ Header_Get (rw_sent (st_w s')) "Location"
    = Header_Get (resp_Header resp) "Location"
  ∧ rw_body (st_w s') = rw_body (st_w s).
Proof.
  intros Hw. unfold redirected, on_w, rw_WriteHeader; simpl. rewrite Hw; simpl.
  repeat split. unfold Header_Get, Header_Set. by rewrite lookup_insert_eq.
Qed.

End Redirect.

(** C6.  When the backend answers 302 to a JSON or XML call, the client gets
    status 302 with the backend's Location header; the backend's body is
    not read (the trace has no [EvReadResp]) and nothing is written to the
    client's body. *)
Theorem PUT_redirect (env : Env) s url format token r w1 r1 req resp :
  format = "JSON" ∨ format = "XML" →
  requestPreprocessing env (st_w (allowOrigin r s)) r = (w1, r1, None) →
  rw_wroteHeader w1 = false →
  body_closeErr (req_Body r1) = None →
  forwarded env r1 url token format req →
  client_Do env (noRedirectClient env) req = inl resp →
  resp_StatusCode resp = StatusFound →
  let s' := PUT env s url format token r in
  rw_wroteHeader (st_w s') = true
  ∧ rw_status (st_w s') = StatusFound
  ∧ rw_superfluous (st_w s') = rw_superfluous w1
  ∧ Header_Get (rw_sent (st_w s')) "Location"
    = Header_Get (resp_Header resp) "Location"
  ∧ rw_body (st_w s') = rw_body w1
  ∧ st_trace s' =
      st_trace s ++
      [EvReadBody (MaxRequestSize env); EvCloseBody;
       EvDo (noRedirectClient env) req; EvLogResp DEBUG (Some resp);
       EvLog DEBUG "Service Returned Redirect"].
Proof.
  intros Hfmt Hpre Hw Hclose Hfwd Hdo Hst s'. subst s'.
  destruct Hfwd as [content Hread Hparse
                   | content data out Hread Hdec Hmar Hparse
                   | content data out Hread Hdec Hmar Hparse].
  - destruct Hfmt; discriminate.
  - rewrite (PUT_structured env s url "JSON" token r w1 r1 content data)
      by done.
    rewrite decide_False by done.
    rewrite (jsonPUT_redirect env r1 _ url token data out resp) by done.
    match goal with
    | |- context [redirected env ?q resp ?s0] =>
        destruct (redirected_writer env q resp s0 Hw)
          as (H1 & H2 & H3 & H4 & H5)
    end.
    repeat (split; [done|]).
    unfold redirected; simpl. by rewrite <- !app_assoc.
  - rewrite (PUT_structured env s url "XML" token r w1 r1 content data)
      by done.
    rewrite decide_True by done.
    rewrite (xmlPUT_redirect env r1 _ url token data out resp) by done.
    match goal with
    | |- context [redirected env ?q resp ?s0] =>
        destruct (redirected_writer env q resp s0 Hw)
          as (H1 & H2 & H3 & H4 & H5)
    end.
    repeat (split; [done|]).
    unfold redirected; simpl. by rewrite <- !app_assoc.
Qed.

(** ** Backend failures *)

Lemma rw_WriteHeader_body w code : rw_body (rw_WriteHeader w code) = rw_body w.
Proof. unfold rw_WriteHeader. by destruct (rw_wroteHeader w). Qed.

Lemma rw_WriteHeader_broken w code :
  rw_broken (rw_WriteHeader w code) = rw_broken w.
Proof. unfold rw_WriteHeader. by destruct (rw_wroteHeader w). Qed.

Section Failure.
Context (env : Env).





End Failure.


(** ** Local failures *)

Lemma rw_Write_status w b :
  rw_wroteHeader w = true →
  rw_wroteHeader (rw_Write w b).1 = true
  ∧ rw_status (rw_Write w b).1 = rw_status w.
Proof.
  intros Hw. unfold rw_Write. rewrite Hw. case_decide; [done|].
  destruct (bodyAllowedForStatus _); [|done]. by destruct (rw_broken w).
Qed.

Section Invalid.
Context (env : Env).

(** [invalidPUT] on a writer whose status line is not out yet answers 422,
    also when its own encoding fails afterwards. *)
Lemma invalidPUT_status s err :
  rw_wroteHeader (st_w s) = false →
  (∀ code msg, keeps_status (λ w, notifyClientOfRequestError env w code msg)) →
  rw_wroteHeader (st_w (invalidPUT env s err)) = true
  ∧ rw_status (st_w (invalidPUT env s err)) = StatusUnprocessableEntity.
Proof.
  intros Hw Hkeeps. unfold invalidPUT, Encode.
  destruct (json_Marshal env _) as [b|e]; simpl.
  - match goal with
    | |- context [rw_Write ?w ?b] =>
        destruct (rw_Write_status w b) as [H1 H2];
          [unfold rw_WriteHeader; simpl; by rewrite Hw|];
        destruct (rw_Write w b) as [w' [e|]]; simpl in *
    end.
    + destruct (Hkeeps StatusBadGateway "" w' H1) as [-> ->].
      split; [done|]. rewrite H2. unfold rw_WriteHeader; simpl.
      by rewrite Hw.
    + split; [done|]. rewrite H2. unfold rw_WriteHeader; simpl.
      by rewrite Hw.
  - match goal with
    | |- context [notifyClientOfRequestError env ?w _ _] =>
        destruct (Hkeeps StatusBadGateway "" w) as [-> ->]
    end; unfold rw_WriteHeader; simpl; by rewrite Hw.
Qed.

(** On a writer whose status line is out, [invalidPUT] cannot change it. *)
Lemma invalidPUT_dropped s err :
  rw_wroteHeader (st_w s) = true →
  (∀ code msg, keeps_status (λ w, notifyClientOfRequestError env w code msg)) →
  rw_status (st_w (invalidPUT env s err)) = rw_status (st_w s).
Proof.
  intros Hw Hkeeps. unfold invalidPUT, Encode.
  destruct (json_Marshal env _) as [b|e]; simpl.
  - match goal with
    | |- context [rw_Write ?w ?b] =>
        destruct (rw_Write_status w b) as [H1 H2];
          [unfold rw_WriteHeader; simpl; by rewrite Hw|];
        destruct (rw_Write w b) as [w' [e|]]; simpl in *
    end.
    + destruct (Hkeeps StatusBadGateway "" w' H1) as [_ ->].
      rewrite H2. unfold rw_WriteHeader; simpl. by rewrite Hw.
    + rewrite H2. unfold rw_WriteHeader; simpl. by rewrite Hw.
  - match goal with
    | |- context [notifyClientOfRequestError env ?w _ _] =>
        destruct (Hkeeps StatusBadGateway "" w) as [_ ->]
    end; unfold rw_WriteHeader; simpl; by rewrite Hw.
Qed.

(** The body of the answer is the encoding of the map. *)
Lemma invalidPUT_body s err body :
  json_Marshal env (VMap (invalidPUT_data err)) = inl body →
  rw_broken (st_w s) = None →
  bodyAllowedForStatus
    (status_in_force (st_w s) StatusUnprocessableEntity) = true →
  rw_body (st_w (invalidPUT env s err)) = rw_body (st_w s) ++ body ++ [newline].
Proof.
  intros Hmar Hok Hallowed. unfold invalidPUT.
  match goal with
  | |- context [Encode env ?s0 _] =>
      destruct (Encode_ok env s0 _ body Hmar) as (w' & -> & Hbody & _)
  end.
  { simpl. by rewrite rw_WriteHeader_broken. }
  { simpl. by rewrite status_in_force_WriteHeader, status_in_force_Set. }
  simpl. rewrite Hbody. simpl. by rewrite rw_WriteHeader_body.
Qed.

End Invalid.

(** ** Status lines asked for twice *)

Section Twice.
Context (env : Env).

(** The success path of [xmlPUT] asks for one status line more than the
    writer sends: the [WriteHeader] of line 275 comes after the body. *)
Lemma xmlPUT_success_superfluous r s url token data content resp v body :
  url_Parse env url = None →
  xml_Marshal env data = inl content →
  client_Do env (noRedirectClient env)
    (xmlPUT_request env r url token content) = inl resp →
  resp_StatusCode resp = StatusOK →
  xml_Unmarshal env (body_data (resp_Body resp)) = (v, None) →
  json_Marshal env v = inl body →
  rw_broken (st_w s) = None →
  bodyAllowedForStatus (status_in_force (st_w s) StatusOK) = true →
  rw_superfluous (st_w (xmlPUT env r s url token data))
  = S (rw_superfluous (st_w s)).
Proof.
  intros Hparse Hmar Hdo Hst Hdec Henc Hok Hallowed. unfold xmlPUT.
  rewrite Hmar. built Hparse. rewrite Hdo.
  rewrite decide_False by (rewrite Hst; done).
  rewrite decide_False by (intros H; by apply H).
  simpl. rewrite Hdec.
  match goal with
  | |- context [Encode env ?s0 v] =>
      destruct (Encode_ok env s0 v body Henc Hok Hallowed)
        as (w' & -> & _ & _ & Hwrote & Hsup & _)
  end.
  simpl. unfold rw_WriteHeader. rewrite Hwrote. simpl. by rewrite Hsup.
Qed.

(** The same path of [jsonPUT], where that call is commented out, asks for
    no more than is sent. *)
Lemma jsonPUT_success_superfluous r s url token data content resp v body :
  url_Parse env url = None →
  json_Marshal env data = inl content →
  client_Do env (noRedirectClient env)
    (jsonPUT_request env r url token content) = inl resp →
  resp_StatusCode resp = StatusOK →
  json_Unmarshal env (body_data (resp_Body resp)) = (v, None) →
  json_Marshal env v = inl body →
  rw_broken (st_w s) = None →
  bodyAllowedForStatus (status_in_force (st_w s) StatusOK) = true →
  rw_superfluous (st_w (jsonPUT env r s url token data))
  = rw_superfluous (st_w s).
Proof.
  intros Hparse Hmar Hdo Hst Hdec Henc Hok Hallowed. unfold jsonPUT.
  rewrite Hmar. built Hparse. rewrite Hdo.
  rewrite decide_False by (rewrite Hst; done).
  rewrite decide_False by (intros H; by apply H).
  simpl. rewrite Hdec.
  match goal with
  | |- context [Encode env ?s0 v] =>
      destruct (Encode_ok env s0 v body Henc Hok Hallowed)
        as (w' & -> & _ & _ & Hwrote & Hsup & _)
  end.
  simpl. by rewrite Hsup.
Qed.

(** The failure branch of [rawPUT] runs on: when the read of the backend's
    body then fails, the writer has sent the backend's status and drops the
    422 of [invalidPUT]. *)
Lemma rawPUT_failure_runs_on r s url token content resp e :
  url_Parse env url = None →
  ReadAll_Limit (req_Body r) (MaxFileUploadSize env) = (content, None) →
  body_closeErr (req_Body r) = None →
  client_Do env (defaultClient env) (rawPUT_request r url token content)
  = inl resp →
  resp_StatusCode resp ≠ StatusOK →
  body_readErr (resp_Body resp) = Some e →
  rw_wroteHeader (st_w s) = false →
  (∀ code msg, keeps_status (λ w, notifyClientOfRequestError env w code msg)) →
  rw_status (st_w (rawPUT env r s url token)) = resp_StatusCode resp.
Proof.
  intros Hparse Hread Hclose Hdo H200 Hrd Hw Hkeeps. unfold rawPUT.
  rewrite Hread, Hclose. built Hparse. rewrite Hdo. rewrite decide_True by done.
  unfold ReadAll. rewrite Hrd. simpl.
  match goal with
  | |- context [invalidPUT env ?s0 ?err] =>
      rewrite (invalidPUT_dropped env s0 err)
  end; simpl; unfold rw_WriteHeader; simpl; by rewrite ?Hw.
Qed.

End Twice.

(** C7.  A format tag other than JSON, XML and RAW is answered 422 and
    logged as an error; the inbound body is neither read nor closed and the
    backend is not called: all the call adds to the trace is error lines. *)
Theorem PUT_unsupported_format (env : Env) s url format token r w1 r1 :
  format ≠ "JSON" → format ≠ "XML" → format ≠ "RAW" →
  requestPreprocessing env (st_w (allowOrigin r s)) r = (w1, r1, None) →
  rw_wroteHeader w1 = false →
  (∀ code msg, keeps_status (λ w, notifyClientOfRequestError env w code msg)) →
  let s' := PUT env s url format token r in
  rw_wroteHeader (st_w s') = true
  ∧ rw_status (st_w s') = StatusUnprocessableEntity
  ∧ backendCalls s' = backendCalls s
  ∧ ∃ l, st_trace s' = st_trace s ++ l
         ∧ Forall is_ERR l
         ∧ EvLog ERR "Unsupported data encoding" ∈ l.
Proof.
  intros HJSON HXML HRAW Hpre Hw Hkeeps s'. subst s'.
  rewrite (PUT_unsupported env s url format token r w1 r1) by done.
  set (s1 := {| st_w := w1; st_trace := st_trace s |}).
  destruct (invalidPUT_status env s1 (Some "Unsupported data encoding") Hw Hkeeps)
    as [H1 H2].
  destruct (invalidPUT_trace env s1 (Some "Unsupported data encoding"))
    as (l & Hl & Hlogs).
  split; [done|]. split; [done|]. split.
  - rewrite !backendCalls_unlogged, unlogged_Log, unlogged_invalidPUT. done.
  - exists (l ++ [EvLog ERR "Unsupported data encoding"]).
    rewrite st_trace_Log, Hl. simpl. split; [by rewrite app_assoc|].
    split.
    + apply Forall_app. split; [done|]. repeat constructor. by eexists.
    + apply elem_of_app. right. by apply list_elem_of_singleton.
Qed.

(** ** Reads of the inbound body *)

Section Reads.
Context (env : Env).

Lemma call_steps_reads client req structured :
  omap read_of (call_steps env client req structured) = [].
Proof.
  unfold call_steps, response_steps; simpl.
  destruct (client_Do env client req) as [resp|e]; simpl; [|done].
  destruct structured; repeat case_decide; done.
Qed.

Lemma built_steps_reads url client req structured :
  omap read_of (built_steps env url (call_steps env client req structured))
  = [].
Proof.
  unfold built_steps. destruct (url_Parse env url); [done|].
  apply call_steps_reads.
Qed.

#[local] Arguments call_steps : simpl never.
#[local] Arguments built_steps : simpl never.

(** One call reads the inbound body at most once, under the ceiling of its
    format. *)
Lemma PUT_reads s url format token r :
  ∃ limits, bodyReads (PUT env s url format token r) = bodyReads s ++ limits
            ∧ ∀ n, n ∈ limits → n = ceiling_of env format.
Proof.
  exists (omap read_of (PUT_steps env s url format token r)).
  split; [by rewrite !bodyReads_unlogged, PUT_unlogged, omap_app|].
  unfold PUT_steps, ceiling_of.
  destruct (requestPreprocessing env _ r) as [[w1 r1] [perr|]]; cbn.
  { by intros n Hin%elem_of_nil. }
  case_decide as HRAW.
  { unfold rawPUT_steps; cbn.
    destruct (ReadAll_Limit _ _) as [content [e|]]; cbn.
    { by intros n ->%list_elem_of_singleton. }
    destruct (body_closeErr _) as [e|]; cbn;
      rewrite ?built_steps_reads; by intros n ->%list_elem_of_singleton. }
  case_decide as Hfmt; cbn.
  { by intros n Hin%elem_of_nil. }
  destruct (ReadAll_Limit _ _) as [content [e|]]; cbn.
  { by intros n ->%list_elem_of_singleton. }
  destruct (body_closeErr _) as [e|]; cbn.
  { by intros n ->%list_elem_of_singleton. }
  destruct (json_Unmarshal env content) as [data [e|]]; cbn.
  { by intros n ->%list_elem_of_singleton. }
  unfold xmlPUT_steps, jsonPUT_steps.
  case_decide; [destruct (xml_Marshal env data)|destruct (json_Marshal env data)];
    cbn; rewrite ?built_steps_reads; by intros n ->%list_elem_of_singleton.
Qed.

End Reads.

(** ** Closing the backend's response *)

Section Closes.
Context (env : Env).

(** A structured pipeline that got a response closes its body when the
    status is 200 and on no other status. *)
Lemma jsonPUT_closes r s url token data content resp :
  url_Parse env url = None →
  json_Marshal env data = inl content →
  client_Do env (noRedirectClient env)
    (jsonPUT_request env r url token content) = inl resp →
  responseCloses (jsonPUT env r s url token data)
  = (responseCloses s
     + if decide (resp_StatusCode resp = StatusOK) then 1 else 0)%nat.
Proof.
  intros Hparse Hmar Hdo.
  rewrite !responseCloses_unlogged, jsonPUT_unlogged, omap_app, length_app.
  unfold jsonPUT_steps, built_steps, call_steps, response_steps.
  rewrite Hmar, Hparse, Hdo. simpl.
  f_equal. repeat case_decide;
    first [done | unfold StatusFound, StatusOK in *; lia].
Qed.

Lemma xmlPUT_closes r s url token data content resp :
  url_Parse env url = None →
  xml_Marshal env data = inl content →
  client_Do env (noRedirectClient env)
    (xmlPUT_request env r url token content) = inl resp →
  responseCloses (xmlPUT env r s url token data)
  = (responseCloses s
     + if decide (resp_StatusCode resp = StatusOK) then 1 else 0)%nat.
Proof.
  intros Hparse Hmar Hdo.
  rewrite !responseCloses_unlogged, xmlPUT_unlogged, omap_app, length_app.
  unfold xmlPUT_steps, built_steps, call_steps, response_steps.
  rewrite Hmar, Hparse, Hdo. simpl.
  f_equal. repeat case_decide;
    first [done | unfold StatusFound, StatusOK in *; lia].
Qed.

(** [rawPUT] closes the body of every response it got. *)
Lemma rawPUT_closes r s url token content resp :
  url_Parse env url = None →
  ReadAll_Limit (req_Body r) (MaxFileUploadSize env) = (content, None) →
  body_closeErr (req_Body r) = None →
  client_Do env (defaultClient env) (rawPUT_request r url token content)
  = inl resp →
  responseCloses (rawPUT env r s url token) = S (responseCloses s).
Proof.
  intros Hparse Hread Hclose Hdo.
  rewrite !responseCloses_unlogged, rawPUT_unlogged, omap_app, length_app.
  unfold rawPUT_steps, built_steps, call_steps, response_steps.
  rewrite Hread, Hclose, Hparse, Hdo. simpl. lia.
Qed.

End Closes.

Lemma ReadAll_Limit_length (body : Body) (n : Z) :
  (length (ReadAll_Limit body n).1 ≤ Z.to_nat n)%nat.
Proof.
  unfold ReadAll_Limit. case_decide; simpl; [lia|apply take_ceiling].
Qed.

Lemma ReadAll_Limit_over (body : Body) (n : Z) :
  (n ≤ Z.of_nat (length (body_data body)))%Z →
  ReadAll_Limit body n = (take (Z.to_nat n) (body_data body), None).
Proof. intros Hn. unfold ReadAll_Limit. rewrite decide_False; [done|lia]. Qed.

(** C8, as the code has it.  Every read of the inbound body is under the
    ceiling of the format; the read hands back at most that many bytes, and
    a body that reaches the ceiling is cut to it without an error.  RAW
    sends the backend the bytes read, so at most the upload ceiling; JSON
    and XML send the format's marshalling of the value decoded from the
    bytes read, whatever its length. *)
Theorem PUT_ceiling (env : Env) s url format token r :
  (∃ limits,
     bodyReads (PUT env s url format token r) = bodyReads s ++ limits
     ∧ ∀ n, n ∈ limits → n = ceiling_of env format)
  ∧ (∀ body n,
       (length (ReadAll_Limit body n).1 ≤ Z.to_nat n)%nat
       ∧ ((n ≤ Z.of_nat (length (body_data body)))%Z →
          ReadAll_Limit body n = (take (Z.to_nat n) (body_data body), None)))
  ∧ (∃ new,
       backendCalls (PUT env s url format token r) = backendCalls s ++ new
       ∧ ∀ req, req ∈ new →
           let data := body_data (req_Body (inbound env s r)) in
           (format = "RAW"
            ∧ out_Body req = take (Z.to_nat (MaxFileUploadSize env)) data
            ∧ (length (out_Body req) ≤ Z.to_nat (MaxFileUploadSize env))%nat)
           ∨ (format = "JSON"
              ∧ json_Marshal env
                  (json_Unmarshal env
                     (take (Z.to_nat (MaxRequestSize env)) data)).1
                = inl (out_Body req))
           ∨ (format = "XML"
              ∧ xml_Marshal env
                  (json_Unmarshal env
                     (take (Z.to_nat (MaxRequestSize env)) data)).1
                = inl (out_Body req))).
Proof.
  split; [apply PUT_reads|]. split.
  { intros body n. split; [apply ReadAll_Limit_length|apply ReadAll_Limit_over]. }
  destruct (PUT_calls env s url format token r) as (new & Hnew & _ & Hfwd).
  exists new. split; [done|]. intros req Hin data.
  destruct (Hfwd req Hin) as [content Hread Hparse
                             | content v out Hread Hdec Hmar Hparse
                             | content v out Hread Hdec Hmar Hparse];
    apply ReadAll_Limit_content in Hread; subst content.
  - left. rewrite rawPUT_request_Body. repeat split. apply take_ceiling.
  - right; left. split; [done|]. rewrite jsonPUT_request_Body.
    subst data. by rewrite Hdec.
  - right; right. split; [done|]. rewrite xmlPUT_request_Body.
    subst data. by rewrite Hdec.
Qed.

(** C9.  Whatever the format, the request a call sends the backend carries
    as Authorization the inbound request's own header (none if it had none)
    when the token is empty, and the token when there is one. *)
Theorem PUT_Authorization (env : Env) s url format token r :
  ∃ new,
    backendCalls (PUT env s url format token r) = backendCalls s ++ new
    ∧ ∀ req, req ∈ new →
        (token = "" →
         out_Header req !! "Authorization"
         = req_Header (inbound env s r) !! "Authorization")
        ∧ (token ≠ "" → out_Header req !! "Authorization" = Some [token]).
Proof.
  destruct (PUT_calls env s url format token r) as (new & Hnew & _ & Hfwd).
  exists new. split; [done|]. intros req Hin.
  assert (out_Header req !! "Authorization"
          = Authorization_of (inbound env s r) token) as ->.
  { destruct (Hfwd req Hin).
    - apply rawPUT_request_Authorization.
    - apply jsonPUT_request_Authorization.
    - apply xmlPUT_request_Authorization. }
  unfold Authorization_of. split; intros Htok.
  - by rewrite decide_True.
  - by rewrite decide_False.
Qed.

(** A line handed to [logger.Log] shows in [logLines]. *)
Lemma logLines_Log lvl msg s :
  logLines (Log lvl msg s) = logLines s ++ [(lvl, msg)].
Proof.
  unfold logLines, Log, emit; cbn [st_trace]. by rewrite omap_app.
Qed.

Lemma logLines_unread f s w limit :
  logLines (on_w f
              (emit EvCloseBody
                 (emit (EvReadBody limit)
                    {| st_w := w; st_trace := st_trace s |})))
  = logLines s.
Proof.
  unfold logLines, on_w, emit; cbn [st_trace]. rewrite !omap_app. simpl.
  by rewrite !app_nil_r.
Qed.

(** C2, as the code has it.  Under JSON and under XML alike the inbound body
    is decoded with the JSON decoder, and [xml.Unmarshal] is not asked: the
    value the JSON decoder finds goes to the pipeline of the format, and a
    body it refuses is logged and ends the call before the backend is
    reached. *)
Theorem PUT_decodes_JSON (env : Env) s url format token r w1 r1 content :
  format = "JSON" ∨ format = "XML" →
  requestPreprocessing env (st_w (allowOrigin r s)) r = (w1, r1, None) →
  ReadAll_Limit (req_Body r1) (MaxRequestSize env) = (content, None) →
  body_closeErr (req_Body r1) = None →
  let s1 := emit EvCloseBody
              (emit (EvReadBody (MaxRequestSize env))
                 {| st_w := w1; st_trace := st_trace s |}) in
  let s' := PUT env s url format token r in
  (∀ data, json_Unmarshal env content = (data, None) →
     s' = (if decide (format = "XML") then xmlPUT env else jsonPUT env)
            r1 s1 url token data)
  ∧ (∀ v err, json_Unmarshal env content = (v, Some err) →
       backendCalls s' = backendCalls s
       ∧ unlogged s'
         = unlogged s ++ [EvReadBody (MaxRequestSize env); EvCloseBody]
       ∧ logLines s' = logLines s ++ [(ERR, err)]).
Proof.
  intros Hfmt Hpre Hread Hclose s1 s'. split.
  - intros data Hdec.
    by apply (PUT_structured env s url format token r w1 r1 content data).
  - intros v err Hdec.
    assert (s' = Log ERR err (on_w (λ w, invalidPOST env w err) s1)) as ->.
    { subst s'. unfold PUT. rewrite Hpre, allowOrigin_trace.
      rewrite decide_False by (destruct Hfmt; by subst).
      rewrite decide_False by (intros [? ?]; destruct Hfmt; by subst).
      by rewrite Hread, Hclose, Hdec. }
    assert (unlogged (Log ERR err (on_w (λ w, invalidPOST env w err) s1))
            = unlogged s ++ [EvReadBody (MaxRequestSize env); EvCloseBody])
      as Hsteps by (subst s1; by steps).
    split; [|split; [done|]].
    + rewrite !backendCalls_unlogged, Hsteps, omap_app. simpl.
      by rewrite app_nil_r.
    + rewrite logLines_Log. f_equal. apply logLines_unread.
Qed.

(** * Further properties *)

(** ** The writer under the handler *)

Lemma extends_refl w : extends w w.
Proof.
  split; [|split; [|split]]; try done.
  - intros Hw Hw'. congruence.
  - exists []. by rewrite app_nil_r.
Qed.

Lemma extends_trans w1 w2 w3 : extends w1 w2 → extends w2 w3 → extends w1 w3.
Proof.
  intros (Hh1 & Hs1 & Hf1 & [m1 Hb1]) (Hh2 & Hs2 & Hf2 & [m2 Hb2]).
  split; [|split; [|split]].
  - intros k Hk. by rewrite Hh2, Hh1.
  - intros Hw. destruct (Hs1 Hw) as (Hw2 & Hst & Hsent).
    destruct (Hs2 Hw2) as (Hw3 & Hst' & Hsent'). by rewrite Hst', Hsent'.
  - intros Hw Hw3 k Hk. destruct (rw_wroteHeader w2) eqn:Hw2.
    + destruct (Hs2 eq_refl) as (_ & _ & ->). by apply Hf1.
    + rewrite (Hf2 eq_refl Hw3 k Hk). by apply Hh1.
  - exists (m1 ++ m2). by rewrite Hb2, Hb1, app_assoc.
Qed.

Lemma extends_Set w k v : own_key k → extends w (rw_Set w k v).
Proof.
  intros Hk. split; [|split; [|split]]; simpl.
  - intros k' Hk'. unfold Header_Set. rewrite lookup_insert_ne; [done|].
    intros ->. by apply Hk'.
  - done.
  - intros Hw Hw'. congruence.
  - exists []. by rewrite app_nil_r.
Qed.

Lemma extends_WriteHeader w code : extends w (rw_WriteHeader w code).
Proof.
  unfold rw_WriteHeader.
  destruct (rw_wroteHeader w) eqn:Hw;
    (split; [|split; [|split]]); simpl;
    first [done | intros; congruence | exists []; by rewrite app_nil_r].
Qed.

Lemma extends_Write w body : extends w (rw_Write w body).1.
Proof.
  unfold rw_Write.
  assert (extends w (if rw_wroteHeader w then w else rw_WriteHeader w StatusOK))
    as Hfirst.
  { destruct (rw_wroteHeader w); [apply extends_refl|apply extends_WriteHeader]. }
  set (w1 := if rw_wroteHeader w then w else rw_WriteHeader w StatusOK) in *.
  case_decide; [done|].
  destruct (bodyAllowedForStatus _); [|done].
  destruct (rw_broken w1); simpl; [done|].
  eapply extends_trans; [exact Hfirst|].
  split; [|split; [|split]]; simpl; try done.
  - intros Hw Hw'. congruence.
  - by exists body.
Qed.

Lemma rw_Write_wrote w body : rw_wroteHeader (rw_Write w body).1 = true.
Proof.
  unfold rw_Write, rw_WriteHeader.
  destruct (rw_wroteHeader w) eqn:Hw; cbn [rw_status rw_broken];
    (case_decide; [done|]);
    (destruct (bodyAllowedForStatus _); [|done]);
    destruct (rw_broken w); done.
Qed.

Lemma rw_WriteHeader_wrote w code : rw_wroteHeader (rw_WriteHeader w code) = true.
Proof. unfold rw_WriteHeader. by destruct (rw_wroteHeader w). Qed.

Lemma extends_wrote w w' :
  extends w w' → rw_wroteHeader w = true → rw_wroteHeader w' = true.
Proof. intros (_ & Hs & _) Hw. by destruct (Hs Hw). Qed.

Lemma own_key_ContentType : own_key "Content-Type".
Proof. by left. Qed.

Lemma own_key_Location : own_key "Location".
Proof. by right. Qed.

Ltac ext_step :=
  cbn [st_w st_trace on_w emit Log fst];
  match goal with
  | |- extends ?w ?w => apply extends_refl
  | H : extends ?a ?w |- extends _ ?w => eapply extends_trans; [|exact H]
  | |- extends _ (rw_Set _ _ _) =>
      eapply extends_trans;
      [|apply extends_Set;
        first [apply own_key_ContentType | apply own_key_Location]]
  | |- extends _ (rw_WriteHeader _ _) =>
      eapply extends_trans; [|apply extends_WriteHeader]
  end.

Section Invariant.
Context (env : Env).
Hypothesis Hext : helpers_extend env.

Lemma Encode_extends s v s' err :
  Encode env s v = (s', err) → extends (st_w s) (st_w s').
Proof.
  unfold Encode. destruct (json_Marshal env v) as [body|e].
  - pose proof (extends_Write (st_w s) (body ++ [newline])) as H.
    destruct (rw_Write (st_w s) (body ++ [newline])) as [w e].
    by intros [= <- _].
  - intros [= <- _]. apply extends_refl.
Qed.

Lemma Encode_wrote s v s' :
  Encode env s v = (s', None) → rw_wroteHeader (st_w s') = true.
Proof.
  unfold Encode. destruct (json_Marshal env v) as [body|e]; [|done].
  pose proof (rw_Write_wrote (st_w s) (body ++ [newline])) as H.
  destruct (rw_Write (st_w s) (body ++ [newline])) as [w e].
  by intros [= <- _].
Qed.

(** Whatever becomes of its encoding, [invalidPUT] leaves the writer with
    the status line out. *)
Lemma invalidPUT_extends s err :
  extends (st_w s) (st_w (invalidPUT env s err))
  ∧ rw_wroteHeader (st_w (invalidPUT env s err)) = true.
Proof.
  unfold invalidPUT.
  set (s2 := on_w (λ w, rw_WriteHeader w StatusUnprocessableEntity)
               (on_w (λ w, rw_Set w "Content-Type"
                             "application/json; charset=UTF-8") s)).
  assert (extends (st_w s) (st_w s2)) as H2 by (subst s2; repeat ext_step).
  assert (rw_wroteHeader (st_w s2) = true) as Hw2
    by (subst s2; apply rw_WriteHeader_wrote).
  destruct (Encode env s2 _) as [s' [e|]] eqn:HE;
    apply Encode_extends in HE;
    pose proof (extends_wrote _ _ HE Hw2) as Hw'.
  - cbn [st_w on_w Log emit].
    pose proof (proj2 Hext (st_w s') StatusBadGateway "") as Hn.
    split; [|by apply (extends_wrote _ _ Hn)].
    eapply extends_trans; [|exact Hn]. by eapply extends_trans.
  - split; [by eapply extends_trans|done].
Qed.

Lemma unsuccessfulPUT_extends s format content err :
  extends (st_w s) (st_w (unsuccessfulPUT env s format content err))
  ∧ (rw_wroteHeader (st_w s) = true →
     rw_wroteHeader (st_w (unsuccessfulPUT env s format content err)) = true).
Proof.
  unfold unsuccessfulPUT.
  assert (∀ v,
    let r := match Encode env s v with
             | (s', Some err0) =>
                 on_w (λ w, notifyClientOfRequestError env w StatusBadGateway "")
                   (Log ERR err0 s')
             | (s', None) => s'
             end in
    extends (st_w s) (st_w r)
    ∧ (rw_wroteHeader (st_w s) = true → rw_wroteHeader (st_w r) = true))
    as Hfinish.
  { intros v.
    destruct (Encode env s v) as [s' [e|]] eqn:HE;
      apply Encode_extends in HE; cbn [st_w on_w Log emit].
    - pose proof (proj2 Hext (st_w s') StatusBadGateway "") as Hn.
      split; [by eapply extends_trans|].
      intros Hw. apply (extends_wrote _ _ Hn). by apply (extends_wrote _ _ HE).
    - split; [done|]. by apply extends_wrote. }
  repeat case_decide; [apply Hfinish..|].
  cbn [st_w on_w]. split; [apply extends_Write|].
  intros _. apply rw_Write_wrote.
Qed.

Lemma invalidPUT_from w0 s err :
  extends w0 (st_w s) →
  extends w0 (st_w (invalidPUT env s err))
  ∧ rw_wroteHeader (st_w (invalidPUT env s err)) = true.
Proof.
  intros H0. destruct (invalidPUT_extends s err) as [H1 H2].
  split; [by eapply extends_trans|done].
Qed.

Lemma unsuccessfulPUT_from w0 s format content err :
  extends w0 (st_w s) → rw_wroteHeader (st_w s) = true →
  extends w0 (st_w (unsuccessfulPUT env s format content err))
  ∧ rw_wroteHeader (st_w (unsuccessfulPUT env s format content err)) = true.
Proof.
  intros H0 Hw. destruct (unsuccessfulPUT_extends s format content err) as [H1 H2].
  split; [by eapply extends_trans|auto].
Qed.

(** [invalidPOST] sends a status line. *)
Let posts : Prop := ∀ w err, rw_wroteHeader (invalidPOST env w err) = true.

Lemma answered_anyway (A B C : Prop) : A ∧ B → A ∧ (posts → C → B).
Proof. intros [HA HB]. by split. Qed.

Ltac finish_invalidPUT :=
  cbn [st_w st_trace on_w emit Log];
  apply answered_anyway, invalidPUT_from; repeat ext_step.

(** Each pipeline uses the writer within [extends] and, on a url that
    parses, leaves it with the status line out.  On a url [NewRequest]
    refuses the handler panics with the writer as it was. *)
Lemma jsonPUT_extends r s url token data :
  extends (st_w s) (st_w (jsonPUT env r s url token data))
  ∧ (posts → url_Parse env url = None →
     rw_wroteHeader (st_w (jsonPUT env r s url token data)) = true).
Proof.
  unfold jsonPUT, NewRequest. destruct (json_Marshal env data) as [content|e].
  2: { cbn [st_w on_w Log emit].
       split; [apply Hext|intros Hpost _; apply Hpost]. }
  destruct (url_Parse env url) as [e|].
  { split; [apply extends_refl|done]. }
  destruct (client_Do env _ _) as [resp|e]; [|finish_invalidPUT].
  repeat case_decide.
  - cbn [st_w on_w Log emit].
    split; [repeat ext_step|intros _ _; apply rw_WriteHeader_wrote].
  - unfold ReadAll. apply answered_anyway, unsuccessfulPUT_from; [repeat ext_step|].
    cbn [st_w on_w Log emit]. apply rw_WriteHeader_wrote.
  - cbn zeta. destruct (json_Unmarshal env _) as [v [e|]]; [finish_invalidPUT|].
    destruct (Encode env _ v) as [s' [e|]] eqn:HE.
    + pose proof (Encode_extends _ _ _ _ HE) as HEnc.
      cbn [st_w on_w Log emit] in HEnc |- *.
      apply answered_anyway, invalidPUT_from. repeat ext_step.
    + pose proof (Encode_extends _ _ _ _ HE) as HEnc.
      pose proof (Encode_wrote _ _ _ HE) as Hw.
      cbn [st_w on_w Log emit] in HEnc |- *.
      split; [repeat ext_step|done].
Qed.

Lemma xmlPUT_extends r s url token data :
  extends (st_w s) (st_w (xmlPUT env r s url token data))
  ∧ (posts → url_Parse env url = None →
     rw_wroteHeader (st_w (xmlPUT env r s url token data)) = true).
Proof.
  unfold xmlPUT, NewRequest. destruct (xml_Marshal env data) as [content|e];
    [|finish_invalidPUT].
  destruct (url_Parse env url) as [e|].
  { split; [apply extends_refl|done]. }
  destruct (client_Do env _ _) as [resp|e]; [|finish_invalidPUT].
  repeat case_decide.
  - cbn [st_w on_w Log emit].
    split; [repeat ext_step|intros _ _; apply rw_WriteHeader_wrote].
  - unfold ReadAll. apply answered_anyway, unsuccessfulPUT_from; [repeat ext_step|].
    cbn [st_w on_w Log emit]. apply rw_WriteHeader_wrote.
  - cbn zeta. destruct (xml_Unmarshal env _) as [v [e|]]; [finish_invalidPUT|].
    destruct (Encode env _ v) as [s' [e|]] eqn:HE.
    + pose proof (Encode_extends _ _ _ _ HE) as HEnc.
      cbn [st_w on_w Log emit] in HEnc |- *.
      apply answered_anyway, invalidPUT_from. repeat ext_step.
    + pose proof (Encode_extends _ _ _ _ HE) as HEnc.
      cbn [st_w on_w Log emit] in HEnc |- *.
      split; [repeat ext_step|intros _ _; apply rw_WriteHeader_wrote].
Qed.

Lemma rawPUT_extends r s url token :
  extends (st_w s) (st_w (rawPUT env r s url token))
  ∧ (posts → url_Parse env url = None →
     rw_wroteHeader (st_w (rawPUT env r s url token)) = true).
Proof.
  unfold rawPUT, NewRequest.
  destruct (ReadAll_Limit _ _) as [content [e|]]; [finish_invalidPUT|].
  destruct (body_closeErr _) as [e|]; [finish_invalidPUT|].
  destruct (url_Parse env url) as [e|].
  { split; [apply extends_refl|done]. }
  destruct (client_Do env _ _) as [resp|e]; [|finish_invalidPUT].
  cbn zeta.
  match goal with
  | |- context [emit EvReadResp ?s0] =>
      assert (extends (st_w s) (st_w s0)) as Hs0
        by (case_decide; repeat ext_step);
      set (sx := s0) in *; clearbody sx
  end.
  destruct (ReadAll _) as [contents [e|]].
  { cbn [st_w on_w Log emit]. apply answered_anyway, invalidPUT_from.
    repeat ext_step. }
  match goal with
  | |- context [rw_Write ?w ?c] =>
      pose proof (extends_Write w c) as HW;
      pose proof (rw_Write_wrote w c) as HWw;
      destruct (rw_Write w c) as [w' [e|]]
  end; cbn [st_w on_w Log emit fst] in *.
  - apply answered_anyway, invalidPUT_from. cbn [st_w]. repeat ext_step.
  - split; [repeat ext_step|done].
Qed.

(** The whole call, from the writer preprocessing left. *)
Lemma PUT_extends s url format token r w1 r1 :
  requestPreprocessing env (st_w (allowOrigin r s)) r = (w1, r1, None) →
  extends w1 (st_w (PUT env s url format token r))
  ∧ (posts → url_Parse env url = None →
     rw_wroteHeader (st_w (PUT env s url format token r)) = true).
Proof.
  intros Hpre. unfold PUT. rewrite Hpre.
  case_decide; [apply rawPUT_extends|].
  case_decide; [finish_invalidPUT|].
  destruct (ReadAll_Limit _ _) as [content [e|]]; [finish_invalidPUT|].
  destruct (body_closeErr _) as [e|]; [finish_invalidPUT|].
  destruct (json_Unmarshal env content) as [data [e|]].
  { cbn [st_w on_w Log emit].
    split; [apply Hext|intros Hpost _; apply Hpost]. }
  repeat case_decide;
    [apply xmlPUT_extends | apply jsonPUT_extends | finish_invalidPUT].
Qed.

End Invariant.

(** X1.  Once preprocessing has passed, and when the url is one that
    [http.NewRequest] accepts, every path through [PUT] and its pipelines
    leaves the client answered: the status line is out when the call
    returns, provided [invalidPOST] sends one and the two helpers use the
    writer as a writer.  (On a url that does not parse the pipelines panic
    once they have their body to send.) *)
Theorem PUT_always_answers (env : Env) s url format token r w1 r1 :
  requestPreprocessing env (st_w (allowOrigin r s)) r = (w1, r1, None) →
  url_Parse env url = None →
  helpers_extend env →
  (∀ w err, rw_wroteHeader (invalidPOST env w err) = true) →
  rw_wroteHeader (st_w (PUT env s url format token r)) = true.
Proof.
  intros Hpre Hparse Hext Hpost.
  destruct (PUT_extends env Hext s url format token r w1 r1 Hpre) as [_ Hw].
  by apply Hw.
Qed.

(** X2.  What [PUT] does to the writer preprocessing hands back, whether
    preprocessing passed or not: of the header map it touches Content-Type
    and Location only; a status line that was already out stays as it went
    out, with its headers; the body is only added to. *)
Theorem PUT_respects_writer (env : Env) s url format token r w1 r1 perr :
  requestPreprocessing env (st_w (allowOrigin r s)) r = (w1, r1, perr) →
  helpers_extend env →
  let w' := st_w (PUT env s url format token r) in
  (∀ k, k ≠ "Content-Type" → k ≠ "Location" →
        rw_header w' !! k = rw_header w1 !! k)
  ∧ (rw_wroteHeader w1 = true →
     rw_wroteHeader w' = true ∧ rw_status w' = rw_status w1
     ∧ rw_sent w' = rw_sent w1)
  ∧ (∃ more, rw_body w' = rw_body w1 ++ more).
Proof.
  intros Hpre Hext w'.
  assert (extends w1 w') as (Hh & Hs & _ & Hb).
  { subst w'. destruct perr as [e|].
    - unfold PUT. rewrite Hpre. apply extends_refl.
    - by destruct (PUT_extends env Hext s url format token r w1 r1 Hpre). }
  split; [|split]; [|done..].
  intros k Hct Hloc. apply Hh. by intros [?|?].
Qed.

(** X3.  The answer to a request that names an Origin carries the three
    CORS headers: they are set before preprocessing, and when preprocessing
    passes without touching the header map or the status line, the status
    line the call sends, on whichever path it sends one, carries them.
    (A call that sends none, the panic on a url that does not parse, is
    outside the statement.) *)
Theorem PUT_sends_CORS (env : Env) s url format token r w1 r1 :
  Header_Get (req_Header r) "Origin" ≠ "" →
  requestPreprocessing env (st_w (allowOrigin r s)) r = (w1, r1, None) →
  rw_header w1 = rw_header (st_w (allowOrigin r s)) →
  rw_wroteHeader w1 = false →
  helpers_extend env →
  let w' := st_w (PUT env s url format token r) in
  rw_wroteHeader w' = true →
  rw_sent w' !! "Access-Control-Allow-Origin"
  = Some [Header_Get (req_Header r) "Origin"]
  ∧ rw_sent w' !! "Access-Control-Allow-Methods" = Some ["PUT"]
  ∧ rw_sent w' !! "Access-Control-Allow-Headers"
    = Some ["Accept, Content-Type, Content-Length, Accept-Encoding, X-CSRF-Token, Authorization"].
Proof.
  intros Horigin Hpre Hhdr Hw Hext w' Hwrote.
  destruct (PUT_extends env Hext s url format token r w1 r1 Hpre)
    as [(_ & _ & Hsent & _) _].
  specialize (Hsent Hw Hwrote). fold w' in Hsent.
  assert (∀ k, ¬ own_key k →
            rw_sent w' !! k = rw_header (st_w (allowOrigin r s)) !! k) as Hk.
  { intros k Hown. rewrite <- Hhdr. by apply Hsent. }
  unfold allowOrigin in Hk. rewrite decide_True in Hk by done.
  cbn [st_w on_w rw_Set rw_header] in Hk. unfold Header_Set in Hk.
  repeat split.
  - rewrite Hk by (intros [?|?]; discriminate).
    rewrite !lookup_insert_ne by done. by rewrite lookup_insert_eq.
  - rewrite Hk by (intros [?|?]; discriminate).
    rewrite !lookup_insert_ne by done. by rewrite lookup_insert_eq.
  - rewrite Hk by (intros [?|?]; discriminate). by rewrite lookup_insert_eq.
Qed.

(** ** The shape of a call *)

Lemma backendDos_unlogged s : backendDos s = omap do_of (unlogged s).
Proof. by apply omap_unlogged. Qed.

Lemma bodyCloses_unlogged s :
  bodyCloses s = length (omap inbound_close_of (unlogged s)).
Proof. unfold bodyCloses. by rewrite omap_unlogged. Qed.

Lemma responseReads_unlogged s :
  responseReads s = length (omap response_read_of (unlogged s)).
Proof. unfold responseReads. by rewrite omap_unlogged. Qed.

Section Shape.
Context (env : Env).

(** The steps of a call are one of five: nothing; the read alone (it
    failed); the read and the close (the close failed, or the body did not
    decode or encode); the read, the close and the panic on a url that does
    not parse; or the read, the close and one call to the backend with what
    follows it. *)
Lemma PUT_steps_shape s url format token r :
  let steps := PUT_steps env s url format token r in
  let limit := ceiling_of env format in
  let r1 := inbound env s r in
  steps = []
  ∨ steps = [EvReadBody limit]
  ∨ steps = [EvReadBody limit; EvCloseBody]
  ∨ steps = [EvReadBody limit; EvCloseBody; EvPanic]
  ∨ ∃ req,
      forwarded env r1 url token format req
      ∧ body_closeErr (req_Body r1) = None
      ∧ steps = EvReadBody limit :: EvCloseBody
                  :: call_steps env (client_of env format) req
                       (bool_decide (format ≠ "RAW")).
Proof.
  unfold PUT_steps, inbound, ceiling_of, client_of.
  destruct (requestPreprocessing env _ r) as [[w1 r1] [perr|]]; cbn [fst snd];
    [by left|].
  case_decide as HRAW.
  { subst format. unfold rawPUT_steps, built_steps.
    destruct (ReadAll_Limit _ _) as [content [e|]] eqn:Hread; [by right; left|].
    destruct (body_closeErr _) as [e|] eqn:Hclose; [by right; right; left|].
    destruct (url_Parse env url) as [e|] eqn:Hparse;
      [by right; right; right; left|].
    right; right; right; right. eexists. split; [by constructor|]. by split. }
  case_decide as Hfmt; [by left|].
  destruct (ReadAll_Limit _ _) as [content [e|]] eqn:Hread; [by right; left|].
  destruct (body_closeErr _) as [e|] eqn:Hclose; [by right; right; left|].
  destruct (json_Unmarshal env content) as [data [e|]] eqn:Hdec;
    [by right; right; left|].
  rewrite bool_decide_true by done.
  case_decide as HXML.
  - subst format. unfold xmlPUT_steps, built_steps.
    destruct (xml_Marshal env data) as [out|e] eqn:Hmar;
      [|by right; right; left].
    destruct (url_Parse env url) as [e|] eqn:Hparse;
      [by right; right; right; left|].
    right; right; right; right. eexists. split; [by econstructor|]. by split.
  - assert (format = "JSON") as ->.
    { destruct (decide (format = "JSON")); [done|]. destruct Hfmt. by split. }
    unfold jsonPUT_steps, built_steps.
    destruct (json_Marshal env data) as [out|e] eqn:Hmar;
      [|by right; right; left].
    destruct (url_Parse env url) as [e|] eqn:Hparse;
      [by right; right; right; left|].
    right; right; right; right. eexists. split; [by econstructor|]. by split.
Qed.

Lemma call_steps_dos client req structured :
  omap do_of (call_steps env client req structured) = [(client, req)].
Proof.
  unfold call_steps, response_steps; simpl.
  destruct (client_Do env client req) as [resp|e]; simpl; [|done].
  destruct structured; repeat case_decide; done.
Qed.

Lemma call_steps_head client req structured :
  ∃ after, call_steps env client req structured = EvDo client req :: after
           ∧ omap do_of after = [].
Proof.
  unfold call_steps, response_steps. eexists. split; [done|]. simpl.
  destruct (client_Do env client req) as [resp|e]; simpl; [|done].
  destruct structured; repeat case_decide; done.
Qed.

Lemma steps_dos limit client req after :
  omap do_of after = [] →
  omap do_of (EvReadBody limit :: EvCloseBody :: EvDo client req :: after)
  = [(client, req)].
Proof.
  intros H.
  change (omap do_of ([EvReadBody limit; EvCloseBody; EvDo client req] ++ after)
          = [(client, req)]).
  by rewrite omap_app, H.
Qed.

End Shape.

(** X4.  One call of [PUT] calls the backend at most once (there is no
    retry), and only after it has read the inbound body under the ceiling of
    the format and closed it. *)
Theorem PUT_calls_backend_once_after_body (env : Env) s url format token r :
  ∃ steps,
    unlogged (PUT env s url format token r) = unlogged s ++ steps
    ∧ (length (omap do_of steps) ≤ 1)%nat
    ∧ ∀ c req, EvDo c req ∈ steps →
        ∃ after,
          steps = EvReadBody (ceiling_of env format) :: EvCloseBody
                    :: EvDo c req :: after
          ∧ omap do_of after = [].
Proof.
  exists (PUT_steps env s url format token r).
  split; [apply PUT_unlogged|].
  destruct (PUT_steps_shape env s url format token r)
    as [-> | [-> | [-> | [-> | (req & _ & _ & ->)]]]].
  - split; [simpl; lia|]. by intros c req' Hin%elem_of_nil.
  - split; [simpl; lia|]. intros c req' Hin%list_elem_of_singleton. done.
  - split; [simpl; lia|]. intros c req' Hin.
    apply elem_of_cons in Hin as [?|Hin%list_elem_of_singleton]; done.
  - split; [simpl; lia|]. intros c req' Hin.
    apply elem_of_cons in Hin as [?|Hin]; [done|].
    apply elem_of_cons in Hin as [?|Hin%list_elem_of_singleton]; done.
  - destruct (call_steps_head env (client_of env format) req
                (bool_decide (format ≠ "RAW"))) as (after & Hsteps & Hafter).
    rewrite Hsteps. split; [rewrite steps_dos by done; simpl; lia|].
    intros c req' Hin.
    apply elem_of_cons in Hin as [?|Hin]; [done|].
    apply elem_of_cons in Hin as [?|Hin]; [done|].
    apply elem_of_cons in Hin as [[= -> ->]|Hin]; [by exists after|].
    exfalso. clear Hsteps.
    induction after as [|e after IH]; [by apply elem_of_nil in Hin|].
    apply elem_of_cons in Hin as [<-|Hin]; [done|].
    apply IH; [|done]. by destruct e.
Qed.

(** ** The request that goes out *)

Lemma copyHeaders_Method r req : out_Method (copyHeaders r req) = out_Method req.
Proof. with_strategy transparent [copyHeaders] reflexivity. Qed.

Lemma copyHeaders_URL r req : out_URL (copyHeaders r req) = out_URL req.
Proof. with_strategy transparent [copyHeaders] reflexivity. Qed.

Section Outbound.
Context (env : Env).

Lemma forwarded_Method_URL r url token format req :
  forwarded env r url token format req →
  out_Method req = "PUT" ∧ out_URL req = url.
Proof.
  intros [content _|content data out _ _ _|content data out _ _ _].
  - unfold rawPUT_request, rawPUT_headers. case_decide; cbn [out_Set out_Method out_URL];
      by rewrite copyHeaders_Method, copyHeaders_URL.
  - unfold jsonPUT_request, jsonPUT_headers. case_decide; cbn [out_Set out_Method out_URL];
      by rewrite copyHeaders_Method, copyHeaders_URL.
  - unfold xmlPUT_request, xmlPUT_headers. case_decide; cbn [out_Set out_Method out_URL];
      by rewrite copyHeaders_Method, copyHeaders_URL.
Qed.

Lemma out_Set_lookup_ne req k v k' :
  k ≠ k' → out_Header (out_Set req k v) !! k' = out_Header req !! k'.
Proof. intros Hne. cbn [out_Set out_Header]. unfold Header_Set.
  by rewrite lookup_insert_ne. Qed.

(** Apart from Content-Type and Authorization the outbound headers are the
    inbound ones; under RAW Content-Type is the inbound one as well. *)
Lemma forwarded_other_headers r url token format req k :
  forwarded env r url token format req →
  k ≠ "Authorization" → format = "RAW" ∨ k ≠ "Content-Type" →
  out_Header req !! k = req_Header r !! k.
Proof.
  intros [content _|content data out _ _ _|content data out _ _ _] Hauth Hct.
  - unfold rawPUT_request, rawPUT_headers.
    case_decide; rewrite ?out_Set_lookup_ne by done;
      rewrite copyHeaders_lookup; cbn [newRequest out_Header];
      rewrite lookup_empty; by destruct (req_Header r !! k).
  - destruct Hct as [?|Hct]; [done|]. unfold jsonPUT_request, jsonPUT_headers.
    case_decide; rewrite ?out_Set_lookup_ne by done;
      rewrite copyHeaders_lookup; cbn [newRequest out_Header];
      rewrite lookup_empty; by destruct (req_Header r !! k).
  - destruct Hct as [?|Hct]; [done|]. unfold xmlPUT_request, xmlPUT_headers.
    case_decide; rewrite ?out_Set_lookup_ne by done;
      rewrite copyHeaders_lookup; rewrite out_Set_lookup_ne by done;
      cbn [newRequest out_Header];
      rewrite lookup_empty; by destruct (req_Header r !! k).
Qed.

End Outbound.

(** X5.  Every call to the backend is a PUT to the url [PUT] was given,
    through a client with the package's timeout; the client hands redirects
    back under JSON and XML and follows them under RAW. *)
Theorem PUT_call_shape (env : Env) s url format token r :
  ∃ new,
    backendDos (PUT env s url format token r) = backendDos s ++ new
    ∧ ∀ c req, (c, req) ∈ new →
        out_Method req = "PUT" ∧ out_URL req = url
        ∧ client_Timeout c = Timeout env
        ∧ client_NoFollow c = bool_decide (format ≠ "RAW").
Proof.
  exists (omap do_of (PUT_steps env s url format token r)).
  split; [by rewrite !backendDos_unlogged, PUT_unlogged, omap_app|].
  destruct (PUT_steps_shape env s url format token r)
    as [-> | [-> | [-> | [-> | (req & Hfwd & _ & ->)]]]];
    try by intros c req' Hin%elem_of_nil.
  destruct (call_steps_head env (client_of env format) req
              (bool_decide (format ≠ "RAW"))) as (after & -> & Hafter).
  rewrite steps_dos by done.
  intros c req' [= -> ->]%list_elem_of_singleton.
  destruct (forwarded_Method_URL env _ url token format req Hfwd) as [-> ->].
  split; [done|]. split; [done|]. unfold client_of.
  case_decide as HRAW; (split; [done|]); cbn [client_NoFollow].
  - rewrite bool_decide_false; [done|]. intros Hne. by apply Hne.
  - by rewrite bool_decide_true.
Qed.

(** X6.  Header propagation leaves the other headers alone: every inbound
    header other than Content-Type and Authorization reaches the backend
    with its values as they came, under all three formats, and under RAW
    Content-Type does too; a header the inbound request did not have is not
    sent. *)
Theorem PUT_forwards_other_headers (env : Env) s url format token r :
  ∃ new,
    backendCalls (PUT env s url format token r) = backendCalls s ++ new
    ∧ ∀ req k, req ∈ new →
        k ≠ "Authorization" → format = "RAW" ∨ k ≠ "Content-Type" →
        out_Header req !! k = req_Header (inbound env s r) !! k.
Proof.
  destruct (PUT_calls env s url format token r) as (new & Hnew & _ & Hfwd).
  exists new. split; [done|]. intros req k Hin Hauth Hct.
  by apply (forwarded_other_headers env _ url token format req k (Hfwd req Hin)).
Qed.

(** A request preprocessing refuses goes no further, whatever the
    format: the call returns with the writer as preprocessing left it and
    adds nothing to the trace: no read of the body, no call to the backend,
    no log line. *)
Lemma PUT_preprocessing_gate (env : Env) s url format token r w1 r1 err :
  requestPreprocessing env (st_w (allowOrigin r s)) r = (w1, r1, Some err) →
  st_w (PUT env s url format token r) = w1
  ∧ st_trace (PUT env s url format token r) = st_trace s.
Proof.
  intros Hpre. unfold PUT. rewrite Hpre. split; [done|].
  apply allowOrigin_trace.
Qed.

(** ** The answer of each branch *)

Lemma answered_with_extends w w' code ct :
  answered_with w code ct → extends w w' → answered_with w' code ct.
Proof.
  intros (Hw & Hst & Hct) (_ & Hs & _). destruct (Hs Hw) as (Hw' & Hst' & Hsent).
  unfold answered_with. by rewrite Hw', Hst', Hsent.
Qed.

Lemma answered_first w code ct :
  rw_wroteHeader w = false →
  answered_with (rw_WriteHeader (rw_Set w "Content-Type" ct) code) code ct.
Proof.
  intros Hw. unfold answered_with, rw_WriteHeader. cbn [rw_Set rw_wroteHeader].
  rewrite Hw. cbn. repeat split. unfold Header_Set. by rewrite lookup_insert_eq.
Qed.

Lemma answered_Write w body ct :
  rw_wroteHeader w = false →
  answered_with (rw_Write (rw_Set w "Content-Type" ct) body).1 StatusOK ct.
Proof.
  intros Hw. unfold answered_with, rw_Write, rw_WriteHeader.
  cbn [rw_Set rw_wroteHeader rw_broken]. rewrite Hw.
  cbn [rw_status rw_broken].
  (case_decide;
     [|destruct (bodyAllowedForStatus _); [destruct (rw_broken w)|]]);
    cbn; repeat split; unfold Header_Set; by rewrite lookup_insert_eq.
Qed.

Section Answers.
Context (env : Env).
Hypothesis Hext : helpers_extend env.

Lemma invalidPUT_after_status s err :
  extends
    (rw_WriteHeader
       (rw_Set (st_w s) "Content-Type" "application/json; charset=UTF-8")
       StatusUnprocessableEntity)
    (st_w (invalidPUT env s err)).
Proof.
  unfold invalidPUT.
  destruct (Encode env _ _) as [s' [e|]] eqn:HE; apply Encode_extends in HE;
    cbn [st_w on_w Log emit] in HE |- *; [|done].
  eapply extends_trans; [exact HE|]. apply Hext.
Qed.

Lemma invalidPUT_answered s err :
  rw_wroteHeader (st_w s) = false →
  answered_with (st_w (invalidPUT env s err)) StatusUnprocessableEntity
    "application/json; charset=UTF-8".
Proof.
  intros Hw. eapply answered_with_extends; [|apply invalidPUT_after_status].
  by apply answered_first.
Qed.

(** *** [client.Do] failed *)

Lemma jsonPUT_transport_failure r s url token data content e :
  url_Parse env url = None →
  json_Marshal env data = inl content →
  client_Do env (noRedirectClient env)
    (jsonPUT_request env r url token content) = inr e →
  rw_wroteHeader (st_w s) = false →
  answered_with (st_w (jsonPUT env r s url token data))
    StatusUnprocessableEntity "application/json; charset=UTF-8".
Proof.
  intros Hparse Hmar Hdo Hw. unfold jsonPUT.
  rewrite Hmar. built Hparse. rewrite Hdo.
  cbn [st_w Log emit]. by apply invalidPUT_answered.
Qed.

Lemma xmlPUT_transport_failure r s url token data content e :
  url_Parse env url = None →
  xml_Marshal env data = inl content →
  client_Do env (noRedirectClient env)
    (xmlPUT_request env r url token content) = inr e →
  rw_wroteHeader (st_w s) = false →
  answered_with (st_w (xmlPUT env r s url token data))
    StatusUnprocessableEntity "application/json; charset=UTF-8".
Proof.
  intros Hparse Hmar Hdo Hw. unfold xmlPUT.
  rewrite Hmar. built Hparse. rewrite Hdo.
  cbn [st_w Log emit]. by apply invalidPUT_answered.
Qed.

Lemma rawPUT_transport_failure r s url token content e :
  url_Parse env url = None →
  ReadAll_Limit (req_Body r) (MaxFileUploadSize env) = (content, None) →
  body_closeErr (req_Body r) = None →
  client_Do env (defaultClient env) (rawPUT_request r url token content)
  = inr e →
  rw_wroteHeader (st_w s) = false →
  answered_with (st_w (rawPUT env r s url token))
    StatusUnprocessableEntity "application/json; charset=UTF-8".
Proof.
  intros Hparse Hread Hclose Hdo Hw. unfold rawPUT.
  rewrite Hread, Hclose. built Hparse. rewrite Hdo.
  cbn [st_w Log emit]. by apply invalidPUT_answered.
Qed.

(** *** The backend answered a failure *)

Lemma jsonPUT_failure_status r s url token data content resp :
  url_Parse env url = None →
  json_Marshal env data = inl content →
  client_Do env (noRedirectClient env)
    (jsonPUT_request env r url token content) = inl resp →
  resp_StatusCode resp ≠ StatusFound →
  resp_StatusCode resp ≠ StatusOK →
  rw_wroteHeader (st_w s) = false →
  answered_with (st_w (jsonPUT env r s url token data))
    (resp_StatusCode resp) "application/json; charset=UTF-8".
Proof.
  intros Hparse Hmar Hdo H302 H200 Hw. unfold jsonPUT.
  rewrite Hmar. built Hparse. rewrite Hdo.
  rewrite decide_False, decide_True by done. unfold ReadAll.
  eapply answered_with_extends; [|apply unsuccessfulPUT_extends, Hext].
  cbn [st_w on_w Log emit]. by apply answered_first.
Qed.

Lemma xmlPUT_failure_status r s url token data content resp :
  url_Parse env url = None →
  xml_Marshal env data = inl content →
  client_Do env (noRedirectClient env)
    (xmlPUT_request env r url token content) = inl resp →
  resp_StatusCode resp ≠ StatusFound →
  resp_StatusCode resp ≠ StatusOK →
  rw_wroteHeader (st_w s) = false →
  answered_with (st_w (xmlPUT env r s url token data))
    (resp_StatusCode resp) (XMLHeader env).
Proof.
  intros Hparse Hmar Hdo H302 H200 Hw. unfold xmlPUT.
  rewrite Hmar. built Hparse. rewrite Hdo.
  rewrite decide_False, decide_True by done. unfold ReadAll.
  eapply answered_with_extends; [|apply unsuccessfulPUT_extends, Hext].
  cbn [st_w on_w Log emit]. by apply answered_first.
Qed.

Lemma rawPUT_failure_status r s url token content resp :
  url_Parse env url = None →
  ReadAll_Limit (req_Body r) (MaxFileUploadSize env) = (content, None) →
  body_closeErr (req_Body r) = None →
  client_Do env (defaultClient env) (rawPUT_request r url token content)
  = inl resp →
  resp_StatusCode resp ≠ StatusOK →
  rw_wroteHeader (st_w s) = false →
  answered_with (st_w (rawPUT env r s url token))
    (resp_StatusCode resp) "application/json; charset=UTF-8".
Proof.
  intros Hparse Hread Hclose Hdo H200 Hw. unfold rawPUT.
  rewrite Hread, Hclose. built Hparse. rewrite Hdo.
  rewrite decide_True by done. cbn zeta.
  match goal with
  | |- context [emit EvReadResp ?s0] =>
      assert (answered_with (st_w s0) (resp_StatusCode resp)
                "application/json; charset=UTF-8") as Hs0
        by (cbn [st_w on_w Log emit]; by apply answered_first);
      set (sx := s0) in *; clearbody sx
  end.
  eapply answered_with_extends; [exact Hs0|].
  destruct (ReadAll _) as [contents [e|]].
  { cbn [st_w on_w Log emit].
    destruct (invalidPUT_extends env Hext (emit EvReadResp sx) (Some e))
      as [H _]. exact H. }
  match goal with
  | |- context [rw_Write ?w ?c] =>
      pose proof (extends_Write w c) as HW;
      destruct (rw_Write w c) as [w' [e|]]
  end; cbn [st_w on_w Log emit fst] in *.
  - destruct (invalidPUT_from env Hext (st_w sx)
                {| st_w := w';
                   st_trace := st_trace (emit EvReadResp sx) |} (Some e))
      as [H _]; [|exact H].
    cbn [st_w]. repeat ext_step.
  - repeat ext_step.
Qed.

(** *** The backend answered 200 *)

Lemma jsonPUT_success r s url token data content resp v out :
  url_Parse env url = None →
  json_Marshal env data = inl content →
  client_Do env (noRedirectClient env)
    (jsonPUT_request env r url token content) = inl resp →
  resp_StatusCode resp = StatusOK →
  json_Unmarshal env (body_data (resp_Body resp)) = (v, None) →
  json_Marshal env v = inl out →
  rw_wroteHeader (st_w s) = false →
  answered_with (st_w (jsonPUT env r s url token data)) StatusOK (JSONHeader env)
  ∧ (rw_broken (st_w s) = None →
     rw_body (st_w (jsonPUT env r s url token data))
     = rw_body (st_w s) ++ out ++ [newline]).
Proof.
  intros Hparse Hmar Hdo Hst Hdec Henc Hw. unfold jsonPUT.
  rewrite Hmar. built Hparse. rewrite Hdo.
  rewrite decide_False by (rewrite Hst; done).
  rewrite decide_False by (intros H; by apply H).
  cbn [fst ReadAll]. rewrite Hdec. split.
  - unfold Encode. rewrite Henc. cbn [st_w on_w emit Log].
    pose proof (answered_Write (st_w s) (out ++ [newline]) (JSONHeader env) Hw)
      as Hans.
    destruct (rw_Write _ _) as [w' [e|]]; cbn [fst st_w emit Log] in *; [|done].
    eapply answered_with_extends; [exact Hans|].
    by destruct (invalidPUT_extends env Hext
                   {| st_w := w';
                      st_trace := st_trace (emit EvReadResp
                        (emit (EvLogResp DEBUG (resp_of (inl resp)))
                           (emit (EvDo (noRedirectClient env)
                                    (jsonPUT_request env r url token content))
                              s))) |} (Some e)).
  - intros Hok.
    match goal with
    | |- context [Encode env ?s0 v] =>
        destruct (Encode_ok env s0 v out Henc Hok) as (w' & -> & Hbody & _);
          [by apply allowed_first|]
    end.
    done.
Qed.

Lemma xmlPUT_success r s url token data content resp v out :
  url_Parse env url = None →
  xml_Marshal env data = inl content →
  client_Do env (noRedirectClient env)
    (xmlPUT_request env r url token content) = inl resp →
  resp_StatusCode resp = StatusOK →
  xml_Unmarshal env (body_data (resp_Body resp)) = (v, None) →
  json_Marshal env v = inl out →
  rw_wroteHeader (st_w s) = false →
  answered_with (st_w (xmlPUT env r s url token data)) StatusOK (JSONHeader env)
  ∧ (rw_broken (st_w s) = None →
     rw_body (st_w (xmlPUT env r s url token data))
     = rw_body (st_w s) ++ out ++ [newline]).
Proof.
  intros Hparse Hmar Hdo Hst Hdec Henc Hw. unfold xmlPUT.
  rewrite Hmar. built Hparse. rewrite Hdo.
  rewrite decide_False by (rewrite Hst; done).
  rewrite decide_False by (intros H; by apply H).
  cbn [fst ReadAll]. rewrite Hdec. split.
  - unfold Encode. rewrite Henc. cbn [st_w on_w emit Log].
    pose proof (answered_Write (st_w s) (out ++ [newline]) (JSONHeader env) Hw)
      as Hans.
    destruct (rw_Write _ _) as [w' [e|]]; cbn [fst st_w emit Log on_w] in *.
    + eapply answered_with_extends; [exact Hans|].
      by destruct (invalidPUT_extends env Hext
                     {| st_w := w';
                        st_trace := st_trace (emit EvReadResp
                          (emit (EvLogResp DEBUG (resp_of (inl resp)))
                             (emit (EvDo (noRedirectClient env)
                                      (xmlPUT_request env r url token content))
                                s))) |} (Some e)).
    + eapply answered_with_extends; [exact Hans|apply extends_WriteHeader].
  - intros Hok.
    match goal with
    | |- context [Encode env ?s0 v] =>
        destruct (Encode_ok env s0 v out Henc Hok) as (w' & -> & Hbody & _);
          [by apply allowed_first|]
    end.
    cbn [st_w on_w emit]. by rewrite rw_WriteHeader_body.
Qed.


(** *** The backend answered 200 with a body the decoder refuses *)

Lemma jsonPUT_undecodable r s url token data content resp v e :
  url_Parse env url = None →
  json_Marshal env data = inl content →
  client_Do env (noRedirectClient env)
    (jsonPUT_request env r url token content) = inl resp →
  resp_StatusCode resp = StatusOK →
  json_Unmarshal env (body_data (resp_Body resp)) = (v, Some e) →
  rw_wroteHeader (st_w s) = false →
  answered_with (st_w (jsonPUT env r s url token data))
    StatusUnprocessableEntity "application/json; charset=UTF-8".
Proof.
  intros Hparse Hmar Hdo Hst Hdec Hw. unfold jsonPUT.
  rewrite Hmar. built Hparse. rewrite Hdo.
  rewrite decide_False by (rewrite Hst; done).
  rewrite decide_False by (intros H; by apply H).
  cbn [fst ReadAll]. rewrite Hdec. cbn [st_w emit Log].
  by apply invalidPUT_answered.
Qed.

Lemma xmlPUT_undecodable r s url token data content resp v e :
  url_Parse env url = None →
  xml_Marshal env data = inl content →
  client_Do env (noRedirectClient env)
    (xmlPUT_request env r url token content) = inl resp →
  resp_StatusCode resp = StatusOK →
  xml_Unmarshal env (body_data (resp_Body resp)) = (v, Some e) →
  rw_wroteHeader (st_w s) = false →
  answered_with (st_w (xmlPUT env r s url token data))
    StatusUnprocessableEntity "application/json; charset=UTF-8".
Proof.
  intros Hparse Hmar Hdo Hst Hdec Hw. unfold xmlPUT.
  rewrite Hmar. built Hparse. rewrite Hdo.
  rewrite decide_False by (rewrite Hst; done).
  rewrite decide_False by (intros H; by apply H).
  cbn [fst ReadAll]. rewrite Hdec. cbn [st_w emit Log].
  by apply invalidPUT_answered.
Qed.

End Answers.

(** ** From the pipelines to the call *)

Lemma forwarded_parses env r url token format req :
  forwarded env r url token format req → url_Parse env url = None.
Proof. by intros []. Qed.

Section Whole.
Context (env : Env).

(** A call that got as far as building its request runs the pipeline of its
    format on the writer preprocessing left. *)
Lemma PUT_forwarded_cases s url format token r w1 r1 req :
  requestPreprocessing env (st_w (allowOrigin r s)) r = (w1, r1, None) →
  body_closeErr (req_Body r1) = None →
  forwarded env r1 url token format req →
  ∃ s1, st_w s1 = w1 ∧
    ((format = "RAW" ∧ client_of env format = defaultClient env
      ∧ ∃ content,
          ReadAll_Limit (req_Body r1) (MaxFileUploadSize env) = (content, None)
          ∧ req = rawPUT_request r1 url token content
          ∧ PUT env s url format token r = rawPUT env r1 s1 url token)
     ∨ (format = "JSON" ∧ client_of env format = noRedirectClient env
        ∧ ∃ data content,
            json_Marshal env data = inl content
            ∧ req = jsonPUT_request env r1 url token content
            ∧ PUT env s url format token r = jsonPUT env r1 s1 url token data)
     ∨ (format = "XML" ∧ client_of env format = noRedirectClient env
        ∧ ∃ data content,
            xml_Marshal env data = inl content
            ∧ req = xmlPUT_request env r1 url token content
            ∧ PUT env s url format token r = xmlPUT env r1 s1 url token data)).
Proof.
  intros Hpre Hclose [content Hread Hparse
                     | content data out Hread Hdec Hmar Hparse
                     | content data out Hread Hdec Hmar Hparse].
  - exists {| st_w := w1; st_trace := st_trace s |}. split; [done|]. left.
    split; [done|]. split; [done|]. exists content.
    split; [done|]. split; [done|]. by apply PUT_RAW.
  - eexists. split; [|right; left; split; [done|]; split; [done|];
                      exists data, out; split; [done|]; split; [done|]].
    2: { rewrite (PUT_structured env s url "JSON" token r w1 r1 content data)
           by auto. by rewrite decide_False. }
    done.
  - eexists. split; [|right; right; split; [done|]; split; [done|];
                      exists data, out; split; [done|]; split; [done|]].
    2: { rewrite (PUT_structured env s url "XML" token r w1 r1 content data)
           by auto. by rewrite decide_True. }
    done.
Qed.

Lemma PUT_steps_forwarded s url format token r w1 r1 req :
  requestPreprocessing env (st_w (allowOrigin r s)) r = (w1, r1, None) →
  body_closeErr (req_Body r1) = None →
  forwarded env r1 url token format req →
  PUT_steps env s url format token r
  = EvReadBody (ceiling_of env format) :: EvCloseBody
      :: call_steps env (client_of env format) req
           (bool_decide (format ≠ "RAW")).
Proof.
  intros Hpre Hclose Hfwd. unfold PUT_steps, ceiling_of, client_of.
  rewrite Hpre.
  destruct Hfwd as [content Hread Hparse
                   | content data out Hread Hdec Hmar Hparse
                   | content data out Hread Hdec Hmar Hparse].
  - rewrite !decide_True by done. unfold rawPUT_steps, built_steps.
    rewrite Hread, Hclose, Hparse.
    by rewrite bool_decide_false by (intros H; by apply H).
  - rewrite !decide_False by done.
    rewrite decide_False by (intros [? ?]; done).
    rewrite Hread, Hclose, Hdec. rewrite decide_False by done.
    unfold jsonPUT_steps, built_steps. rewrite Hmar, Hparse.
    by rewrite bool_decide_true.
  - rewrite !decide_False by done.
    rewrite decide_False by (intros [? ?]; done).
    rewrite Hread, Hclose, Hdec. rewrite decide_True by done.
    unfold xmlPUT_steps, built_steps. rewrite Hmar, Hparse.
    by rewrite bool_decide_true.
Qed.

(** Where the call ends when the inbound body cannot be read or closed. *)
Lemma PUT_body_failure s url format token r w1 r1 content e :
  format = "JSON" ∨ format = "XML" ∨ format = "RAW" →
  requestPreprocessing env (st_w (allowOrigin r s)) r = (w1, r1, None) →
  (ReadAll_Limit (req_Body r1) (ceiling_of env format) = (content, Some e)
   ∨ (ReadAll_Limit (req_Body r1) (ceiling_of env format) = (content, None)
      ∧ body_closeErr (req_Body r1) = Some e)) →
  ∃ s1 msg, st_w s1 = w1
    ∧ PUT env s url format token r = Log ERR msg (invalidPUT env s1 (Some e)).
Proof.
  intros Hfmt Hpre Hfail. unfold PUT. rewrite Hpre. unfold ceiling_of in Hfail.
  destruct (decide (format = "RAW")) as [->|HRAW].
  - unfold rawPUT. destruct Hfail as [->|[-> ->]]; eexists _, _;
      (split; [|reflexivity]); reflexivity.
  - rewrite decide_False by (intros [? ?]; destruct Hfmt as [?|[?|?]]; done).
    destruct Hfail as [->|[-> ->]]; eexists _, _;
      (split; [|reflexivity]); reflexivity.
Qed.

Lemma PUT_steps_body_failure s url format token r w1 r1 content e :
  format = "JSON" ∨ format = "XML" ∨ format = "RAW" →
  requestPreprocessing env (st_w (allowOrigin r s)) r = (w1, r1, None) →
  (ReadAll_Limit (req_Body r1) (ceiling_of env format) = (content, Some e) →
   PUT_steps env s url format token r = [EvReadBody (ceiling_of env format)])
  ∧ (ReadAll_Limit (req_Body r1) (ceiling_of env format) = (content, None) →
     body_closeErr (req_Body r1) = Some e →
     PUT_steps env s url format token r
     = [EvReadBody (ceiling_of env format); EvCloseBody]).
Proof.
  intros Hfmt Hpre. unfold PUT_steps, ceiling_of. rewrite Hpre.
  destruct (decide (format = "RAW")) as [->|HRAW].
  - unfold rawPUT_steps. split; [by intros ->|by intros -> ->].
  - rewrite decide_False by (intros [? ?]; destruct Hfmt as [?|[?|?]]; done).
    split; [by intros ->|by intros -> ->].
Qed.

End Whole.

Lemma unlogged_counts s s' steps :
  unlogged s' = unlogged s ++ steps →
  backendCalls s' = backendCalls s ++ omap call_of steps
  ∧ bodyCloses s' = (bodyCloses s + length (omap inbound_close_of steps))%nat
  ∧ responseReads s'
    = (responseReads s + length (omap response_read_of steps))%nat
  ∧ responseCloses s' = (responseCloses s + length (omap close_of steps))%nat.
Proof.
  intros H.
  rewrite !backendCalls_unlogged, !bodyCloses_unlogged,
    !responseReads_unlogged, !responseCloses_unlogged, H.
  by rewrite !omap_app, !length_app.
Qed.

(** X7.  When the inbound body cannot be read, the call answers 422 with a
    JSON Content-Type and stops: the body is not closed and the backend is
    not called. *)
Theorem PUT_inbound_read_failure (env : Env) s url format token r w1 r1
    content e :
  format = "JSON" ∨ format = "XML" ∨ format = "RAW" →
  requestPreprocessing env (st_w (allowOrigin r s)) r = (w1, r1, None) →
  ReadAll_Limit (req_Body r1) (ceiling_of env format) = (content, Some e) →
  rw_wroteHeader w1 = false →
  helpers_extend env →
  let s' := PUT env s url format token r in
  answered_with (st_w s') StatusUnprocessableEntity
    "application/json; charset=UTF-8"
  ∧ unlogged s' = unlogged s ++ [EvReadBody (ceiling_of env format)]
  ∧ bodyCloses s' = bodyCloses s
  ∧ backendCalls s' = backendCalls s.
Proof.
  intros Hfmt Hpre Hread Hw Hext s'.
  assert (unlogged s' = unlogged s ++ [EvReadBody (ceiling_of env format)])
    as Hsteps.
  { subst s'. rewrite PUT_unlogged.
    by rewrite (proj1 (PUT_steps_body_failure env s url format token r w1 r1
                         content e Hfmt Hpre) Hread). }
  destruct (unlogged_counts s s' _ Hsteps) as (Hcalls & Hcloses & _).
  split; [|split; [done|split]].
  - destruct (PUT_body_failure env s url format token r w1 r1 content e
                Hfmt Hpre (or_introl Hread)) as (s1 & msg & Hs1 & Heq).
    subst s'. rewrite Heq. cbn [st_w Log emit].
    apply invalidPUT_answered; [done|]. by rewrite Hs1.
  - rewrite Hcloses. simpl. lia.
  - rewrite Hcalls. simpl. by rewrite app_nil_r.
Qed.

(** X8.  When the inbound body was read but its [Close] fails, the call
    answers 422 in the same way and the backend is not called. *)
Theorem PUT_inbound_close_failure (env : Env) s url format token r w1 r1
    content e :
  format = "JSON" ∨ format = "XML" ∨ format = "RAW" →
  requestPreprocessing env (st_w (allowOrigin r s)) r = (w1, r1, None) →
  ReadAll_Limit (req_Body r1) (ceiling_of env format) = (content, None) →
  body_closeErr (req_Body r1) = Some e →
  rw_wroteHeader w1 = false →
  helpers_extend env →
  let s' := PUT env s url format token r in
  answered_with (st_w s') StatusUnprocessableEntity
    "application/json; charset=UTF-8"
  ∧ unlogged s'
    = unlogged s ++ [EvReadBody (ceiling_of env format); EvCloseBody]
  ∧ backendCalls s' = backendCalls s.
Proof.
  intros Hfmt Hpre Hread Hclose Hw Hext s'.
  assert (unlogged s'
          = unlogged s ++ [EvReadBody (ceiling_of env format); EvCloseBody])
    as Hsteps.
  { subst s'. rewrite PUT_unlogged.
    by rewrite (proj2 (PUT_steps_body_failure env s url format token r w1 r1
                         content e Hfmt Hpre) Hread Hclose). }
  destruct (unlogged_counts s s' _ Hsteps) as (Hcalls & _).
  split; [|split; [done|]].
  - destruct (PUT_body_failure env s url format token r w1 r1 content e
                Hfmt Hpre (or_intror (conj Hread Hclose)))
      as (s1 & msg & Hs1 & Heq).
    subst s'. rewrite Heq. cbn [st_w Log emit].
    apply invalidPUT_answered; [done|]. by rewrite Hs1.
  - rewrite Hcalls. simpl. by rewrite app_nil_r.
Qed.

(** X9.  When the call to the backend fails (no response), the client is
    answered 422 with a JSON Content-Type; the call was made once and there
    is no response to read or close. *)
Theorem PUT_transport_failure (env : Env) s url format token r w1 r1 req e :
  requestPreprocessing env (st_w (allowOrigin r s)) r = (w1, r1, None) →
  body_closeErr (req_Body r1) = None →
  forwarded env r1 url token format req →
  client_Do env (client_of env format) req = inr e →
  rw_wroteHeader w1 = false →
  helpers_extend env →
  let s' := PUT env s url format token r in
  answered_with (st_w s') StatusUnprocessableEntity
    "application/json; charset=UTF-8"
  ∧ unlogged s'
    = unlogged s ++ [EvReadBody (ceiling_of env format); EvCloseBody;
                     EvDo (client_of env format) req; EvLogResp DEBUG None]
  ∧ responseReads s' = responseReads s
  ∧ responseCloses s' = responseCloses s.
Proof.
  intros Hpre Hclose Hfwd Hdo Hw Hext s'.
  assert (unlogged s'
          = unlogged s ++ [EvReadBody (ceiling_of env format); EvCloseBody;
                           EvDo (client_of env format) req;
                           EvLogResp DEBUG None]) as Hsteps.
  { subst s'. rewrite PUT_unlogged.
    rewrite (PUT_steps_forwarded env s url format token r w1 r1 req) by done.
    unfold call_steps. by rewrite Hdo. }
  destruct (unlogged_counts s s' _ Hsteps) as (_ & _ & Hreads & Hcloses).
  split; [|split; [done|split]].
  - pose proof (forwarded_parses _ _ _ _ _ _ Hfwd) as Hparse.
    destruct (PUT_forwarded_cases env s url format token r w1 r1 req
                Hpre Hclose Hfwd)
      as (s1 & Hs1
          & [(-> & Hc & content & Hread & -> & Heq)
            | [(-> & Hc & data & content & Hmar & -> & Heq)
              | (-> & Hc & data & content & Hmar & -> & Heq)]]);
      subst s'; rewrite Heq; rewrite Hc in Hdo; subst w1.
    + by apply (rawPUT_transport_failure env Hext r1 s1 url token content e).
    + by apply (jsonPUT_transport_failure env Hext r1 s1 url token data
                  content e).
    + by apply (xmlPUT_transport_failure env Hext r1 s1 url token data
                  content e).
  - rewrite Hreads. simpl. lia.
  - rewrite Hcloses. simpl. lia.
Qed.

(** X10.  A backend failure is passed on by its status: under JSON and XML
    for every status other than 200 and 302, under RAW for every status
    other than 200, the client gets the backend's status, whatever happens
    to the body afterwards.  The Content-Type sent is the JSON one under
    JSON and under RAW and the XML one under XML. *)
Theorem PUT_backend_failure_status (env : Env) s url format token r w1 r1
    req resp :
  requestPreprocessing env (st_w (allowOrigin r s)) r = (w1, r1, None) →
  body_closeErr (req_Body r1) = None →
  forwarded env r1 url token format req →
  client_Do env (client_of env format) req = inl resp →
  resp_StatusCode resp ≠ StatusOK →
  (format ≠ "RAW" → resp_StatusCode resp ≠ StatusFound) →
  rw_wroteHeader w1 = false →
  helpers_extend env →
  answered_with (st_w (PUT env s url format token r)) (resp_StatusCode resp)
    (if decide (format = "XML") then XMLHeader env
     else "application/json; charset=UTF-8").
Proof.
  intros Hpre Hclose Hfwd Hdo H200 H302 Hw Hext.
  pose proof (forwarded_parses _ _ _ _ _ _ Hfwd) as Hparse.
  destruct (PUT_forwarded_cases env s url format token r w1 r1 req
              Hpre Hclose Hfwd)
    as (s1 & Hs1
        & [(-> & Hc & content & Hread & -> & Heq)
          | [(-> & Hc & data & content & Hmar & -> & Heq)
            | (-> & Hc & data & content & Hmar & -> & Heq)]]);
    rewrite Heq; rewrite Hc in Hdo; subst w1.
  - rewrite decide_False by done.
    by apply (rawPUT_failure_status env Hext r1 s1 url token content resp).
  - rewrite decide_False by done.
    apply (jsonPUT_failure_status env Hext r1 s1 url token data content resp);
      auto.
  - rewrite decide_True by done.
    apply (xmlPUT_failure_status env Hext r1 s1 url token data content resp);
      auto.
Qed.

(** X11.  A 200 from the backend under JSON or XML: the backend's body is
    decoded with the decoder of the format and what the client gets is
    status 200, the JSON Content-Type and the JSON encoding of the decoded
    value followed by a newline; the backend's body is read once and closed
    once. *)
Theorem PUT_structured_success (env : Env) s url format token r w1 r1 req
    resp decode v out :
  requestPreprocessing env (st_w (allowOrigin r s)) r = (w1, r1, None) →
  body_closeErr (req_Body r1) = None →
  forwarded env r1 url token format req →
  format_decoder env format = Some decode →
  client_Do env (client_of env format) req = inl resp →
  resp_StatusCode resp = StatusOK →
  decode (body_data (resp_Body resp)) = (v, None) →
  json_Marshal env v = inl out →
  rw_wroteHeader w1 = false →
  helpers_extend env →
  let s' := PUT env s url format token r in
  answered_with (st_w s') StatusOK (JSONHeader env)
  ∧ (rw_broken w1 = None → rw_body (st_w s') = rw_body w1 ++ out ++ [newline])
  ∧ responseReads s' = S (responseReads s)
  ∧ responseCloses s' = S (responseCloses s).
Proof.
  intros Hpre Hclose Hfwd Hdecoder Hdo Hst Hdec Henc Hw Hext s'.
  assert (format ≠ "RAW") as HRAW.
  { intros ->. unfold format_decoder in Hdecoder.
    by rewrite !decide_False in Hdecoder. }
  assert (unlogged s'
          = unlogged s ++ [EvReadBody (ceiling_of env format); EvCloseBody;
                           EvDo (client_of env format) req;
                           EvLogResp DEBUG (Some resp);
                           EvReadResp; EvCloseResp]) as Hsteps.
  { subst s'. rewrite PUT_unlogged.
    rewrite (PUT_steps_forwarded env s url format token r w1 r1 req) by done.
    unfold call_steps, response_steps. rewrite Hdo.
    rewrite bool_decide_true by done.
    rewrite decide_False by (rewrite Hst; done).
    by rewrite decide_False by (intros H; by apply H). }
  destruct (unlogged_counts s s' _ Hsteps) as (_ & _ & Hreads & Hcloses).
  assert (answered_with (st_w s') StatusOK (JSONHeader env)
          ∧ (rw_broken w1 = None →
             rw_body (st_w s') = rw_body w1 ++ out ++ [newline])) as [Ha Hb].
  { pose proof (forwarded_parses _ _ _ _ _ _ Hfwd) as Hparse.
    destruct (PUT_forwarded_cases env s url format token r w1 r1 req
                Hpre Hclose Hfwd)
      as (s1 & Hs1
          & [(-> & _)
            | [(-> & Hc & data & content & Hmar & -> & Heq)
              | (-> & Hc & data & content & Hmar & -> & Heq)]]);
      [done| |]; subst s'; rewrite Heq; rewrite Hc in Hdo; subst w1;
      unfold format_decoder in Hdecoder.
    - rewrite decide_True in Hdecoder by done. injection Hdecoder as <-.
      by apply (jsonPUT_success env Hext r1 s1 url token data content resp v).
    - rewrite decide_False, decide_True in Hdecoder by done.
      injection Hdecoder as <-.
      by apply (xmlPUT_success env Hext r1 s1 url token data content resp v). }
  split; [done|]. split; [done|]. split.
  - rewrite Hreads. simpl. lia.
  - rewrite Hcloses. simpl. lia.
Qed.


(** X13.  A 200 from the backend whose body the decoder of the format
    refuses is a local failure: the client is answered 422 with a JSON
    Content-Type, and the backend's body, which was read, is closed. *)
Theorem PUT_success_undecodable (env : Env) s url format token r w1 r1 req
    resp decode v e :
  requestPreprocessing env (st_w (allowOrigin r s)) r = (w1, r1, None) →
  body_closeErr (req_Body r1) = None →
  forwarded env r1 url token format req →
  format_decoder env format = Some decode →
  client_Do env (client_of env format) req = inl resp →
  resp_StatusCode resp = StatusOK →
  decode (body_data (resp_Body resp)) = (v, Some e) →
  rw_wroteHeader w1 = false →
  helpers_extend env →
  let s' := PUT env s url format token r in
  answered_with (st_w s') StatusUnprocessableEntity
    "application/json; charset=UTF-8"
  ∧ responseReads s' = S (responseReads s)
  ∧ responseCloses s' = S (responseCloses s).
Proof.
  intros Hpre Hclose Hfwd Hdecoder Hdo Hst Hdec Hw Hext s'.
  assert (format ≠ "RAW") as HRAW.
  { intros ->. unfold format_decoder in Hdecoder.
    by rewrite !decide_False in Hdecoder. }
  assert (unlogged s'
          = unlogged s ++ [EvReadBody (ceiling_of env format); EvCloseBody;
                           EvDo (client_of env format) req;
                           EvLogResp DEBUG (Some resp);
                           EvReadResp; EvCloseResp]) as Hsteps.
  { subst s'. rewrite PUT_unlogged.
    rewrite (PUT_steps_forwarded env s url format token r w1 r1 req) by done.
    unfold call_steps, response_steps. rewrite Hdo.
    rewrite bool_decide_true by done.
    rewrite decide_False by (rewrite Hst; done).
    by rewrite decide_False by (intros H; by apply H). }
  destruct (unlogged_counts s s' _ Hsteps) as (_ & _ & Hreads & Hcloses).
  split; [|split].
  - pose proof (forwarded_parses _ _ _ _ _ _ Hfwd) as Hparse.
    destruct (PUT_forwarded_cases env s url format token r w1 r1 req
                Hpre Hclose Hfwd)
      as (s1 & Hs1
          & [(-> & _)
            | [(-> & Hc & data & content & Hmar & -> & Heq)
              | (-> & Hc & data & content & Hmar & -> & Heq)]]);
      [done| |]; subst s'; rewrite Heq; rewrite Hc in Hdo; subst w1;
      unfold format_decoder in Hdecoder.
    + rewrite decide_True in Hdecoder by done. injection Hdecoder as <-.
      by apply (jsonPUT_undecodable env Hext r1 s1 url token data content
                  resp v e).
    + rewrite decide_False, decide_True in Hdecoder by done.
      injection Hdecoder as <-.
      by apply (xmlPUT_undecodable env Hext r1 s1 url token data content
                  resp v e).
  - rewrite Hreads. simpl. lia.
  - rewrite Hcloses. simpl. lia.
Qed.

(** X14.  [invalidPUT] on a writer whose status line is not out answers 422
    with Content-Type [application/json; charset=UTF-8], whether or not its
    body could be encoded and written; the other headers go out as the
    header map had them, and all it adds to the trace is error lines. *)
Theorem invalidPUT_answers_422 (env : Env) s err :
  rw_wroteHeader (st_w s) = false →
  helpers_extend env →
  let s' := invalidPUT env s err in
  answered_with (st_w s') StatusUnprocessableEntity
    "application/json; charset=UTF-8"
  ∧ (∀ k, k ≠ "Content-Type" → rw_sent (st_w s') !! k = rw_header (st_w s) !! k)
  ∧ ∃ l, st_trace s' = st_trace s ++ l ∧ Forall is_ERR l.
Proof.
  intros Hw Hext s'. split; [by apply invalidPUT_answered|]. split.
  - intros k Hk.
    destruct (invalidPUT_after_status env Hext s err) as (_ & Hs & _).
    destruct Hs as (_ & _ & Hsent); [apply rw_WriteHeader_wrote|].
    subst s'. rewrite Hsent. unfold rw_WriteHeader. cbn [rw_Set rw_wroteHeader].
    rewrite Hw. cbn. unfold Header_Set. by rewrite lookup_insert_ne.
  - apply invalidPUT_trace.
Qed.

(** ** A url that does not parse *)

(** X18.  The error of [http.NewRequest] is dropped by all three pipelines.
    When the url does not parse, a call that has come as far as having its
    body to send (preprocessing passed, the inbound body read and closed
    and, under JSON and XML, decoded and encoded) dereferences the nil
    request and panics: the writer is left as preprocessing handed it over
    (no status line is sent by the handler), no line is handed to
    [logger.Log], and the backend is not called. *)
Theorem PUT_panics (env : Env) s url format token r w1 r1 out e :
  requestPreprocessing env (st_w (allowOrigin r s)) r = (w1, r1, None) →
  body_closeErr (req_Body r1) = None →
  payload env r1 format out →
  url_Parse env url = Some e →
  PUT env s url format token r
  = emit EvPanic
      (emit EvCloseBody
         (emit (EvReadBody (ceiling_of env format))
            {| st_w := w1; st_trace := st_trace s |})).
Proof.
  intros Hpre Hclose Hpay Hparse. unfold ceiling_of.
  destruct Hpay as [content Hread | content data out Hread Hdec Hmar
                   | content data out Hread Hdec Hmar].
  - rewrite (PUT_RAW env s url token r w1 r1 Hpre), decide_True by done.
    unfold rawPUT. rewrite Hread, Hclose.
    by rewrite (NewRequest_nil _ _ _ _ _ Hparse).
  - rewrite (PUT_structured env s url "JSON" token r w1 r1 content data)
      by auto.
    rewrite !decide_False by done. unfold jsonPUT. rewrite Hmar.
    by rewrite (NewRequest_nil _ _ _ _ _ Hparse).
  - rewrite (PUT_structured env s url "XML" token r w1 r1 content data)
      by auto.
    rewrite decide_True, decide_False by done. unfold xmlPUT. rewrite Hmar.
    by rewrite (NewRequest_nil _ _ _ _ _ Hparse).
Qed.

(** ** What is logged *)

Lemma logCount_on_w f s : logCount (on_w f s) = logCount s.
Proof. done. Qed.

Lemma logCount_mk w s :
  logCount {| st_w := w; st_trace := st_trace s |} = logCount s.
Proof. done. Qed.

Lemma logCount_Log lvl msg s : logCount (Log lvl msg s) = S (logCount s).
Proof.
  unfold logCount, logLines, Log, emit; cbn [st_trace].
  rewrite omap_app, length_app. simpl. lia.
Qed.

Lemma logCount_emit e s :
  (∀ lvl msg, e ≠ EvLog lvl msg) → logCount (emit e s) = logCount s.
Proof.
  intros He. unfold logCount, logLines, emit; cbn [st_trace].
  rewrite omap_app, length_app.
  destruct e; simpl; try lia. by destruct (He lvl msg).
Qed.

Lemma logCount_allowOrigin r s : logCount (allowOrigin r s) = logCount s.
Proof. unfold logCount, logLines. by rewrite allowOrigin_trace. Qed.

Lemma logCount_extends s s' l :
  st_trace s' = st_trace s ++ l → (logCount s ≤ logCount s')%nat.
Proof.
  unfold logCount, logLines. intros ->. rewrite omap_app, length_app. lia.
Qed.

Section Logs.
Context (env : Env).

Lemma logCount_invalidPUT s err :
  (logCount s ≤ logCount (invalidPUT env s err))%nat.
Proof.
  destruct (invalidPUT_trace env s err) as (l & Hl & _).
  by eapply logCount_extends.
Qed.

Lemma logCount_unsuccessfulPUT s format content err :
  (logCount s ≤ logCount (unsuccessfulPUT env s format content err))%nat.
Proof.
  destruct (unsuccessfulPUT_trace env s format content err) as (l & Hl & _).
  by eapply logCount_extends.
Qed.

Lemma logCount_Encode s v s' err :
  Encode env s v = (s', err) → logCount s' = logCount s.
Proof. intros HE%Encode_trace. unfold logCount, logLines. by rewrite HE. Qed.

End Logs.

Lemma logs_snoc t e :
  length (omap log_of (t ++ [e]))
  = (length (omap log_of t)
     + match e with EvLog _ _ => 1 | _ => 0 end)%nat.
Proof. rewrite omap_app, length_app. by destruct e. Qed.

Ltac noisy :=
  exfalso;
  repeat match goal with
  | H : context [invalidPUT ?env ?s ?e] |- _ =>
      let L := fresh "L" in
      let x := fresh "x" in
      pose proof (logCount_invalidPUT env s e) as L;
      set (x := invalidPUT env s e) in *; clearbody x
  | H : context [unsuccessfulPUT ?env ?s ?f ?c ?e] |- _ =>
      let L := fresh "L" in
      let x := fresh "x" in
      pose proof (logCount_unsuccessfulPUT env s f c e) as L;
      set (x := unsuccessfulPUT env s f c e) in *; clearbody x
  end;
  unfold logCount, logLines, Log, emit, on_w in *;
  cbn [st_trace st_w] in *;
  rewrite ?logs_snoc in *;
  cbv beta iota in *; lia.

Section Silent.
Context (env : Env).

(** A pipeline that logs no line, on a url that parses, got a 200 from the
    backend. *)
Lemma jsonPUT_silent r s url token data :
  url_Parse env url = None →
  (logCount (jsonPUT env r s url token data) ≤ logCount s)%nat →
  ∃ content resp,
    json_Marshal env data = inl content
    ∧ client_Do env (noRedirectClient env)
        (jsonPUT_request env r url token content) = inl resp
    ∧ resp_StatusCode resp = StatusOK.
Proof.
  intros Hparse. unfold jsonPUT.
  destruct (json_Marshal env data) as [content|e]; [|intros H; noisy].
  built Hparse.
  destruct (client_Do env _ _) as [resp|e] eqn:Hdo; [|intros H; noisy].
  case_decide as H302; [intros H; noisy|].
  case_decide as H200; [unfold ReadAll; intros H; noisy|].
  intros _. exists content, resp. split; [done|]. split; [done|].
  destruct (decide (resp_StatusCode resp = StatusOK)); [done|by destruct H200].
Qed.

Lemma xmlPUT_silent r s url token data :
  url_Parse env url = None →
  (logCount (xmlPUT env r s url token data) ≤ logCount s)%nat →
  ∃ content resp,
    xml_Marshal env data = inl content
    ∧ client_Do env (noRedirectClient env)
        (xmlPUT_request env r url token content) = inl resp
    ∧ resp_StatusCode resp = StatusOK.
Proof.
  intros Hparse. unfold xmlPUT.
  destruct (xml_Marshal env data) as [content|e]; [|intros H; noisy].
  built Hparse.
  destruct (client_Do env _ _) as [resp|e] eqn:Hdo; [|intros H; noisy].
  case_decide as H302; [intros H; noisy|].
  case_decide as H200; [unfold ReadAll; intros H; noisy|].
  intros _. exists content, resp. split; [done|]. split; [done|].
  destruct (decide (resp_StatusCode resp = StatusOK)); [done|by destruct H200].
Qed.

Lemma rawPUT_silent r s url token :
  url_Parse env url = None →
  (logCount (rawPUT env r s url token) ≤ logCount s)%nat →
  ∃ content resp,
    ReadAll_Limit (req_Body r) (MaxFileUploadSize env) = (content, None)
    ∧ body_closeErr (req_Body r) = None
    ∧ client_Do env (defaultClient env) (rawPUT_request r url token content)
      = inl resp
    ∧ resp_StatusCode resp = StatusOK.
Proof.
  intros Hparse. unfold rawPUT.
  destruct (ReadAll_Limit _ _) as [content [e|]]; [intros H; noisy|].
  destruct (body_closeErr _) as [e|]; [intros H; noisy|].
  built Hparse.
  destruct (client_Do env _ _) as [resp|e] eqn:Hdo; [|intros H; noisy].
  case_decide as H200.
  - cbn zeta. destruct (ReadAll _) as [contents [e|]]; [intros H; noisy|].
    destruct (rw_Write _ _) as [w [e|]]; intros H; noisy.
  - intros _. exists content, resp. repeat split; try done.
Qed.

End Silent.

(** X15.  What a call without a log line has done.  When preprocessing
    has passed and the url is one [http.NewRequest] accepts, a call during
    which the handler and its pipelines hand no line to [logger.Log] has
    read and closed the inbound body, sent the request of the format and
    got a 200 from the backend.  So every path that ends before a 200 logs
    a line: an unsupported format, a failed read or close of the inbound
    body, a body that does not decode or encode, a failed call, a redirect,
    any other status.  The converse does not hold, and not every failure
    after the 200 is logged: under JSON and XML the error of the read of
    the backend's body is overwritten by the decoder's (lines 185-187,
    258-260). *)
Theorem PUT_silent_got_200 (env : Env) (s : State)
    (url format token : string) (r : Request)
    (w1 : ResponseWriter) (r1 : Request) :
  requestPreprocessing env (st_w (allowOrigin r s)) r = (w1, r1, None) →
  url_Parse env url = None →
  logLines (PUT env s url format token r) = logLines s →
  ∃ req resp,
    body_closeErr (req_Body r1) = None
    ∧ forwarded env r1 url token format req
    ∧ client_Do env (client_of env format) req = inl resp
    ∧ resp_StatusCode resp = StatusOK.
Proof.
  intros Hpre Hparse Hlog.
  assert (H : (logCount (PUT env s url format token r) ≤ logCount s)%nat)
    by (unfold logCount; by rewrite Hlog).
  clear Hlog. revert H. unfold PUT, client_of. rewrite Hpre.
  set (s1 := {| st_w := w1; st_trace := st_trace (allowOrigin r s) |}).
  assert (H1 : logCount s1 = logCount s)
    by (unfold logCount, logLines, s1; cbn [st_trace];
        by rewrite allowOrigin_trace).
  case_decide as HRAW.
  { subst format. rewrite <- H1. intros H.
    destruct (rawPUT_silent _ _ _ _ _ Hparse H)
      as (content & resp & Hr & Hc & Hdo & H200).
    exists (rawPUT_request r1 url token content), resp.
    split; [done|]. split; [by constructor|]. done. }
  case_decide as Hfmt; [intros H; noisy|].
  destruct (ReadAll_Limit _ _) as [content [e|]] eqn:Hread; [intros H; noisy|].
  destruct (body_closeErr _) as [e|] eqn:Hclose; [intros H; noisy|].
  destruct (json_Unmarshal env content) as [data [e|]] eqn:Hdec;
    [intros H; noisy|].
  set (s2 := emit EvCloseBody (emit (EvReadBody (MaxRequestSize env)) s1)).
  assert (H2 : logCount s2 = logCount s).
  { rewrite <- H1. unfold s2, logCount, logLines, emit; cbn [st_trace].
    by rewrite !logs_snoc, !Nat.add_0_r. }
  case_decide as HXML.
  { subst format. rewrite <- H2. intros H.
    destruct (xmlPUT_silent _ _ _ _ _ _ Hparse H)
      as (out & resp & Hm & Hdo & H200).
    exists (xmlPUT_request env r1 url token out), resp.
    split; [done|]. split; [by econstructor|]. done. }
  case_decide as HJSON.
  { subst format. rewrite <- H2. intros H.
    destruct (jsonPUT_silent _ _ _ _ _ _ Hparse H)
      as (out & resp & Hm & Hdo & H200).
    exists (jsonPUT_request env r1 url token out), resp.
    split; [done|]. split; [by econstructor|]. done. }
  intros H; noisy.
Qed.

(** ** What lies behind the ceiling *)

Lemma copyHeaders_ext r r' req :
  req_Header r' = req_Header r → copyHeaders r' req = copyHeaders r req.
Proof.
  intros Hh. with_strategy transparent [copyHeaders] unfold copyHeaders.
  by rewrite Hh.
Qed.

Lemma rawPUT_request_ext r r' url token content :
  req_Header r' = req_Header r →
  rawPUT_request r' url token content = rawPUT_request r url token content.
Proof. intros Hh. unfold rawPUT_request, rawPUT_headers. by rewrite (copyHeaders_ext r r'). Qed.

Lemma jsonPUT_request_ext env r r' url token content :
  req_Header r' = req_Header r →
  jsonPUT_request env r' url token content
  = jsonPUT_request env r url token content.
Proof. intros Hh. unfold jsonPUT_request, jsonPUT_headers. by rewrite (copyHeaders_ext r r'). Qed.

Lemma xmlPUT_request_ext env r r' url token content :
  req_Header r' = req_Header r →
  xmlPUT_request env r' url token content
  = xmlPUT_request env r url token content.
Proof.
  intros Hh. unfold xmlPUT_request, xmlPUT_headers.
  by rewrite (copyHeaders_ext r r').
Qed.

Lemma jsonPUT_ext env r r' s url token data :
  req_Header r' = req_Header r →
  jsonPUT env r' s url token data = jsonPUT env r s url token data.
Proof.
  intros Hh. unfold jsonPUT. destruct (json_Marshal env data); [|done].
  destruct (NewRequest env "PUT" url _) as [req|e]; [|done].
  unfold jsonPUT_headers. by rewrite (copyHeaders_ext r r').
Qed.

Lemma xmlPUT_ext env r r' s url token data :
  req_Header r' = req_Header r →
  xmlPUT env r' s url token data = xmlPUT env r s url token data.
Proof.
  intros Hh. unfold xmlPUT. destruct (xml_Marshal env data); [|done].
  destruct (NewRequest env "PUT" url _) as [req|e]; [|done].
  unfold xmlPUT_headers. by rewrite (copyHeaders_ext r r').
Qed.

Lemma rawPUT_ext env r r' s url token :
  req_Header r' = req_Header r →
  ReadAll_Limit (req_Body r') (MaxFileUploadSize env)
  = ReadAll_Limit (req_Body r) (MaxFileUploadSize env) →
  body_closeErr (req_Body r') = body_closeErr (req_Body r) →
  rawPUT env r' s url token = rawPUT env r s url token.
Proof.
  intros Hh Hread Hclose. unfold rawPUT. rewrite Hread, Hclose.
  clear Hread Hclose.
  destruct (ReadAll_Limit _ _) as [content [e|]]; [done|].
  destruct (body_closeErr _); [done|].
  destruct (NewRequest env "PUT" url _) as [req|e]; [|done].
  unfold rawPUT_headers. by rewrite (copyHeaders_ext r r').
Qed.

(** X16.  Nothing behind the ceiling shows.  Two inbound requests with the
    same headers, whose bodies (as preprocessing hands them on) are longer
    than the ceiling of the format, agree on the bytes before it and close
    alike, get the same call: the same writer and the same trace.  The
    bytes behind the ceiling, and a read error waiting there, change
    nothing. *)
Theorem PUT_blind_behind_ceiling (env : Env) (s : State)
    (url format token : string) (r r' : Request)
    (w1 : ResponseWriter) (r1 r1' : Request) (perr : option error) :
  req_Header r' = req_Header r →
  requestPreprocessing env (st_w (allowOrigin r s)) r = (w1, r1, perr) →
  requestPreprocessing env (st_w (allowOrigin r s)) r' = (w1, r1', perr) →
  req_Header r1' = req_Header r1 →
  body_closeErr (req_Body r1') = body_closeErr (req_Body r1) →
  (ceiling_of env format < Z.of_nat (length (body_data (req_Body r1))))%Z →
  (ceiling_of env format < Z.of_nat (length (body_data (req_Body r1'))))%Z →
  take (Z.to_nat (ceiling_of env format)) (body_data (req_Body r1'))
  = take (Z.to_nat (ceiling_of env format)) (body_data (req_Body r1)) →
  PUT env s url format token r' = PUT env s url format token r.
Proof.
  intros Hh Hpre Hpre' Hh1 Hclose Hlen Hlen' Htake.
  assert (Hread : ReadAll_Limit (req_Body r1') (ceiling_of env format)
                  = ReadAll_Limit (req_Body r1) (ceiling_of env format))
    by (rewrite !ReadAll_Limit_over by lia; by rewrite Htake).
  clear Hlen Hlen' Htake.
  assert (Ho : allowOrigin r' s = allowOrigin r s)
    by (unfold allowOrigin; by rewrite Hh).
  unfold PUT. rewrite Ho, Hpre, Hpre'. destruct perr as [e|]; [done|].
  revert Hread. unfold ceiling_of.
  case_decide as HRAW; intros Hread; [by apply rawPUT_ext|].
  case_decide as Hfmt; [done|].
  rewrite Hread, Hclose. clear Hread Hclose.
  destruct (ReadAll_Limit _ _) as [content [e|]]; [done|].
  destruct (body_closeErr _); [done|].
  destruct (json_Unmarshal env content) as [data [e|]]; [done|].
  case_decide; [by apply xmlPUT_ext|].
  case_decide; [by apply jsonPUT_ext|done].
Qed.

(** X17.  A decoded value that [xml.Marshal] refuses (it refuses every map,
    so every JSON object) ends an XML call before the backend is reached:
    the inbound body has been read and closed, the backend is not called,
    and the client is answered 422 with Content-Type
    [application/json; charset=UTF-8]. *)
Theorem PUT_XML_unencodable (env : Env) s url token r w1 r1 content data e :
  requestPreprocessing env (st_w (allowOrigin r s)) r = (w1, r1, None) →
  ReadAll_Limit (req_Body r1) (MaxRequestSize env) = (content, None) →
  body_closeErr (req_Body r1) = None →
  json_Unmarshal env content = (data, None) →
  xml_Marshal env data = inr e →
  rw_wroteHeader w1 = false →
  helpers_extend env →
  let s' := PUT env s url "XML" token r in
  answered_with (st_w s') StatusUnprocessableEntity
    "application/json; charset=UTF-8"
  ∧ unlogged s' = unlogged s ++ [EvReadBody (MaxRequestSize env); EvCloseBody]
  ∧ backendCalls s' = backendCalls s.
Proof.
  intros Hpre Hread Hclose Hdec Henc Hw Hext s'.
  assert (Heq : s' = Log ERR e
                  (invalidPUT env
                     (emit EvCloseBody
                        (emit (EvReadBody (MaxRequestSize env))
                           {| st_w := w1;
                              st_trace := st_trace (allowOrigin r s) |}))
                     (Some e))).
  { subst s'. unfold PUT. rewrite Hpre.
    rewrite decide_False by done. rewrite decide_False by (intros [? _]; done).
    rewrite Hread, Hclose, Hdec. rewrite decide_True by done.
    unfold xmlPUT. by rewrite Henc. }
  assert (Hsteps : unlogged s'
            = unlogged s ++ [EvReadBody (MaxRequestSize env); EvCloseBody]).
  { rewrite Heq, unlogged_Log, unlogged_invalidPUT.
    rewrite !unlogged_emit by discriminate. rewrite unlogged_mk.
    unfold unlogged. rewrite allowOrigin_trace. by rewrite <- app_assoc. }
  split; [|split; [done|]].
  - rewrite Heq. cbn [st_w Log emit]. by apply invalidPUT_answered.
  - rewrite !backendCalls_unlogged, Hsteps, omap_app. simpl.
    by rewrite app_nil_r.
Qed.


(** * The code on concrete calls *)

Import Fragment.

(** C3.  A JSON client's request to an XML service: [xmlPUT] sets the XML
    Content-Type first and copies the inbound headers over it, so the
    backend is sent the XML body under the client's [application/json];
    [jsonPUT], which copies first, sends its own Content-Type. *)
Theorem xmlPUT_sends_inbound_ContentType :
  let e := world (answers 200 ∅ "<a/>") in
  let r := request {["Content-Type" := ["application/json"]]} "1" in
  (∃ req, backendCalls (PUT e fresh svc "XML" "" r) = [req]
          ∧ out_Body req = b "<float64>1</float64>"
          ∧ out_Header req !! "Content-Type" = Some ["application/json"]
          ∧ out_Header req !! "Content-Type" ≠ Some [XMLHeader e])
  ∧ (∃ req, backendCalls (PUT e fresh svc "JSON" "" r) = [req]
            ∧ out_Header req !! "Content-Type" = Some [JSONHeader e]).
Proof.
  split.
  - eexists. split; [vm_compute; reflexivity|].
    split; [vm_compute; reflexivity|].
    split; [vm_compute; reflexivity|].
    vm_compute. discriminate.
  - eexists. split; [vm_compute; reflexivity|]. vm_compute; reflexivity.
Qed.

(** C4.  Two responses in one call.  A RAW call whose backend answers 500
    and then breaks off: the failure branch writes the status 500 and, having
    no [return], runs on into the tail it shares with success, where the
    failed read sends the call into [invalidPUT]: a second status line, 422,
    which the writer drops, and the 422 body under the status 500.  A
    successful XML call: the body is written, which sends the status line
    with 200, and then [WriteHeader(200)] is called, a second status line,
    dropped as well.  The JSON sibling asks for one. *)
Theorem two_status_lines_in_one_call :
  let r := request ∅ "1" in
  (let w := st_w (PUT (world (breaks_off 500)) fresh svc "RAW" "" r) in
   rw_status w = 500
   ∧ rw_body w = error_object 422 "Unprocessable Entity" ++ [newline]
   ∧ rw_superfluous w = 1%nat ∧ statusLines w = 2%nat)
  ∧ (let w := st_w (PUT (world (answers 200 ∅ "<a/>")) fresh svc "XML" "" r) in
     rw_status w = 200 ∧ rw_body w = b "null" ++ [newline]
     ∧ rw_superfluous w = 1%nat ∧ statusLines w = 2%nat)
  ∧ (let w := st_w (PUT (world (answers 200 ∅ "1")) fresh svc "JSON" "" r) in
     rw_status w = 200 ∧ rw_body w = b "1" ++ [newline]
     ∧ rw_superfluous w = 0%nat ∧ statusLines w = 1%nat).
Proof. repeat split; vm_compute; reflexivity. Qed.

(** C5.  Under JSON and XML a 302 and a 500 from the backend end the call
    with the response body left open: the deferred [Close] is registered
    after those branches have returned.  The 200 path closes it, and so
    does every RAW path. *)
Theorem structured_failure_leaves_body_open :
  let r := request ∅ "1" in
  let run := λ code format,
    PUT (world (answers code ∅ "<a/>")) fresh svc format "" r in
  (responsesObtained (run 302 "JSON") = 1%nat
   ∧ responseCloses (run 302 "JSON") = 0%nat)
  ∧ (responsesObtained (run 500 "JSON") = 1%nat
     ∧ responseCloses (run 500 "JSON") = 0%nat)
  ∧ (responsesObtained (run 302 "XML") = 1%nat
     ∧ responseCloses (run 302 "XML") = 0%nat)
  ∧ (responsesObtained (run 500 "XML") = 1%nat
     ∧ responseCloses (run 500 "XML") = 0%nat)
  ∧ (responsesObtained (run 200 "XML") = 1%nat
     ∧ responseCloses (run 200 "XML") = 1%nat)
  ∧ (responsesObtained (run 500 "RAW") = 1%nat
     ∧ responseCloses (run 500 "RAW") = 1%nat).
Proof. repeat split; vm_compute; reflexivity. Qed.

(** C10.  The object [invalidPUT] encodes has the keys Code, Text and
    Specfically: there is no key Specifically.  On an unsupported format the
    client gets 422 and that object. *)
Theorem invalidPUT_key_is_Specfically :
  (∀ err, dom (invalidPUT_data err)
          = ({["Code"; "Text"; "Specfically"]} : gset string))
  ∧ (∀ err, invalidPUT_data err !! "Specifically" = None)
  ∧ (∀ err, invalidPUT_data err !! "Specfically" = Some (error_value err))
  ∧ (let w := st_w (PUT (world (answers 200 ∅ "1")) fresh svc "YAML" ""
                      (request ∅ "1")) in
     rw_status w = StatusUnprocessableEntity
     ∧ rw_body w = error_object 422 "Unprocessable Entity" ++ [newline]).
Proof.
  split; [|split; [|split]].
  - intros err. unfold invalidPUT_data. rewrite !dom_insert_L, dom_empty_L.
    set_solver.
  - intros err. unfold invalidPUT_data. by rewrite !lookup_insert_ne.
  - intros err. unfold invalidPUT_data.
    rewrite !lookup_insert_ne by done. by rewrite lookup_insert_eq.
  - split; vm_compute; reflexivity.
Qed.


(** C2, as stated, fails under XML, both ways.  The body [<a/>] is one the
    XML decoder accepts (it leaves the value nil), so the claim has the call
    go on as [xmlPUT] with that value, which sends the backend a request;
    the code puts the body to the JSON decoder, which refuses it, and the
    backend is never called.  The body [1] is one the XML decoder refuses;
    the code decodes it as JSON and sends the backend its XML encoding. *)
Lemma PUT_XML_body_goes_to_JSON_decoder :
  let e := world (answers 200 ∅ "<a/>") in
  let s1 := emit EvCloseBody (emit (EvReadBody (MaxRequestSize e)) fresh) in
  (let r := request ∅ "<a/>" in
   ReadAll_Limit (req_Body r) (MaxRequestSize e) = (b "<a/>", None)
   ∧ xml_Unmarshal e (b "<a/>") = (VNil, None)
   ∧ length (backendCalls (xmlPUT e r s1 svc "" VNil)) = 1%nat
   ∧ backendCalls (PUT e fresh svc "XML" "" r) = []
   ∧ PUT e fresh svc "XML" "" r ≠ xmlPUT e r s1 svc "" VNil)
  ∧ (let r := request ∅ "1" in
     ReadAll_Limit (req_Body r) (MaxRequestSize e) = (b "1", None)
     ∧ (xml_Unmarshal e (b "1")).2 = Some "EOF"
     ∧ ∃ req, backendCalls (PUT e fresh svc "XML" "" r) = [req]
              ∧ out_Body req = b "<float64>1</float64>").
Proof.
  split.
  - repeat split; try (vm_compute; reflexivity).
    intros H. apply (f_equal backendCalls) in H. vm_compute in H. discriminate.
  - split; [vm_compute; reflexivity|]. split; [vm_compute; reflexivity|].
    eexists. split; vm_compute; reflexivity.
Qed.

(** C8, as stated, fails under JSON.  With a ceiling of 4 bytes the body
    [1e9], 3 bytes long, is read whole and decoded; what is sent on is its
    re-encoding [1000000000], 10 bytes long. *)
Lemma jsonPUT_forwards_more_than_ceiling :
  let e := env 4 64 (answers 200 ∅ "1") in
  let r := request ∅ "1e9" in
  MaxRequestSize e = 4
  ∧ length (body_data (req_Body r)) = 3%nat
  ∧ ∃ req, backendCalls (PUT e fresh svc "JSON" "" r) = [req]
           ∧ out_Body req = b "1000000000"
           ∧ (Z.to_nat (MaxRequestSize e) < length (out_Body req))%nat.
Proof.
  split; [reflexivity|]. split; [reflexivity|].
  eexists. split; [vm_compute; reflexivity|].
  split; [vm_compute; reflexivity|]. vm_compute. lia.
Qed.

(** * The theorems at work *)

Lemma notify_keeps_status (maxRequest maxUpload : Z) backend code msg :
  keeps_status
    (λ w, notifyClientOfRequestError (env maxRequest maxUpload backend)
            w code msg).
Proof.
  intros w Hw. simpl. unfold rw_WriteHeader. by rewrite Hw.
Qed.

(** A backend redirect under JSON. *)
Lemma PUT_redirect_witness :
  let e := world (answers 302 {["Location" := ["https://x/y"]]} "") in
  let s' := PUT e fresh svc "JSON" "" (request ∅ "1") in
  rw_status (st_w s') = 302
  ∧ Header_Get (rw_sent (st_w s')) "Location" = "https://x/y"
  ∧ rw_body (st_w s') = []
  ∧ length (st_trace s') = 5%nat.
Proof.
  intros e s'.
  destruct (PUT_redirect e fresh svc "JSON" "" (request ∅ "1")
              (st_w fresh) (request ∅ "1")
              (jsonPUT_request e (request ∅ "1") svc "" (b "1"))
              {| resp_StatusCode := 302;
                 resp_Header := {["Location" := ["https://x/y"]]};
                 resp_Body := body "" |})
    as (_ & Hst & _ & Hloc & Hbody & Htr).
  - by left.
  - reflexivity.
  - reflexivity.
  - reflexivity.
  - apply (forwarded_JSON e _ svc "" (b "1") (VNum 1) (b "1")); reflexivity.
  - reflexivity.
  - reflexivity.
  - fold s' in Hst, Hloc, Hbody, Htr.
    split; [exact Hst|]. split; [rewrite Hloc; reflexivity|].
    split; [rewrite Hbody; reflexivity|]. rewrite Htr. reflexivity.
Defined.


(** An unsupported tag. *)
Lemma PUT_unsupported_format_witness :
  let s' := PUT (world (answers 200 ∅ "1")) fresh svc "YAML" ""
              (request ∅ "1") in
  rw_status (st_w s') = StatusUnprocessableEntity
  ∧ backendCalls s' = []
  ∧ bodyReads s' = [].
Proof.
  intros s'.
  destruct (PUT_unsupported_format (world (answers 200 ∅ "1")) fresh svc
              "YAML" "" (request ∅ "1") (st_w fresh) (request ∅ "1"))
    as (_ & Hst & Hcalls & l & Htr & Hlogs & _).
  - discriminate.
  - discriminate.
  - discriminate.
  - reflexivity.
  - reflexivity.
  - intros code msg. apply notify_keeps_status.
  - fold s' in Hst, Hcalls, Htr. split; [exact Hst|]. split; [exact Hcalls|].
    rewrite !bodyReads_unlogged. by rewrite (unlogged_logs fresh s' l Htr Hlogs).
Defined.

(** An XML call whose body is JSON. *)
Lemma PUT_decodes_JSON_witness :
  let e := world (answers 200 ∅ "<a/>") in
  PUT e fresh svc "XML" "" (request ∅ "1")
  = xmlPUT e (request ∅ "1")
      (emit EvCloseBody (emit (EvReadBody (MaxRequestSize e)) fresh))
      svc "" (VNum 1).
Proof.
  intros e.
  destruct (PUT_decodes_JSON e fresh svc "XML" "" (request ∅ "1") (st_w fresh)
              (request ∅ "1") (b "1")) as [Hvalue _].
  - by right.
  - reflexivity.
  - reflexivity.
  - reflexivity.
  - apply (Hvalue (VNum 1)). reflexivity.
Defined.

(** An upload longer than a ceiling of 4 bytes. *)
Lemma PUT_ceiling_witness :
  let e := env 1048576 4 (answers 200 ∅ "ok") in
  ∃ req, backendCalls (PUT e fresh svc "RAW" "" (request ∅ "123456")) = [req]
         ∧ out_Body req = b "1234"
         ∧ bodyReads (PUT e fresh svc "RAW" "" (request ∅ "123456")) = [4].
Proof.
  intros e.
  destruct (PUT_ceiling e fresh svc "RAW" "" (request ∅ "123456"))
    as ((limits & Hreads & Hlim) & _ & new & Hnew & Hbody).
  assert (backendCalls (PUT e fresh svc "RAW" "" (request ∅ "123456"))
          = [rawPUT_request (request ∅ "123456") svc "" (b "1234")]) as Hrun
    by (vm_compute; reflexivity).
  rewrite Hrun in Hnew. simpl in Hnew. subst new.
  eexists. split; [exact Hrun|].
  destruct (Hbody _ (list_elem_of_here _ _)) as [(_ & Hout & _)|[[? _]|[? _]]];
    try discriminate.
  split; [rewrite Hout; reflexivity|]. vm_compute; reflexivity.
Defined.

(** An inbound Authorization header, without and with a token. *)
Lemma PUT_Authorization_witness :
  let e := world (answers 200 ∅ "ok") in
  let r := request {["Authorization" := ["Basic abc"]]} "1" in
  (∃ req, backendCalls (PUT e fresh svc "RAW" "" r) = [req]
          ∧ out_Header req !! "Authorization" = Some ["Basic abc"])
  ∧ (∃ req, backendCalls (PUT e fresh svc "RAW" "tok" r) = [req]
            ∧ out_Header req !! "Authorization" = Some ["tok"]).
Proof.
  intros e r. split.
  - destruct (PUT_Authorization e fresh svc "RAW" "" r) as (new & Hnew & Hauth).
    assert (backendCalls (PUT e fresh svc "RAW" "" r)
            = [rawPUT_request r svc "" (b "1")]) as Hrun
      by (vm_compute; reflexivity).
    rewrite Hrun in Hnew. simpl in Hnew. subst new.
    eexists. split; [exact Hrun|].
    destruct (Hauth _ (list_elem_of_here _ _)) as [Hempty _].
    rewrite Hempty by reflexivity. reflexivity.
  - destruct (PUT_Authorization e fresh svc "RAW" "tok" r)
      as (new & Hnew & Hauth).
    assert (backendCalls (PUT e fresh svc "RAW" "tok" r)
            = [rawPUT_request r svc "tok" (b "1")]) as Hrun
      by (vm_compute; reflexivity).
    rewrite Hrun in Hnew. simpl in Hnew. subst new.
    eexists. split; [exact Hrun|].
    destruct (Hauth _ (list_elem_of_here _ _)) as [_ Htok].
    apply Htok. discriminate.
Defined.

(** ** The helpers of the two environments *)

Lemma fragment_helpers_extend (maxRequest maxUpload : Z) backend :
  helpers_extend (env maxRequest maxUpload backend).
Proof. split; intros; apply extends_WriteHeader. Qed.

Lemma objects_helpers_extend backend : helpers_extend (Objects.env backend).
Proof. split; intros; apply extends_WriteHeader. Qed.

Lemma fragment_invalidPOST_answers (maxRequest maxUpload : Z) backend w err :
  rw_wroteHeader (invalidPOST (env maxRequest maxUpload backend) w err) = true.
Proof. apply rw_WriteHeader_wrote. Qed.

(** A backend that cannot be reached. *)
Lemma PUT_transport_failure_witness :
  let e := world (λ _ _, inr "dial tcp: connection refused") in
  let s' := PUT e fresh svc "XML" "" (request ∅ "1") in
  rw_status (st_w s') = StatusUnprocessableEntity
  ∧ length (backendCalls s') = 1%nat
  ∧ responseReads s' = 0%nat.
Proof.
  intros e s'.
  destruct (PUT_transport_failure e fresh svc "XML" "" (request ∅ "1")
              (st_w fresh) (request ∅ "1")
              (xmlPUT_request e (request ∅ "1") svc ""
                 (b "<float64>1</float64>"))
              "dial tcp: connection refused")
    as ((_ & Hst & _) & Hsteps & Hreads & _).
  - reflexivity.
  - reflexivity.
  - apply (forwarded_XML e _ svc "" (b "1") (VNum 1)
             (b "<float64>1</float64>")); reflexivity.
  - reflexivity.
  - reflexivity.
  - apply fragment_helpers_extend.
  - fold s' in Hst, Hsteps, Hreads. split; [exact Hst|].
    split; [|exact Hreads].
    rewrite backendCalls_unlogged, Hsteps. reflexivity.
Defined.

(** The worst path: a RAW call whose backend answers 500 and breaks off. *)
Lemma PUT_always_answers_witness :
  rw_wroteHeader
    (st_w (PUT (world (breaks_off 500)) fresh svc "RAW" "" (request ∅ "1")))
  = true.
Proof.
  apply (PUT_always_answers (world (breaks_off 500)) fresh svc "RAW" ""
           (request ∅ "1") (st_w fresh) (request ∅ "1")).
  - reflexivity.
  - reflexivity.
  - apply fragment_helpers_extend.
  - intros w err. apply fragment_invalidPOST_answers.
Defined.

(** A header of the caller's own comes through an XML call untouched. *)
Lemma PUT_respects_writer_witness :
  let e := world (answers 200 ∅ "<a/>") in
  let s := on_w (λ w, rw_Set w "X-Request-Id" "7") fresh in
  rw_header (st_w (PUT e s svc "XML" "" (request ∅ "1"))) !! "X-Request-Id"
  = Some ["7"].
Proof.
  intros e s.
  destruct (PUT_respects_writer e s svc "XML" "" (request ∅ "1") (st_w s)
              (request ∅ "1") None) as (Hh & _ & _).
  - reflexivity.
  - apply fragment_helpers_extend.
  - rewrite Hh by discriminate. reflexivity.
Defined.

(** A JSON call from a browser page. *)
Lemma PUT_sends_CORS_witness :
  let e := world (answers 200 ∅ "1") in
  let r := request {["Origin" := ["https://a.example"]]} "1" in
  let w' := st_w (PUT e fresh svc "JSON" "" r) in
  rw_sent w' !! "Access-Control-Allow-Origin" = Some ["https://a.example"]
  ∧ rw_sent w' !! "Access-Control-Allow-Methods" = Some ["PUT"].
Proof.
  intros e r w'.
  destruct (PUT_sends_CORS e fresh svc "JSON" "" r
              (st_w (allowOrigin r fresh)) r) as (Ho & Hm & _).
  - intros H. vm_compute in H. discriminate.
  - reflexivity.
  - reflexivity.
  - reflexivity.
  - apply fragment_helpers_extend.
  - reflexivity.
  - fold w' in Ho, Hm. split; [rewrite Ho; reflexivity|exact Hm].
Defined.

(** An inbound body that breaks off. *)
Lemma PUT_inbound_read_failure_witness :
  let e := world (answers 200 ∅ "1") in
  let r := {| req_Header := ∅;
              req_Body := {| body_data := b "1";
                             body_readErr := Some "unexpected EOF";
                             body_closeErr := None |} |} in
  let s' := PUT e fresh svc "JSON" "" r in
  rw_status (st_w s') = StatusUnprocessableEntity
  ∧ bodyCloses s' = 0%nat
  ∧ backendCalls s' = [].
Proof.
  intros e r s'.
  destruct (PUT_inbound_read_failure e fresh svc "JSON" "" r (st_w fresh) r
              (b "1") "unexpected EOF")
    as ((_ & Hst & _) & _ & Hcl & Hcalls).
  - by left.
  - reflexivity.
  - reflexivity.
  - reflexivity.
  - apply fragment_helpers_extend.
  - fold s' in Hst, Hcl, Hcalls. by split; [|split].
Defined.

(** An inbound body that does not close. *)
Lemma PUT_inbound_close_failure_witness :
  let e := world (answers 200 ∅ "1") in
  let r := {| req_Header := ∅;
              req_Body := {| body_data := b "1";
                             body_readErr := None;
                             body_closeErr := Some "already closed" |} |} in
  let s' := PUT e fresh svc "RAW" "" r in
  rw_status (st_w s') = StatusUnprocessableEntity
  ∧ backendCalls s' = [].
Proof.
  intros e r s'.
  destruct (PUT_inbound_close_failure e fresh svc "RAW" "" r (st_w fresh) r
              (b "1") "already closed")
    as ((_ & Hst & _) & _ & Hcalls).
  - by right; right.
  - reflexivity.
  - reflexivity.
  - reflexivity.
  - reflexivity.
  - apply fragment_helpers_extend.
  - fold s' in Hst, Hcalls. by split.
Defined.

(** A 500 from an XML service. *)
Lemma PUT_backend_failure_status_witness :
  let e := world (answers 500 ∅ "<a/>") in
  let w' := st_w (PUT e fresh svc "XML" "" (request ∅ "1")) in
  rw_status w' = 500
  ∧ rw_sent w' !! "Content-Type" = Some ["application/xml; charset=UTF-8"].
Proof.
  intros e w'.
  destruct (PUT_backend_failure_status e fresh svc "XML" "" (request ∅ "1")
              (st_w fresh) (request ∅ "1")
              (xmlPUT_request e (request ∅ "1") svc ""
                 (b "<float64>1</float64>"))
              {| resp_StatusCode := 500; resp_Header := ∅;
                 resp_Body := body "<a/>" |})
    as (_ & Hst & Hct).
  - reflexivity.
  - reflexivity.
  - apply (forwarded_XML e _ svc "" (b "1") (VNum 1)
             (b "<float64>1</float64>")); reflexivity.
  - reflexivity.
  - discriminate.
  - intros _. discriminate.
  - reflexivity.
  - apply fragment_helpers_extend.
  - fold w' in Hst, Hct. split; [exact Hst|]. rewrite Hct. reflexivity.
Defined.

(** A 200 from a JSON service. *)
Lemma PUT_structured_success_witness :
  let e := world (answers 200 ∅ "1e9") in
  let s' := PUT e fresh svc "JSON" "" (request ∅ "1") in
  rw_status (st_w s') = StatusOK
  ∧ rw_body (st_w s') = b "1000000000" ++ [newline]
  ∧ responseCloses s' = 1%nat.
Proof.
  intros e s'.
  destruct (PUT_structured_success e fresh svc "JSON" "" (request ∅ "1")
              (st_w fresh) (request ∅ "1")
              (jsonPUT_request e (request ∅ "1") svc "" (b "1"))
              {| resp_StatusCode := 200; resp_Header := ∅;
                 resp_Body := body "1e9" |}
              (json_Unmarshal e) (VNum 1000000000) (b "1000000000"))
    as ((_ & Hst & _) & Hbody & _ & Hcl).
  - reflexivity.
  - reflexivity.
  - apply (forwarded_JSON e _ svc "" (b "1") (VNum 1) (b "1")); reflexivity.
  - reflexivity.
  - reflexivity.
  - reflexivity.
  - reflexivity.
  - reflexivity.
  - reflexivity.
  - apply fragment_helpers_extend.
  - fold s' in Hst, Hbody, Hcl. split; [exact Hst|].
    split; [rewrite Hbody by reflexivity; reflexivity|exact Hcl].
Defined.


(** A 200 whose body is not JSON. *)
Lemma PUT_success_undecodable_witness :
  let e := world (answers 200 ∅ "oops") in
  let s' := PUT e fresh svc "JSON" "" (request ∅ "1") in
  rw_status (st_w s') = StatusUnprocessableEntity
  ∧ responseCloses s' = 1%nat.
Proof.
  intros e s'.
  destruct (PUT_success_undecodable e fresh svc "JSON" "" (request ∅ "1")
              (st_w fresh) (request ∅ "1")
              (jsonPUT_request e (request ∅ "1") svc "" (b "1"))
              {| resp_StatusCode := 200; resp_Header := ∅;
                 resp_Body := body "oops" |}
              (json_Unmarshal e) VNil
              "invalid character looking for beginning of value")
    as ((_ & Hst & _) & _ & Hcl).
  - reflexivity.
  - reflexivity.
  - apply (forwarded_JSON e _ svc "" (b "1") (VNum 1) (b "1")); reflexivity.
  - reflexivity.
  - reflexivity.
  - reflexivity.
  - reflexivity.
  - reflexivity.
  - apply fragment_helpers_extend.
  - fold s' in Hst, Hcl. by split.
Defined.

(** [invalidPUT] on a fresh writer. *)
Lemma invalidPUT_answers_422_witness :
  let s' := invalidPUT (world (answers 200 ∅ "1")) fresh (Some "boom") in
  rw_status (st_w s') = StatusUnprocessableEntity
  ∧ rw_sent (st_w s') !! "Content-Type"
    = Some ["application/json; charset=UTF-8"].
Proof.
  intros s'.
  destruct (invalidPUT_answers_422 (world (answers 200 ∅ "1")) fresh
              (Some "boom")) as ((_ & Hst & Hct) & _).
  - reflexivity.
  - apply fragment_helpers_extend.
  - fold s' in Hst, Hct. by split.
Defined.

(** A call that logs nothing. *)
Lemma PUT_silent_got_200_witness :
  let e := world (answers 200 ∅ "1") in
  ∃ req resp,
    forwarded e (request ∅ "1") svc "" "JSON" req
    ∧ client_Do e (noRedirectClient e) req = inl resp
    ∧ resp_StatusCode resp = StatusOK.
Proof.
  intros e.
  destruct (PUT_silent_got_200 e fresh svc "JSON" "" (request ∅ "1")
              (st_w fresh) (request ∅ "1"))
    as (req & resp & _ & Hf & Hdo & H200).
  - reflexivity.
  - reflexivity.
  - vm_compute. reflexivity.
  - exists req, resp. split; [exact Hf|]. split; [exact Hdo|exact H200].
Defined.

(** Two uploads over a ceiling of 4 bytes; the second breaks off behind
    it. *)
Lemma PUT_blind_behind_ceiling_witness :
  let e := env 1048576 4 (answers 200 ∅ "ok") in
  let r' := {| req_Header := ∅;
               req_Body := {| body_data := b "1234xyz";
                              body_readErr := Some "unexpected EOF";
                              body_closeErr := None |} |} in
  PUT e fresh svc "RAW" "" r' = PUT e fresh svc "RAW" "" (request ∅ "12345678").
Proof.
  intros e r'.
  apply (PUT_blind_behind_ceiling e fresh svc "RAW" "" (request ∅ "12345678")
           r' (st_w fresh) (request ∅ "12345678") r' None).
  - reflexivity.
  - reflexivity.
  - reflexivity.
  - reflexivity.
  - reflexivity.
  - by vm_compute.
  - by vm_compute.
  - reflexivity.
Defined.

(** A JSON object sent to an XML service. *)
Lemma PUT_XML_unencodable_witness :
  let e := Objects.env (answers 200 ∅ "<a/>") in
  let s' := PUT e fresh svc "XML" "" (request ∅ "{}") in
  rw_status (st_w s') = StatusUnprocessableEntity
  ∧ backendCalls s' = [].
Proof.
  intros e s'.
  destruct (PUT_XML_unencodable e fresh svc "" (request ∅ "{}") (st_w fresh)
              (request ∅ "{}") (b "{}") (VMap ∅)
              "xml: unsupported type: map[string]interface {}")
    as ((_ & Hst & _) & _ & Hcalls).
  - reflexivity.
  - reflexivity.
  - reflexivity.
  - reflexivity.
  - reflexivity.
  - reflexivity.
  - apply objects_helpers_extend.
  - fold s' in Hst, Hcalls. by split.
Defined.

(** One JSON call: read, close, then the one call to the backend. *)
Lemma PUT_calls_backend_once_after_body_witness :
  let e := world (answers 200 ∅ "1") in
  let s' := PUT e fresh svc "JSON" "" (request ∅ "1") in
  ∃ c req after,
    unlogged s' = EvReadBody 1048576 :: EvCloseBody :: EvDo c req :: after
    ∧ omap do_of after = [].
Proof.
  intros e s'.
  destruct (PUT_calls_backend_once_after_body e fresh svc "JSON" ""
              (request ∅ "1")) as (steps & Hsteps & _ & Hfirst).
  fold s' in Hsteps. simpl in Hsteps.
  set (c := noRedirectClient e).
  set (req := jsonPUT_request e (request ∅ "1") svc "" (b "1")).
  assert (EvDo c req ∈ steps) as Hin.
  { rewrite <- Hsteps. vm_compute. do 2 apply list_elem_of_further.
    apply list_elem_of_here. }
  destruct (Hfirst c req Hin) as (after & Heq & Hafter).
  exists c, req, after. rewrite Hsteps. by split.
Defined.

(** The call of a JSON pipeline and the call of the RAW pipeline. *)
Lemma PUT_call_shape_witness :
  let e := world (answers 200 ∅ "1") in
  (∃ c req, backendDos (PUT e fresh svc "JSON" "" (request ∅ "1")) = [(c, req)]
            ∧ out_Method req = "PUT" ∧ out_URL req = svc
            ∧ client_NoFollow c = true)
  ∧ (∃ c req, backendDos (PUT e fresh svc "RAW" "" (request ∅ "1")) = [(c, req)]
              ∧ client_Timeout c = 10 ∧ client_NoFollow c = false).
Proof.
  intros e. split.
  - destruct (PUT_call_shape e fresh svc "JSON" "" (request ∅ "1"))
      as (new & Hnew & Hshape).
    assert (backendDos (PUT e fresh svc "JSON" "" (request ∅ "1"))
            = [(noRedirectClient e,
                jsonPUT_request e (request ∅ "1") svc "" (b "1"))]) as Hrun
      by (vm_compute; reflexivity).
    rewrite Hrun in Hnew. simpl in Hnew. subst new.
    destruct (Hshape _ _ (list_elem_of_here _ _)) as (Hm & Hu & _ & Hn).
    eexists _, _. split; [exact Hrun|]. split; [exact Hm|].
    split; [exact Hu|]. rewrite Hn. reflexivity.
  - destruct (PUT_call_shape e fresh svc "RAW" "" (request ∅ "1"))
      as (new & Hnew & Hshape).
    assert (backendDos (PUT e fresh svc "RAW" "" (request ∅ "1"))
            = [(defaultClient e, rawPUT_request (request ∅ "1") svc "" (b "1"))])
      as Hrun by (vm_compute; reflexivity).
    rewrite Hrun in Hnew. simpl in Hnew. subst new.
    destruct (Hshape _ _ (list_elem_of_here _ _)) as (_ & _ & Ht & Hn).
    eexists _, _. split; [exact Hrun|]. split; [rewrite Ht; reflexivity|].
    rewrite Hn. reflexivity.
Defined.

(** A header of the client's own reaches an XML service. *)
Lemma PUT_forwards_other_headers_witness :
  let e := world (answers 200 ∅ "<a/>") in
  let r := request {["X-Trace" := ["abc"]]} "1" in
  ∃ req, backendCalls (PUT e fresh svc "XML" "" r) = [req]
         ∧ out_Header req !! "X-Trace" = Some ["abc"]
         ∧ out_Header req !! "Accept" = None.
Proof.
  intros e r.
  destruct (PUT_forwards_other_headers e fresh svc "XML" "" r)
    as (new & Hnew & Hother).
  assert (backendCalls (PUT e fresh svc "XML" "" r)
          = [xmlPUT_request e r svc "" (b "<float64>1</float64>")]) as Hrun
    by (vm_compute; reflexivity).
  rewrite Hrun in Hnew. simpl in Hnew. subst new.
  eexists. split; [exact Hrun|]. split.
  - rewrite (Hother _ "X-Trace" (list_elem_of_here _ _)); [reflexivity|done|].
    by right.
  - rewrite (Hother _ "Accept" (list_elem_of_here _ _)); [reflexivity|done|].
    by right.
Defined.

(** A target url with a broken escape, under JSON. *)
Lemma PUT_panics_witness :
  let e := world (answers 200 ∅ "1") in
  let s' := PUT e fresh badURL "JSON" "" (request ∅ "1") in
  rw_wroteHeader (st_w s') = false
  ∧ st_trace s' = [EvReadBody 1048576; EvCloseBody; EvPanic].
Proof.
  intros e s'. subst s'.
  rewrite (PUT_panics e fresh badURL "JSON" "" (request ∅ "1") (st_w fresh)
             (request ∅ "1") (b "1") badURL_error).
  - split; reflexivity.
  - reflexivity.
  - reflexivity.
  - apply (payload_JSON e _ (b "1") (VNum 1) (b "1")); reflexivity.
  - reflexivity.
Defined.
